(** * Effort-hours aggregation tool: a shallow embedding of [code.py]

    The development follows the data flow of the program:
    Registry -> Sheet Extractor -> Employee Loader -> Aggregator ->
    Report Generator / visualisation input.

    Conventions of the embedding.
    - Text is [string] (a sequence of bytes); the program's strings are read
      as UTF-8, for which byte-wise lexicographic order is code-point order,
      i.e. the order Python's [sorted] uses on [str].  Case folding and digit
      classes are the ASCII ones.
    - A number held in a sheet is a whole number, written as an integer of
      [Z]; fractional hours are not written.  A column of numbers is int64
      when every cell holds a number and float64 as soon as one is missing.
      The row sums of the extractor follow the dtype: over int64 columns
      they wrap around modulo 2^64, as numpy's do.  Over float64 columns the
      model gives the exact sum, which is what float64 gives as long as the
      magnitudes stay below 2^53; the statements about the value of Hours
      say where they need that range.  The sums of the report (group sums,
      pivot totals, percentages) are taken in exact arithmetic.
    - Python sets of strings are [gset string]; [list(s)] is [elements s].
    - The file system is an explicit [World] value threaded through the
      functions that read or write it.  A workbook in it is given by the
      frames [pd.read_excel] returns for its sheets, so that "cell" always
      means a cell of such a frame.
    - Of openpyxl the model follows the checks that make [generate_report]
      fail (characters refused in a sheet title or in a cell) and the
      renaming of a sheet whose title is taken.  What the XML writer does
      with a control character in a sheet title depends on the installation
      and is not followed. *)

From Stdlib Require Import ZArith QArith Lia.
From Stdlib Require Import Strings.String Strings.Ascii Numbers.DecimalString.
From stdpp Require Import base decidable option list gmap sets strings sorting.

Local Open Scope string_scope.
Local Open Scope Z_scope.
Local Open Scope nat_scope.

#[local] Set Warnings "-clear-no-such-hyp".

(* ===================================================================== *)
(** ** Python [str] methods used by the program *)
(* ===================================================================== *)

Definition ascii_lower (c : ascii) : ascii :=
  let n := nat_of_ascii c in
  if (65 <=? n)%nat && (n <=? 90)%nat then ascii_of_nat (n + 32) else c.

(** [s.lower()] *)
Fixpoint str_lower (s : string) : string :=
  match s with
  | EmptyString => EmptyString
  | String c s' => String (ascii_lower c) (str_lower s')
  end.

(** [s.startswith(p)] *)
Fixpoint str_startswith (p s : string) : bool :=
  match p, s with
  | EmptyString, _ => true
  | String a p', String b s' => if Ascii.eqb a b then str_startswith p' s' else false
  | String _ _, EmptyString => false
  end.

(** [s.endswith(p)] *)
Definition str_endswith (p s : string) : bool :=
  str_startswith (String.rev p) (String.rev s).

(** [sub in s], which is also what [re.search] does for a pattern made of
    literal characters only. *)
Fixpoint str_contains (sub s : string) : bool :=
  str_startswith sub s ||
  match s with
  | EmptyString => false
  | String _ s' => str_contains sub s'
  end.

(** [s[len(p):]] when [s] starts with [p]. *)
Fixpoint strip_prefix (p s : string) : option string :=
  match p, s with
  | EmptyString, _ => Some s
  | String a p', String b s' => if Ascii.eqb a b then strip_prefix p' s' else None
  | String _ _, EmptyString => None
  end.

Definition is_digit (c : ascii) : bool :=
  let n := nat_of_ascii c in (48 <=? n)%nat && (n <=? 57)%nat.

(** Consume the longest run of digits at the head of [s]: the number of
    digits consumed and what is left. *)
Fixpoint span_digits (s : string) : nat * string :=
  match s with
  | String c s' =>
      if is_digit c then let '(n, r) := span_digits s' in (S n, r) else (O, s)
  | EmptyString => (O, EmptyString)
  end.

(** [re.fullmatch(r"STUDY\d+", s)]: the whole of [s] is the word followed by
    one digit or more. Case-sensitive, as no flag is passed. *)
Definition fullmatch_STUDY (s : string) : bool :=
  match strip_prefix "STUDY" s with
  | Some rest =>
      match span_digits rest with
      | (S _, EmptyString) => true
      | _ => false
      end
  | None => false
  end.

(** [re.search(r"^study\d+$", s)]: [^] anchors at the start; without
    [re.MULTILINE], [$] matches at the end of the string and also just
    before a newline that ends the string. *)
Definition search_study_anchored (s : string) : bool :=
  match strip_prefix "study" s with
  | Some rest =>
      match span_digits rest with
      | (S _, EmptyString) => true
      | (S _, String c EmptyString) => Ascii.eqb c "010"%char
      | _ => false
      end
  | None => false
  end.

(* ===================================================================== *)
(** ** Sheets: the raw grid read with [header=None] *)
(* ===================================================================== *)

(** A cell of a sheet, as the reader hands it over: a number, a text, or a
    missing value (NaN).  Booleans and dates, which a sheet may also hold,
    are left out; like a text they are no numbers for a dtype. *)
Inductive cell : Type :=
| CNum (z : Z)
| CStr (s : string)
| CNaN.

Definition grid : Type := list (list cell).

(** [str(x)] for a cell, as [Series.astype(str)] applies it.  A number is
    rendered in decimal; where the column or row is held as float64 pandas
    adds a fractional part (".0") or, for a large value, writes an exponent.
    Either rendering is made of digits, a sign, a point and the letter e,
    and so is invisible to every pattern the program uses. *)
Definition astype_str (c : cell) : string :=
  match c with
  | CNum z => NilZero.string_of_int (Z.to_int z)
  | CStr s => s
  | CNaN => "nan"
  end.

(** Number of columns of the frame: rows shorter than the widest one are
    padded with missing values by the reader. *)
Definition ncols (g : grid) : nat := foldr (fun r n => Nat.max (length r) n) O g.

(** [df.iat[i, j]] on one row. *)
Definition cell_at (row : list cell) (j : nat) : cell := nth j row CNaN.

Definition pad_row (w : nat) (row : list cell) : list cell :=
  map (cell_at row) (seq 0 w).

(** The frame [df_sheet]: every row has [ncols g] cells. *)
Definition frame_rows (g : grid) : list (list cell) := map (pad_row (ncols g)) g.

(** [df[col]] *)
Definition column (rows : list (list cell)) (j : nat) : list cell :=
  map (fun r => cell_at r j) rows.

(** dtype of a column in the "number" family.  A dtype belongs to the whole
    column of [df_sheet]: the column is int64 or float64 when every cell is
    a number or missing (a missing value turns int64 into float64, still a
    number dtype), and [object] as soon as one cell holds a text.  The sheet
    is read with [header=None], so a header text is a cell of its column
    like any other. *)
Definition cell_is_number_or_missing (c : cell) : bool :=
  match c with CStr _ => false | _ => true end.

Definition is_numeric_dtype (col : list cell) : bool :=
  forallb cell_is_number_or_missing col.

Definition cell_is_number (c : cell) : bool :=
  match c with CNum _ => true | _ => false end.

(** The two number dtypes of a column of whole numbers: int64 when every
    cell holds a number, float64 when some cell is missing. *)
Inductive num_dtype : Type := Int64 | Float64.

Definition number_dtype (col : list cell) : num_dtype :=
  if forallb cell_is_number col then Int64 else Float64.

Definition is_int64 (d : num_dtype) : bool :=
  match d with Int64 => true | Float64 => false end.

(** The int64 that numpy keeps of an integer result: its residue modulo
    2^64 in the range from -2^63 to 2^63 - 1. *)
Definition wrap_int64 (z : Z) : Z := ((z + 2 ^ 63) mod 2 ^ 64 - 2 ^ 63)%Z.

(** A row of the tables the program passes around.  [Employee] is filled in
    by the callers of the loader; a table lists the columns it carries. *)
Record EffortRow : Type := mkRow {
  StudyId : string;
  Hours : Z;
  Sheet : string;
  Employee : option string
}.

Record DataFrame : Type := mkDF {
  df_columns : list string;
  df_rows : list EffortRow
}.

(** [pd.DataFrame()] *)
Definition empty_frame : DataFrame := mkDF [] [].

(** [df.empty]: some axis has length 0. *)
Definition df_empty (df : DataFrame) : bool :=
  match df_columns df, df_rows df with
  | _ :: _, _ :: _ => false
  | _, _ => true
  end.

(* ===================================================================== *)
(** ** Sheet Extractor: [_extract_study_hours_from_sheet] *)
(* ===================================================================== *)

Definition extractor_columns : list string := ["Study ID"; "Hours"; "Sheet"].

(** [row.astype(str).str.lower()] *)
Definition row_str (row : list cell) : list string :=
  map (fun c => str_lower (astype_str c)) row.

(** The loop of lines 88-95, on the rows from index [idx] on: the value
    assigned to [data_start] at the [break], if the loop breaks. *)
Fixpoint scan_data_start (rows : list (list cell)) (idx : nat) : option nat :=
  match rows with
  | [] => None
  | row :: rest =>
      if existsb (str_contains "study id") (row_str row) then Some (S idx)
      else if existsb search_study_anchored (row_str row) then Some idx
      else scan_data_start rest (S idx)
  end.

Definition data_start (g : grid) : nat :=
  default O (scan_data_start (frame_rows g) O).

(** [df_sheet.iloc[data_start:]] *)
Definition df_data (g : grid) : list (list cell) :=
  drop (data_start g) (frame_rows g).

(** [df_data[col].astype(str).str.fullmatch(r"STUDY\d+", na=False)] *)
Definition valid_mask (rows : list (list cell)) (j : nat) : list bool :=
  map (fun c => fullmatch_STUDY (astype_str c)) (column rows j).

Definition any (l : list bool) : bool := existsb (fun b => b) l.

(** The loop of lines 99-103. *)
Definition find_study_col (w : nat) (rows : list (list cell)) : option nat :=
  find (fun j => any (valid_mask rows j)) (seq 0 w).

Definition study_col (g : grid) : option nat :=
  find_study_col (ncols g) (df_data g).

(** [df_data.select_dtypes(include="number").columns], each column with its
    dtype: the dtypes are those of [df_sheet]; slicing rows off a frame does
    not change them. *)
Definition numeric_cols (g : grid) : list (nat * num_dtype) :=
  map (fun j => (j, number_dtype (column (frame_rows g) j)))
      (filter (fun j => is_numeric_dtype (column (frame_rows g) j) = true)
              (seq 0 (ncols g))).

(** The value a cell adds to a row-wise [sum(axis=1)]: NaN is skipped. *)
Definition cell_value (c : cell) : Z :=
  match c with CNum z => z | _ => 0%Z end.

(** The sum of the row's cells in the given columns, as an integer. *)
Definition exact_sum (cols : list (nat * num_dtype)) (row : list cell) : Z :=
  foldr (fun c acc => (cell_value (cell_at row (fst c)) + acc)%Z) 0%Z cols.

(** [df.loc[row, cols].sum()]: when every summed column is int64 the result
    is an int64 and wraps around; with a float64 column among them the sum
    is taken in float64 (exact below 2^53, see the conventions). *)
Definition row_sum (cols : list (nat * num_dtype)) (row : list cell) : Z :=
  if forallb (fun c => is_int64 (snd c)) cols
  then wrap_int64 (exact_sum cols row)
  else exact_sum cols row.

Definition row_is_valid (sc : nat) (row : list cell) : bool :=
  fullmatch_STUDY (astype_str (cell_at row sc)).

(** One emitted row.  [study_ids] holds the raw cells that passed the mask;
    only a text can pass it (see [valid_cell_is_text]), and the rendering of
    a text is the text, so the model stores the rendering. *)
Definition emit_row (sheet_name : string) (cols : list (nat * num_dtype))
    (sc : nat) (row : list cell) : EffortRow :=
  mkRow (astype_str (cell_at row sc)) (row_sum cols row) sheet_name None.

Definition _extract_study_hours_from_sheet (g : grid) (sheet_name : string)
    : DataFrame :=
  if (length g =? 0)%nat || (ncols g =? 0)%nat then mkDF extractor_columns []
  else
    match study_col g with
    | None => mkDF extractor_columns []
    | Some sc =>
        if negb (any (valid_mask (df_data g) sc)) then mkDF extractor_columns []
        else
          mkDF extractor_columns
               (map (emit_row sheet_name (numeric_cols g) sc)
                    (filter (fun r => row_is_valid sc r = true) (df_data g)))
    end.

(* ===================================================================== *)
(** ** The working directory *)
(* ===================================================================== *)

(** A parsed JSON document, as [json.load] returns it. *)
#[warnings="-register-all"]
Inductive json : Type :=
| JNull
| JBool (b : bool)
| JNum (z : Z)
| JStr (s : string)
| JArr (items : list json)
| JObj (members : list (string * json)).

(** One sheet of a report workbook written by [generate_report]. *)
Record SummaryRow : Type := mkSummaryRow {
  Account : string;
  SHours : Z;
  TotalHours : Z;
  Pct : Q
}.

(** A pivot table: row labels, column labels and one list of values per
    row label. *)
Record Pivot : Type := mkPivot {
  p_index : list string;
  p_columns : list string;
  p_values : list (list Z)
}.

Inductive sheet_body : Type :=
| SheetMessage (msg : string)
| SheetTable (header : list string) (rows : list SummaryRow)
| SheetPivot (p : Pivot).

(** What a directory entry holds.  A workbook is given by what the program
    gets to see of it: its sheet names in the order of [excel.sheet_names]
    and, for each sheet, the frame that
    [pd.read_excel(excel, sheet_name=..., header=None)] returns.  The cells
    are therefore those of the frame, after the reader's type inference (a
    text that reads as a number in a column that holds nothing but numbers
    arrives as a number, a marker such as "NA" as a missing value).  A
    workbook written by [generate_report] is a workbook like any other (see
    [sheet_frame]).  Any other content under a name in [.xlsx] makes
    [pd.ExcelFile] raise. *)
Inductive file : Type :=
| FJson (doc : json)
| FWorkbook (sheets : list (string * grid))
| FCsv (table : DataFrame)
| FOther.

(** The working directory (which is also [DATA_FOLDER]): names are unique
    and case-sensitive. *)
Abbreviation World := (gmap string file).

Definition DATA_FILE_EXTENSION : string := ".xlsx".
Definition STATE_FILE : string := "known_employees.json".

(** [os.listdir(DATA_FOLDER)], in no particular order. *)
Definition listdir (w : World) : list string := elements (dom w).

(* ===================================================================== *)
(** ** Registry *)
(* ===================================================================== *)

(** [d.get(k)]: when a JSON object repeats a key, the last member wins. *)
Fixpoint dict_get (k : string) (members : list (string * json)) : option json :=
  match members with
  | [] => None
  | (k', v) :: rest =>
      match dict_get k rest with
      | Some v' => Some v'
      | None => if String.eqb k k' then Some v else None
      end
  end.

Definition is_unhashable (v : json) : bool :=
  match v with JArr _ | JObj _ => true | _ => false end.

Definition json_strings (items : list json) : list string :=
  omap (fun v => match v with JStr s => Some s | _ => None end) items.

(** [set(v)], or [None] when Python raises [TypeError].  A member that is a
    number, a boolean or null would sit in the Python set next to the
    strings; it can equal no file name, and the model leaves it out. *)
Definition py_set (v : json) : option (gset string) :=
  match v with
  | JArr items =>
      if existsb is_unhashable items then None
      else Some (list_to_set (json_strings items))
  | JStr s => Some (list_to_set (map (fun c => String c EmptyString) (list_ascii_of_string s)))
  | JObj members => Some (list_to_set (map fst members))
  | _ => None
  end.

Definition load_known_employees (w : World) : gset string :=
  match w !! STATE_FILE with
  | None => ∅
  | Some (FJson (JObj members)) =>
      default ∅ (py_set (default (JArr []) (dict_get "employees" members)))
  | Some _ => ∅
  end.

(** [sorted(l)] on strings *)
Definition sorted (l : list string) : list string := merge_sort String.le l.

Definition save_known_employees (employees : gset string) (w : World) : World :=
  <[STATE_FILE := FJson (JObj [("employees", JArr (map JStr (sorted (elements employees))))])]> w.

(** [(before, from)] around the last dot of [s], if it has one. *)
Fixpoint split_last_dot (s : string) : option (string * string) :=
  match s with
  | EmptyString => None
  | String c s' =>
      match split_last_dot s' with
      | Some (r, e) => Some (String c r, e)
      | None => if Ascii.eqb c "."%char then Some (EmptyString, s) else None
      end
  end.

Fixpoint all_dots (s : string) : bool :=
  match s with
  | EmptyString => true
  | String c s' => Ascii.eqb c "."%char && all_dots s'
  end.

(** [os.path.splitext(f)[0]] for a name without separators: the last dot
    starts the extension unless only dots come before it. *)
Definition splitext_root (f : string) : string :=
  match split_last_dot f with
  | Some (r, _) => if all_dots r then f else r
  | None => f
  end.

Definition is_employee_file (f : string) : bool :=
  str_endswith DATA_FILE_EXTENSION (str_lower f)
  && negb (str_startswith "effort" (str_lower f)).

Definition get_current_files (w : World) : gset string :=
  list_to_set (map splitext_root (filter (fun f => is_employee_file f = true) (listdir w))).

(* ===================================================================== *)
(** ** Employee Loader and Aggregator *)
(* ===================================================================== *)

Definition get_employee_files (w : World) : list string :=
  sorted (elements (load_known_employees w ∩ get_current_files w)).

Definition metadata_sheets : list string := ["cover"; "summary"; "notes"; "info"].

Definition is_metadata_sheet (name : string) : bool :=
  existsb (String.eqb (str_lower name)) metadata_sheets.

(** The labels of [acc], then those of [l] not met before. *)
Fixpoint union_labels (acc l : list string) : list string :=
  match l with
  | [] => acc
  | x :: l' =>
      if decide (x ∈ acc) then union_labels acc l'
      else union_labels (acc ++ [x])%list l'
  end.

(** [pd.concat(frames)]: the columns in order of first appearance, the rows
    one frame after the other. *)
Definition pd_concat (frames : list DataFrame) : DataFrame :=
  mkDF (union_labels [] (concat (map df_columns frames)))
       (concat (map df_rows frames)).

(** The frames appended to [all_data], in sheet order. *)
Definition sheet_frames (sheets : list (string * grid)) : list DataFrame :=
  filter (fun df => df_empty df = false)
    (map (fun '(name, g) => _extract_study_hours_from_sheet g name)
       (filter (fun '(name, _) => is_metadata_sheet name = false) sheets)).

(** [load_employee_data(employee, raw_sheets=True)]: a missing file gives
    the empty frame, and so does a file that is no workbook, through the
    [except] clause. *)
Definition load_employee_data_raw (w : World) (employee : string) : DataFrame * nat :=
  match w !! (employee ++ DATA_FILE_EXTENSION) with
  | None => (empty_frame, O)
  | Some (FWorkbook sheets) =>
      let all_data := sheet_frames sheets in
      (match all_data with [] => empty_frame | _ => pd_concat all_data end,
       length all_data)
  | Some _ => (empty_frame, O)
  end.

(** [load_employee_data(employee)] *)
Definition load_employee_data (w : World) (employee : string) : DataFrame :=
  fst (load_employee_data_raw w employee).

Definition with_employee (e : string) (r : EffortRow) : EffortRow :=
  mkRow (StudyId r) (Hours r) (Sheet r) (Some e).

(** [df = df.copy(); df['Employee'] = e] *)
Definition set_employee (e : string) (df : DataFrame) : DataFrame :=
  mkDF (if decide ("Employee" ∈ df_columns df) then df_columns df
        else (df_columns df ++ ["Employee"])%list)
       (map (with_employee e) (df_rows df)).

(** The list [dfs] built by the loop of [load_all_data] (and [all_details]
    of [generate_report]). *)
Definition tagged_frames (w : World) (employees : list string) : list DataFrame :=
  omap (fun e =>
          let df := load_employee_data w e in
          if df_empty df then None else Some (set_employee e df))
       employees.

Definition load_all_data (w : World) : DataFrame :=
  match get_employee_files w with
  | [] => empty_frame
  | employees =>
      match tagged_frames w employees with
      | [] => empty_frame
      | dfs => pd_concat dfs
      end
  end.

(* ===================================================================== *)
(** ** Report Generator: [generate_report] *)
(* ===================================================================== *)

(** [datetime.now()] *)
Record datetime : Type := mkDT {
  year : nat; month : nat; day : nat;
  hour : nat; minute : nat; second : nat
}.

Definition digit_char (n : nat) : ascii := ascii_of_nat (48 + n mod 10).

(** Two and four decimal digits, zero-padded: the fields [%m %d %H %M %S]
    and [%Y] of [strftime] for the values a [datetime] can hold. *)
Definition fmt2 (n : nat) : string :=
  String (digit_char (n / 10)) (String (digit_char n) EmptyString).

Definition fmt4 (n : nat) : string :=
  String (digit_char (n / 1000)) (String (digit_char (n / 100)) (fmt2 n)).

(** [t.strftime("%Y%m%d_%H%M%S")] *)
Definition strftime_stamp (t : datetime) : string :=
  fmt4 (year t) ++ fmt2 (month t) ++ fmt2 (day t) ++ "_"
  ++ fmt2 (hour t) ++ fmt2 (minute t) ++ fmt2 (second t).

(** What the operator answers to the two prompts of [generate_report]:
    "1", or "2" followed by a line of numbers ([None] when converting the
    line with [int] raises), or anything else. *)
Inductive report_choice : Type :=
| ChooseAll
| ChooseSelected (nums : option (list Z))
| ChooseOther.

(** [[sorted(employees)[i-1] for i in nums if 1 <= i <= len(employees)]] *)
Definition pick_employees (employees : list string) (nums : list Z) : list string :=
  flat_map (fun i =>
              if ((1 <=? i)%Z && (i <=? Z.of_nat (length employees))%Z)%bool
              then [nth (Z.to_nat (i - 1)) (sorted employees) EmptyString]
              else [])
           nums.

(** The list [selected], or [None] when the function returns before
    building anything. *)
Definition select_employees (employees : list string) (choice : report_choice)
    : option (list string) :=
  match choice with
  | ChooseAll => Some employees
  | ChooseSelected (Some nums) =>
      match pick_employees employees nums with
      | [] => None
      | selected => Some selected
      end
  | ChooseSelected None => None
  | ChooseOther => None
  end.

Definition sum_Z (l : list Z) : Z := foldr Z.add 0%Z l.

(** The group keys of [df.groupby("Study ID")], which pandas sorts. *)
Definition study_ids (rows : list EffortRow) : list string :=
  sorted (remove_dups (map StudyId rows)).

(** [df.groupby("Study ID")["Hours"].sum().reset_index()] *)
Definition groupby_study_sum (rows : list EffortRow) : list (string * Z) :=
  map (fun s => (s, sum_Z (map Hours (filter (fun r => StudyId r = s) rows))))
      (study_ids rows).

(** [hours / total * 100], as an exact fraction.  Rounding to two decimals
    and the rendering as text are floating-point operations that the model
    leaves out. *)
Definition percent (hours total : Z) : Q :=
  (inject_Z hours / inject_Z total * inject_Z 100)%Q.

Definition summary_header : list string := ["Account"; "Hours"; "Total Hours"; "%"].

(** The body of the employee's sheet (lines 373-396). *)
Definition employee_sheet (w : World) (emp : string) : sheet_body :=
  let df := load_employee_data w emp in
  if df_empty df then SheetMessage "No data found or file unreadable"
  else
    let summary := groupby_study_sum (df_rows df) in
    let total := sum_Z (map snd summary) in
    if (total =? 0)%Z then SheetMessage "No hours recorded"
    else
      SheetTable summary_header
        (map (fun '(s, h) => mkSummaryRow s h total (percent h total)) summary).

(** [full.pivot_table(index="Study ID", columns="Employee", values="Hours",
    aggfunc="sum", fill_value=0)]: sorted row and column labels; a pair
    without a row is filled with 0. *)
Definition employee_ids (rows : list EffortRow) : list string :=
  sorted (remove_dups (omap Employee rows)).

Definition pivot_cell (rows : list EffortRow) (s e : string) : Z :=
  sum_Z (map Hours (filter (fun r => StudyId r = s ∧ Employee r = Some e) rows)).

Definition pivot_table (rows : list EffortRow) : Pivot :=
  let idx := study_ids rows in
  let cols := employee_ids rows in
  mkPivot idx cols (map (fun s => map (fun e => pivot_cell rows s e) cols) idx).

(** [pivot.sum(axis=1)] and [pivot.sum()] *)
Definition row_sums (p : Pivot) : list Z := map sum_Z (p_values p).

Definition col_sums (p : Pivot) : list Z :=
  map (fun k => sum_Z (map (fun row => nth k row 0%Z) (p_values p)))
      (seq 0 (length (p_columns p))).

(** Position of a label. *)
Definition label_pos (label : string) (labels : list string) : option nat :=
  fst <$> list_find (fun l => l = label) labels.

(** [pivot[label] = vals]: replaces the column carrying the label, or adds
    one at the right. *)
Definition pivot_set_column (label : string) (vals : list Z) (p : Pivot) : Pivot :=
  match label_pos label (p_columns p) with
  | Some k =>
      mkPivot (p_index p) (p_columns p)
              (zip_with (fun row v => <[k := v]> row) (p_values p) vals)
  | None =>
      mkPivot (p_index p) ((p_columns p ++ [label])%list)
              (zip_with (fun row v => (row ++ [v])%list) (p_values p) vals)
  end.

(** [pivot.loc[label] = vals]: replaces the row carrying the label, or adds
    one at the bottom. *)
Definition pivot_set_row (label : string) (vals : list Z) (p : Pivot) : Pivot :=
  match label_pos label (p_index p) with
  | Some k => mkPivot (p_index p) (p_columns p) (<[k := vals]> (p_values p))
  | None =>
      mkPivot ((p_index p ++ [label])%list) (p_columns p)
              ((p_values p ++ [vals])%list)
  end.

(** Lines 400-402. *)
Definition overall_summary (rows : list EffortRow) : Pivot :=
  let pivot := pivot_table rows in
  let pivot := pivot_set_column "Grand Total" (row_sums pivot) pivot in
  pivot_set_row "Total per Employee" (col_sums pivot) pivot.


(** [s[:n]] *)
Fixpoint str_take (n : nat) (s : string) : string :=
  match n, s with
  | S n', String c s' => String c (str_take n' s')
  | _, _ => EmptyString
  end.

(** What [generate_report] assembles in memory: the two names, the calls
    of [wb.create_sheet] in order (the title asked for and the rows
    appended), and the flat table, if any. *)
Record Report : Type := mkReport {
  excel_path : string;
  csv_path : string;
  wb_sheets : list (string * sheet_body);
  csv_table : option DataFrame
}.

(** Lines 357-413: the names, the sheets asked of the workbook in order,
    and the flat table, which exists only when some employee has data.
    Whether openpyxl accepts the sheets, and under which titles, is
    [openpyxl_sheets] below. *)
Definition build_report (w : World) (selected : list string) (now : datetime)
    : Report :=
  let rdate := strftime_stamp now in
  let prefix :=
    if (length selected =? 1)%nat then nth 0 selected EmptyString else "Effort" in
  let all_details := tagged_frames w selected in
  let sheets := map (fun emp => (str_take 31 emp, employee_sheet w emp)) selected in
  let overall :=
    match all_details with
    | [] => []
    | _ =>
        if (1 <? length selected)%nat
        then [("Overall Summary",
               SheetPivot (overall_summary (df_rows (pd_concat all_details))))]
        else []
    end in
  mkReport (prefix ++ "Files_" ++ rdate ++ ".xlsx")
           (prefix ++ "Data_" ++ rdate ++ ".csv")
           ((sheets ++ overall)%list)
           (match all_details with
            | [] => None
            | _ => Some (mkDF ["Employee"; "Study ID"; "Hours"; "Sheet"]
                              (df_rows (pd_concat all_details)))
            end).

(** *** The workbook as openpyxl builds it *)

(** [INVALID_TITLE_REGEX]: a backslash, an asterisk, a question mark, a
    colon, a slash or a square bracket in a title makes [create_sheet] raise
    [ValueError]. *)
Definition invalid_title_char (c : ascii) : bool :=
  existsb (Ascii.eqb c) ["092"; "*"; "?"; ":"; "/"; "["; "]"]%char.

Definition title_is_valid (t : string) : bool :=
  negb (existsb invalid_title_char (list_ascii_of_string t)).

(** [ILLEGAL_CHARACTERS_RE], the control characters other than tab, line
    feed and carriage return: a text cell that holds one within its first
    32767 characters makes [ws.append] raise [IllegalCharacterError]. *)
Definition illegal_cell_char (c : ascii) : bool :=
  let n := nat_of_ascii c in
  ((n <=? 8) || ((11 <=? n) && (n <=? 12)) || ((14 <=? n) && (n <=? 31)))%nat.

Definition cell_text_ok (s : string) : bool :=
  negb (existsb illegal_cell_char
          (list_ascii_of_string (str_take (Z.to_nat 32767) s))).

(** [s[n:]] *)
Fixpoint str_drop (n : nat) (s : string) : string :=
  match n, s with
  | S n', String _ s' => str_drop n' s'
  | _, _ => s
  end.

(** [",".join(names)] *)
Fixpoint join_comma (names : list string) : string :=
  match names with
  | [] => EmptyString
  | [n] => n
  | n :: rest => n ++ "," ++ join_comma rest
  end.

(** [int(idx)] for a run of digits. *)
Definition int_of_digits (s : string) : Z :=
  fold_left (fun acc c => (acc * 10 + (Z.of_nat (nat_of_ascii c) - 48))%Z)
            (list_ascii_of_string s) 0%Z.

(** [sheet_title_regex.findall(s)], the pattern being [value] taken
    literally, a group of digits and an optional comma, with [re.I]: the
    digit groups of the matches, left to right.  A match is [value], in any
    case, then the longest run of digits, then a comma if there is one; the
    search resumes after the match, so [skip] counts the characters of [s]
    that still belong to the match before.  [value] is never empty. *)
Fixpoint title_counts (value : string) (skip : nat) (s : string) : list string :=
  match s with
  | EmptyString => []
  | String _ s' =>
      match skip with
      | S k => title_counts value k s'
      | O =>
          if str_startswith (str_lower value) (str_lower s) then
            let rest := str_drop (String.length value) s in
            let '(n, after) := span_digits rest in
            let comma := if str_startswith "," after then 1%nat else 0%nat in
            str_take n rest
            :: title_counts value (String.length value + n + comma - 1) s'
          else title_counts value 0 s'
      end
  end.

(** [avoid_duplicate_name(names, value)] of openpyxl: when a sheet already
    bears the title, in any case, the title gets the next number after the
    greatest one found behind it among the names. *)
Definition avoid_duplicate_name (names : list string) (value : string) : string :=
  if existsb (fun n => String.eqb (str_lower n) (str_lower value)) names then
    match title_counts value 0 (join_comma names) with
    | [] => value
    | matches =>
        let counts :=
          map int_of_digits
              (filter (fun idx => negb (String.eqb idx EmptyString) = true) matches) in
        value ++ NilZero.string_of_int (Z.to_int (foldr Z.max 0%Z counts + 1))
    end
  else value.

(** The title [wb.create_sheet(title=...)] gives the new sheet, [names]
    being the titles of the sheets made so far; [None] when it raises.  An
    empty title is replaced by "Sheet". *)
Definition default_title (title : string) : string :=
  if String.eqb title EmptyString then "Sheet" else title.

Definition create_sheet (names : list string) (title : string) : option string :=
  let value := default_title title in
  if title_is_valid value then Some (avoid_duplicate_name names value) else None.

(** Two decimals of an exact fraction, in hundredths: the nearest, a tie
    going to the even one. *)
Definition round_hundredths (q : Q) : Z :=
  let n := (Qnum q * 100)%Z in
  let d := Z.pos (Qden q) in
  let f := (n / d)%Z in
  let r := (n mod d)%Z in
  if (2 * r <? d)%Z then f
  else if (d <? 2 * r)%Z then (f + 1)%Z
  else if Z.even f then f else (f + 1)%Z.

Definition digits_of (z : Z) : string := NilZero.string_of_int (Z.to_int z).

(** The text of a cell of the "%" column.  The program renders a float64
    ([round(2).astype(str) + "%"]); the model renders the exact fraction, so
    that the last digit, or the notation of a very large value, may differ.
    Either way the text is made of digits, a sign, a point and the percent
    sign. *)
Definition pct_text (q : Q) : string :=
  let h := round_hundredths q in
  let a := Z.abs h in
  let sign := if (Qnum q <? 0)%Z then "-" else EmptyString in
  let frac := (a mod 100)%Z in
  sign ++ digits_of (a / 100) ++ "."
  ++ (if (frac mod 10 =? 0)%Z then digits_of (frac / 10)
      else digits_of (frac / 10) ++ digits_of (frac mod 10))
  ++ "%".

(** The text cells [ws.append] receives for a sheet. *)
Definition body_texts (b : sheet_body) : list string :=
  match b with
  | SheetMessage msg => [msg]
  | SheetTable header rows =>
      (header ++ flat_map (fun sr => [Account sr; pct_text (Pct sr)]) rows)%list
  | SheetPivot p => ("Account" :: p_columns p ++ p_index p)%list
  end.

(** Nothing raises while the rows of the sheet are made and appended.  For
    the overall summary, [pivot.reset_index()] raises [ValueError] when a
    column is already called "Study ID". *)
Definition body_ok (b : sheet_body) : bool :=
  match b with
  | SheetPivot p => negb (bool_decide ("Study ID" ∈ p_columns p))
  | _ => true
  end
  && forallb cell_text_ok (body_texts b).

(** The sheets of the workbook at [wb.save], or [None] when an exception
    ended the [try] block before (it is caught at line 414, and nothing has
    been written by then). *)
Fixpoint openpyxl_sheets (names : list string) (asked : list (string * sheet_body))
    : option (list (string * sheet_body)) :=
  match asked with
  | [] => Some []
  | (title, body) :: rest =>
      match create_sheet names title with
      | None => None
      | Some t =>
          if body_ok body
          then (fun l => (t, body) :: l) <$> openpyxl_sheets (names ++ [t])%list rest
          else None
      end
  end.

Definition workbook_sheets (r : Report) : option (list (string * sheet_body)) :=
  openpyxl_sheets [] (wb_sheets r).

(** The frame [pd.read_excel(..., header=None)] returns for a sheet the
    program wrote.  The texts of a message or summary sheet read as texts
    (none reads as a number or as a missing-value marker).  In an overall
    summary the header cells are employee identifiers, which the model also
    keeps as texts; the program never opens such a workbook, since its name
    starts with "Effort". *)
Definition summary_line (sr : SummaryRow) : list cell :=
  [CStr (Account sr); CNum (SHours sr); CNum (TotalHours sr); CStr (pct_text (Pct sr))].

Definition sheet_frame (b : sheet_body) : grid :=
  match b with
  | SheetMessage msg => [ [CStr msg] ]
  | SheetTable header rows => map CStr header :: map summary_line rows
  | SheetPivot p =>
      (CStr "Account" :: map CStr (p_columns p))
      :: zip_with (fun label vals => CStr label :: map CNum vals) (p_index p) (p_values p)
  end.

Definition workbook_frames (sheets : list (string * sheet_body))
    : list (string * grid) :=
  map (fun s => (fst s, sheet_frame (snd s))) sheets.

(** [wb.save(excel_path)] and [final_csv.to_csv(csv_path)], the two last
    steps of the [try] block. *)
Definition write_report (r : Report) (w : World) : World :=
  let w := <[excel_path r := FWorkbook (workbook_frames (default [] (workbook_sheets r)))]> w in
  match csv_table r with
  | Some t => <[csv_path r := FCsv t]> w
  | None => w
  end.

(** [generate_report()]: the directory afterwards and the report written,
    [None] when none was: the dialogue was abandoned, or an exception was
    caught at line 414 ("Report generation failed"). *)
Definition generate_report (w : World) (choice : report_choice) (now : datetime)
    : World * option Report :=
  match get_employee_files w with
  | [] => (w, None)
  | employees =>
      match select_employees employees choice with
      | None => (w, None)
      | Some selected =>
          let r := build_report w selected now in
          match workbook_sheets r with
          | None => (w, None)
          | Some _ => (write_report r w, Some r)
          end
      end
  end.

(* ===================================================================== *)
(** ** The table the charts are drawn from *)
(* ===================================================================== *)

Definition is_effort_csv (f : string) : bool :=
  str_startswith "EffortData_" f && str_endswith ".csv" f.

(** [sorted([f for f in os.listdir(DATA_FOLDER) if ...], reverse=True)] *)
Definition csv_files (w : World) : list string :=
  reverse (sorted (filter (fun f => is_effort_csv f = true) (listdir w))).

(** [ensure_report_exists()]; [wants_report] is the operator's answer to
    "generate a report first?", and [choice] what they then answer to the
    prompts of [generate_report]. *)
Definition ensure_report_exists (w : World) (wants_report : bool)
    (choice : report_choice) (now : datetime) : World * bool :=
  match filter (fun f => is_effort_csv f = true) (listdir w) with
  | _ :: _ => (w, true)
  | [] =>
      if wants_report then (fst (generate_report w choice now), true)
      else (w, false)
  end.

(** The file [visualisation_menu] and [advanced_mode] pass to
    [pd.read_csv]: [csv_files[0]], or [None] when the list is empty and the
    subscript raises [IndexError]. *)
Definition visualisation_input (w : World) : option string := head (csv_files w).

(* ===================================================================== *)
(** ** Registry dialogues *)
(* ===================================================================== *)

(** [initialize_first_run()]; [accept] is false when the operator answers
    "n" to "Add all automatically?". *)
Definition initialize_first_run (w : World) (accept : bool) : World :=
  match w !! STATE_FILE with
  | Some _ => w
  | None =>
      let current := get_current_files w in
      if decide (current = ∅) then w
      else if accept then save_known_employees current w else w
  end.

(** [check_for_changes()]; [add_new] and [remove_missing] are true when the
    operator answers "y" to "Add them?" and to "Remove from tracking?". *)
Definition check_for_changes (w : World) (add_new remove_missing : bool) : World :=
  let known := load_known_employees w in
  let current := get_current_files w in
  let new := current ∖ known in
  let missing := known ∖ current in
  let '(known, w) :=
    if decide (new ≠ ∅) then
      if add_new then (known ∪ new, save_known_employees (known ∪ new) w)
      else (known, w)
    else (known, w) in
  if decide (missing ≠ ∅) then
    if remove_missing then save_known_employees (known ∖ missing) w else w
  else w.

(** [remove_employee()]; [n] is the number typed ([None] when [int] raises)
    and [confirm] is true when the operator answers "y" to "Remove ...?". *)
Definition remove_employee (w : World) (n : option Z) (confirm : bool) : World :=
  let employees := sorted (get_employee_files w) in
  match employees with
  | [] => w
  | _ =>
      match n with
      | None => w
      | Some n =>
          if (n =? 0)%Z then w
          else if ((1 <=? n)%Z && (n <=? Z.of_nat (length employees))%Z)%bool then
            let emp := nth (Z.to_nat (n - 1)) employees EmptyString in
            if confirm
            then save_known_employees (load_known_employees w ∖ {[emp]}) w
            else w
          else w
      end
  end.


(* ===================================================================== *)
(** ** The weekday of a sheet label: [get_weekday] of [advanced_mode] *)
(* ===================================================================== *)

(** [c.isspace()] *)
Definition py_isspace (c : ascii) : bool :=
  let n := nat_of_ascii c in
  ((9 <=? n)%nat && (n <=? 13)%nat) || ((28 <=? n)%nat && (n <=? 32)%nat).

(** [s.split()]: the maximal runs without whitespace; [cur] holds the
    characters of the run being read, last one first. *)
Fixpoint split_go (cur : string) (s : string) : list string :=
  match s with
  | EmptyString =>
      match cur with EmptyString => [] | _ => [String.rev cur] end
  | String c s' =>
      if py_isspace c
      then match cur with
           | EmptyString => split_go EmptyString s'
           | _ => String.rev cur :: split_go EmptyString s'
           end
      else split_go (String c cur) s'
  end.

Definition str_split (s : string) : list string := split_go EmptyString s.

(** The token a whitespace closes, if one is being read. *)
Definition flush_token (cur : string) : list string :=
  match cur with EmptyString => [] | _ => [String.rev cur] end.

(** [s] holds no whitespace. *)
Fixpoint no_space (s : string) : bool :=
  match s with
  | EmptyString => true
  | String c s' => negb (py_isspace c) && no_space s'
  end.

Definition digit_val (c : ascii) : option Z :=
  if is_digit c then Some (Z.of_nat (nat_of_ascii c) - 48)%Z else None.

(** The fields of a text of ten characters read with the format
    "%Y-%m-%d": four digits, two digits from 01 to 12, two digits from 01 to
    31.  With ten characters no shorter month or day can fill the text. *)
Definition parse_ymd (part : string) : option (Z * Z * Z) :=
  match list_ascii_of_string part with
  | [y1; y2; y3; y4; h1; m1; m2; h2; d1; d2] =>
      if Ascii.eqb h1 "-"%char && Ascii.eqb h2 "-"%char then
        a ← digit_val y1; b ← digit_val y2; c ← digit_val y3; d ← digit_val y4;
        e ← digit_val m1; f ← digit_val m2; g ← digit_val d1; h ← digit_val d2;
        let y := (a * 1000 + b * 100 + c * 10 + d)%Z in
        let m := (e * 10 + f)%Z in
        let dd := (g * 10 + h)%Z in
        if ((1 <=? m)%Z && (m <=? 12)%Z && (1 <=? dd)%Z && (dd <=? 31)%Z)%bool
        then Some (y, m, dd) else None
      else None
  | _ => None
  end.

Definition is_leap (y : Z) : bool :=
  ((y mod 4 =? 0)%Z && (negb (y mod 100 =? 0)%Z || (y mod 400 =? 0)%Z))%bool.

Definition days_in_month (y m : Z) : Z :=
  if (m =? 2)%Z then (if is_leap y then 29 else 28)%Z
  else if ((m =? 4) || (m =? 6) || (m =? 9) || (m =? 11))%Z then 30%Z
  else 31%Z.

(** [date(y, m, d)] exists. *)
Definition valid_date (y m d : Z) : bool :=
  ((1 <=? y)%Z && (y <=? 9999)%Z && (1 <=? m)%Z && (m <=? 12)%Z
   && (1 <=? d)%Z && (d <=? days_in_month y m)%Z)%bool.

(** [date.toordinal()]: the days before the year, before the month, and
    the day. *)
Definition days_before_year (y : Z) : Z :=
  let y1 := (y - 1)%Z in (y1 * 365 + y1 / 4 - y1 / 100 + y1 / 400)%Z.

Definition days_before_month (y m : Z) : Z :=
  foldr (fun k acc => (days_in_month y (Z.of_nat k) + acc)%Z) 0%Z
        (seq 1 (Z.to_nat (m - 1))).

Definition toordinal (y m d : Z) : Z :=
  (days_before_year y + days_before_month y m + d)%Z.

(** [date.weekday()]: Monday is 0. *)
Definition weekday (y m d : Z) : Z := ((toordinal y m d + 6) mod 7)%Z.

(** [datetime.strptime(part, "%Y-%m-%d").weekday()], [None] when it raises. *)
Definition strptime_weekday (part : string) : option Z :=
  match parse_ymd part with
  | Some (y, m, d) => if valid_date y m d then Some (weekday y m d) else None
  | None => None
  end.

(** [len(part) == 10 and '-' in part] *)
Definition is_date_candidate (part : string) : bool :=
  (String.length part =? 10)%nat && str_contains "-" part.

(** The loop of [get_weekday]: the first candidate is converted, and an
    exception raised by the conversion ends the function with [None]. *)
Fixpoint get_weekday_parts (parts : list string) : option Z :=
  match parts with
  | [] => None
  | part :: rest =>
      if is_date_candidate part then strptime_weekday part
      else get_weekday_parts rest
  end.

Definition get_weekday (sheet : string) : option Z :=
  get_weekday_parts (str_split sheet).

(* ===================================================================== *)
(** ** Vocabulary of the specification *)
(* ===================================================================== *)

(** Indices, in the sheet, of the rows that are emitted: the positions at
    which [valid] holds, shifted back by [data_start] (the program forgets
    them with [reset_index(drop=True)]). *)
Definition emitted_positions (g : grid) : list nat :=
  match study_col g with
  | None => []
  | Some sc =>
      filter (fun i => row_is_valid sc (nth i (frame_rows g) []) = true)
             (seq (data_start g) (length g - data_start g))
  end.

(** A row that holds the header token, and a row that holds a study
    identifier, as the scan for [data_start] tests them. *)
Definition is_header_row (row : list cell) : bool :=
  existsb (str_contains "study id") (row_str row).

Definition has_study_cell (row : list cell) : bool :=
  existsb search_study_anchored (row_str row).

(** The reading of "numeric column" in the specification: a column with at
    least one number anywhere in the sheet. *)
Definition spec_numeric_col (col : list cell) : bool := existsb cell_is_number col.

(** The reading of "study-id cell" in the specification: trimmed, and
    matched without regard to case. *)
Definition ascii_upper (c : ascii) : ascii :=
  let n := nat_of_ascii c in
  if (97 <=? n)%nat && (n <=? 122)%nat then ascii_of_nat (n - 32) else c.

Fixpoint str_upper (s : string) : string :=
  match s with
  | EmptyString => EmptyString
  | String c s' => String (ascii_upper c) (str_upper s')
  end.

Definition fullmatch_STUDY_ignorecase (s : string) : bool :=
  fullmatch_STUDY (str_upper s).

Fixpoint str_lstrip (s : string) : string :=
  match s with
  | String c s' => if Ascii.is_space c then str_lstrip s' else s
  | EmptyString => EmptyString
  end.

Definition str_strip (s : string) : string :=
  String.rev (str_lstrip (String.rev (str_lstrip s))).

Definition spec_cell_qualifies (c : cell) : bool :=
  fullmatch_STUDY_ignorecase (str_strip (astype_str c)).

Definition spec_study_col (g : grid) : option nat :=
  find (fun j => existsb spec_cell_qualifies (column (df_data g) j)) (seq 0 (ncols g)).

(** A column of the data region with a cell whose rendering is, exactly as
    written, STUDY followed by digits. *)
Definition column_qualifies (g : grid) (j : nat) : Prop :=
  ∃ row, row ∈ df_data g ∧ fullmatch_STUDY (astype_str (cell_at row j)) = true.


(** No cell of the sheet holds a negative number. *)
Definition grid_nonneg (g : grid) : bool :=
  forallb (forallb (fun c => (0 <=? cell_value c)%Z)) g.

(** The sum of the numbers a row holds, and the grids every row of which
    adds up to less than [bound]. *)
Definition row_total (row : list cell) : Z := sum_Z (map cell_value row).

Definition grid_rows_below (bound : Z) (g : grid) : bool :=
  forallb (fun row => (row_total row <? bound)%Z) g.

(** Text of the shape [YYYYMMDD_HHMMSS]. *)
Definition is_timestamp (s : string) : bool :=
  match list_ascii_of_string s with
  | [y1; y2; y3; y4; m1; m2; d1; d2; u; h1; h2; n1; n2; s1; s2] =>
      forallb is_digit [y1; y2; y3; y4; m1; m2; d1; d2; h1; h2; n1; n2; s1; s2]
      && Ascii.eqb u "_"%char
  | _ => false
  end.

(** The timestamp of a flat table artifact [<Prefix>Data_<timestamp>.csv],
    whatever its prefix. *)
Definition flat_table_timestamp (f : string) : option string :=
  let n := String.length f in
  let ts := substring (n - 19) 15 f in
  if (24 <=? n)%nat && String.eqb (substring (n - 4) 4 f) ".csv"
     && String.eqb (substring (n - 24) 5 f) "Data_" && is_timestamp ts
  then Some ts else None.

(** The prefix of the two report artifacts. *)
Definition report_prefix (selected : list string) : string :=
  if (length selected =? 1)%nat then nth 0 selected EmptyString else "Effort".

(* ===================================================================== *)
(** ** Sample inputs *)
(* ===================================================================== *)

(** The sheet of end-to-end example 1. *)
Definition example1 : grid :=
  [ [CStr "Study ID"; CStr "Jan"; CStr "Feb"];
    [CStr "STUDY1"; CNum 3; CNum 4];
    [CStr "STUDY2"; CNum 0; CNum 0];
    [CStr "junk"; CStr "x"; CStr "y"] ].

(** The same data rows without the header and the junk row. *)
Definition example1_bare : grid :=
  [ [CStr "STUDY1"; CNum 3; CNum 4];
    [CStr "STUDY2"; CNum 0; CNum 0] ].

Definition grid_negative : grid := [ [CStr "STUDY1"; CNum (-5)] ].

(** Two numbers whose sum is 2^63, one more than the greatest int64. *)
Definition grid_wraps : grid :=
  [ [CStr "STUDY1"; CNum (2 ^ 62); CNum (2 ^ 62)] ].

(** The same two numbers in a sheet with a missing cell, which makes the
    second column float64. *)
Definition grid_wraps_float : grid :=
  [ [CStr "STUDY1"; CNum (2 ^ 62); CNum (2 ^ 62)];
    [CStr "STUDY2"; CNum 1; CNaN] ].

Definition grid_padded : grid := [ [CStr " study7 "; CNum 1] ].

Definition grid_id_above_header : grid :=
  [ [CStr "STUDY1"; CNum 5];
    [CStr "Study ID"; CStr "Hours"];
    [CStr "STUDY2"; CNum 3] ].

Definition grid_title_above_header : grid :=
  [ [CStr "Timesheet"; CNaN];
    [CStr "Study ID"; CStr "Hours"];
    [CStr "STUDY2"; CNum 3] ].

(** The two employees of end-to-end example 2, both tracked. *)
Definition world_alice_bob : World :=
  save_known_employees (list_to_set ["bob"; "alice"])
    (<["bob.xlsx" := FWorkbook [("W1", [ [CStr "STUDY1"; CNum 20]; [CStr "STUDY2"; CNum 5] ]) ] ]>
    (<["alice.xlsx" := FWorkbook [("W1", [ [CStr "STUDY1"; CNum 10] ]) ] ]> ∅)).

Definition sample_now : datetime := mkDT 2025 1 2 3 4 5.

(** Two tracked employees with data, one of them with a bracket in the
    identifier. *)
Definition world_bracket : World :=
  save_known_employees (list_to_set ["a[1]"; "b"])
    (<["b.xlsx" := FWorkbook [("W1", [ [CStr "STUDY1"; CNum 20] ]) ] ]>
    (<["a[1].xlsx" := FWorkbook [("W1", [ [CStr "STUDY1"; CNum 10] ]) ] ]> ∅)).


(** A directory with one flat table of each kind; the single-employee one
    is the more recent. *)
Definition world_two_tables : World :=
  <["aliceData_20250102_000000.csv" := FCsv empty_frame]>
  (<["EffortData_20250101_000000.csv" := FCsv empty_frame]> ∅).


(* ===================================================================== *)
(** * Properties *)
(* ===================================================================== *)

(** ** Strings *)

Lemma strip_prefix_Some p s r : strip_prefix p s = Some r → s = p ++ r.
Proof.
  revert s; induction p as [|a p IH]; intros [|b s] H; simpl in H; simplify_eq; try done.
  destruct (Ascii.eqb a b) eqn:E; [|done].
  apply Ascii.eqb_eq in E as ->.
  change (String b s = String b (p ++ r)). f_equal. by apply IH.
Qed.

Lemma is_digit_upper c : is_digit c = true → ascii_upper c = c.
Proof. destruct c as [[] [] [] [] [] [] [] []]; vm_compute; congruence. Qed.

Lemma span_digits_all_upper s n : span_digits s = (n, EmptyString) → str_upper s = s.
Proof.
  revert n; induction s as [|c s IH]; intros n H; [done|].
  simpl in H. destruct (is_digit c) eqn:D.
  - destruct (span_digits s) as [m r] eqn:E. simplify_eq. simpl.
    rewrite (is_digit_upper c D). f_equal. by eapply IH.
  - simplify_eq.
Qed.

Lemma fullmatch_STUDY_ignorecase_of_exact s :
  fullmatch_STUDY s = true → fullmatch_STUDY_ignorecase s = true.
Proof.
  unfold fullmatch_STUDY_ignorecase. intros H.
  assert (str_upper s = s) as ->; [|done].
  unfold fullmatch_STUDY in H.
  destruct (strip_prefix "STUDY" s) as [rest|] eqn:E; [|done].
  apply strip_prefix_Some in E as ->.
  destruct (span_digits rest) as [[|n] [|]] eqn:S; try done.
  change (String "S" (String "T" (String "U" (String "D" (String "Y" (str_upper rest)))))
          = String "S" (String "T" (String "U" (String "D" (String "Y" rest))))).
  do 5 f_equal. by eapply span_digits_all_upper.
Qed.

(** ** The extractor *)

Lemma number_is_no_study_id z : fullmatch_STUDY (astype_str (CNum z)) = false.
Proof.
  unfold astype_str, NilZero.string_of_int.
  destruct (Z.to_int z) as [u|u]; [destruct u | ]; reflexivity.
Qed.

(** Only a text passes the mask, so [study_ids] holds texts only. *)
Lemma valid_cell_is_text c :
  fullmatch_STUDY (astype_str c) = true → c = CStr (astype_str c).
Proof.
  destruct c as [z| |]; [|done|done].
  by rewrite number_is_no_study_id.
Qed.

Lemma any_valid_mask_false rows sc :
  any (valid_mask rows sc) = false →
  filter (fun r => row_is_valid sc r = true) rows = [].
Proof.
  unfold any, valid_mask, column, row_is_valid.
  induction rows as [|r rows IH]; [done|]. simpl.
  intros [H1 H2]%orb_false_iff.
  rewrite filter_cons_False; [by apply IH | by rewrite H1].
Qed.

Lemma study_col_empty_frame g :
  (length g =? 0)%nat || (ncols g =? 0)%nat = true → study_col g = None.
Proof.
  unfold study_col, find_study_col.
  intros [H|H]%orb_true_iff.
  - apply Nat.eqb_eq in H. destruct g; [done | done].
  - apply Nat.eqb_eq in H as ->. done.
Qed.

(** The rows of the result, whichever [return] is taken. *)
Lemma extract_rows g name :
  df_rows (_extract_study_hours_from_sheet g name) =
  match study_col g with
  | None => []
  | Some sc =>
      map (emit_row name (numeric_cols g) sc)
          (filter (fun r => row_is_valid sc r = true) (df_data g))
  end.
Proof.
  unfold _extract_study_hours_from_sheet.
  destruct ((length g =? 0)%nat || (ncols g =? 0)%nat) eqn:E.
  - by rewrite (study_col_empty_frame g E).
  - destruct (study_col g) as [sc|]; [|done].
    destruct (any (valid_mask (df_data g) sc)) eqn:A; [done|].
    simpl. by rewrite (any_valid_mask_false _ _ A).
Qed.

Lemma extract_columns g name :
  df_columns (_extract_study_hours_from_sheet g name) = extractor_columns.
Proof.
  unfold _extract_study_hours_from_sheet.
  repeat (case_match; try done).
Qed.

Lemma numeric_cols_fst g :
  map fst (numeric_cols g)
  = filter (fun j => is_numeric_dtype (column (frame_rows g) j) = true)
           (seq 0 (ncols g)).
Proof. unfold numeric_cols. rewrite map_map. simpl. apply map_id. Qed.

Lemma exact_sum_filter (P : nat → bool) (d : nat → num_dtype) (row : list cell)
    (l : list nat) :
  exact_sum (map (fun j => (j, d j)) (filter (fun j => P j = true) l)) row =
  sum_Z (map (fun j => if P j then cell_value (cell_at row j) else 0%Z) l).
Proof.
  induction l as [|j l IH]; [done|].
  destruct (P j) eqn:E.
  - rewrite filter_cons_True by done. simpl. rewrite E. simpl in IH. by rewrite IH.
  - rewrite filter_cons_False by (by rewrite E). simpl. rewrite E. by rewrite IH.
Qed.

(** What the extractor adds up for a row, before any wrap-around. *)
Lemma exact_sum_numeric_cols g row :
  exact_sum (numeric_cols g) row =
  sum_Z (map (fun j => if is_numeric_dtype (column (frame_rows g) j)
                       then cell_value (cell_at row j) else 0%Z)
             (seq 0 (ncols g))).
Proof. unfold numeric_cols. apply exact_sum_filter. Qed.

(** The two dtypes at work: the same two cells of 2^62 add up to -2^63 over
    int64 columns and to 2^63 when a missing cell elsewhere in the sheet
    makes one of the columns float64. *)
Example row_sum_follows_dtype :
  map Hours (df_rows (_extract_study_hours_from_sheet grid_wraps "Sheet1"))
  = [(- 2 ^ 63)%Z] ∧
  map Hours (df_rows (_extract_study_hours_from_sheet grid_wraps_float "Sheet1"))
  = [(2 ^ 63)%Z; 1%Z].
Proof. split; by vm_compute. Qed.

Lemma wrap_int64_small z : (- 2 ^ 63 ≤ z < 2 ^ 63)%Z → wrap_int64 z = z.
Proof. intros H. unfold wrap_int64. rewrite Z.mod_small; lia. Qed.

Lemma wrap_int64_range z : (- 2 ^ 63 ≤ wrap_int64 z < 2 ^ 63)%Z.
Proof.
  unfold wrap_int64.
  pose proof (Z.mod_pos_bound (z + 2 ^ 63) (2 ^ 64)%Z ltac:(lia)). lia.
Qed.

(** Within the int64 range the row sum is the exact sum, whatever the
    dtypes. *)
Lemma row_sum_exact cols row :
  (- 2 ^ 63 ≤ exact_sum cols row < 2 ^ 63)%Z → row_sum cols row = exact_sum cols row.
Proof.
  intros H. unfold row_sum. destruct (forallb _ cols); [|done].
  by apply wrap_int64_small.
Qed.

Lemma row_sum_nil row : row_sum [] row = 0%Z.
Proof. reflexivity. Qed.

Lemma is_numeric_dtype_spec g j :
  is_numeric_dtype (column (frame_rows g) j) = true ↔
  ∀ row, row ∈ frame_rows g → ∀ s, cell_at row j ≠ CStr s.
Proof.
  unfold is_numeric_dtype, column. rewrite forallb_forall. split.
  - intros H row Hrow s Hs.
    specialize (H (cell_at row j)). rewrite Hs in H.
    assert (cell_is_number_or_missing (CStr s) = true); [|done].
    apply H, in_map_iff. exists row. split; [done | by apply list_elem_of_In].
  - intros H c [row [<- Hrow%list_elem_of_In]]%in_map_iff.
    specialize (H row Hrow). destruct (cell_at row j); try done.
    by destruct (H s).
Qed.

Lemma numeric_cols_spec g j :
  j ∈ map fst (numeric_cols g) ↔
  (j < ncols g)%nat ∧ ∀ row, row ∈ frame_rows g → ∀ s, cell_at row j ≠ CStr s.
Proof.
  rewrite numeric_cols_fst, list_elem_of_filter, <- is_numeric_dtype_spec.
  rewrite elem_of_seq. split; intros [? ?]; split; (done || lia).
Qed.

Lemma cell_at_pad_row w row j :
  cell_at (pad_row w row) j = if decide (j < w)%nat then cell_at row j else CNaN.
Proof.
  unfold pad_row, cell_at at 1. case_decide as H.
  - rewrite (nth_indep _ CNaN (cell_at row 0)) by (by rewrite length_map, length_seq).
    rewrite map_nth, seq_nth by done. done.
  - apply nth_overflow. rewrite length_map, length_seq. lia.
Qed.

Lemma elem_of_df_data g row :
  row ∈ df_data g → ∃ orig, orig ∈ g ∧ row = pad_row (ncols g) orig.
Proof.
  unfold df_data, frame_rows. intros H%(subseteq_drop _ _ _).
  apply list_elem_of_In, in_map_iff in H as (orig & <- & H).
  exists orig. split; [by apply list_elem_of_In | done].
Qed.

Lemma grid_nonneg_cell g row j :
  grid_nonneg g = true → row ∈ df_data g → (0 ≤ cell_value (cell_at row j))%Z.
Proof.
  intros Hg (orig & Ho & ->)%elem_of_df_data.
  rewrite cell_at_pad_row. case_decide; [|done].
  unfold grid_nonneg in Hg. rewrite forallb_forall in Hg.
  specialize (Hg orig (proj1 (list_elem_of_In _ _) Ho)).
  rewrite forallb_forall in Hg. unfold cell_at.
  destruct (nth_in_or_default j orig CNaN) as [Hin | ->]; [|done].
  apply Z.leb_le, Hg, Hin.
Qed.

Lemma exact_sum_nonneg cols row :
  (∀ j, (0 ≤ cell_value (cell_at row j))%Z) → (0 ≤ exact_sum cols row)%Z.
Proof.
  intros H. induction cols as [|j cols IH]; simpl; [done|].
  specialize (H (fst j)). lia.
Qed.

(** Every emitted row comes from a row of the data region that passes the
    mask on the study-id column. *)
Lemma extract_rows_inv g name r :
  r ∈ df_rows (_extract_study_hours_from_sheet g name) →
  ∃ sc row, study_col g = Some sc ∧ row ∈ df_data g ∧
            fullmatch_STUDY (astype_str (cell_at row sc)) = true ∧
            r = emit_row name (numeric_cols g) sc row.
Proof.
  rewrite extract_rows. destruct (study_col g) as [sc|]; [|by intros ?%not_elem_of_nil].
  intros (row & <- & Hrow)%list_elem_of_In%in_map_iff.
  apply list_elem_of_In, list_elem_of_filter in Hrow as [Hv Hrow].
  by exists sc, row.
Qed.

(** ** Column and row selection *)

Lemma find_seq_first (P : nat → bool) (a n j : nat) :
  find P (seq a n) = Some j ↔
  (a ≤ j < a + n)%nat ∧ P j = true ∧ ∀ k, (a ≤ k < j)%nat → P k = false.
Proof.
  revert a. induction n as [|n IH]; intros a; simpl.
  - split; [done | lia].
  - destruct (P a) eqn:Pa.
    + split.
      * intros [= <-]. repeat split; try lia; try done.
      * intros (Hj & Pj & Hk). destruct (decide (a = j)) as [->|]; [done|].
        rewrite Hk in Pa by lia. done.
    + rewrite IH. split.
      * intros (Hj & Pj & Hk). repeat split; try lia; try done.
        intros k Hk'. destruct (decide (k = a)) as [->|]; [done | apply Hk; lia].
      * intros (Hj & Pj & Hk). destruct (decide (a = j)) as [->|]; [congruence|].
        repeat split; try lia; try done. intros k Hk'. apply Hk. lia.
Qed.

Lemma find_seq_None (P : nat → bool) (a n : nat) :
  find P (seq a n) = None ↔ ∀ k, (a ≤ k < a + n)%nat → P k = false.
Proof.
  split.
  - intros H k Hk. eapply find_none; [done|]. apply in_seq. lia.
  - intros H. destruct (find P (seq a n)) as [j|] eqn:E; [|done].
    apply find_seq_first in E as (Hj & Pj & _). rewrite H in Pj by lia. done.
Qed.

Lemma any_valid_mask_true rows j :
  any (valid_mask rows j) = true ↔
  ∃ row, row ∈ rows ∧ fullmatch_STUDY (astype_str (cell_at row j)) = true.
Proof.
  unfold any, valid_mask, column. rewrite existsb_exists. split.
  - intros (b & (c & <- & (row & <- & Hrow)%in_map_iff)%in_map_iff & Hb).
    exists row. split; [by apply list_elem_of_In | done].
  - intros (row & Hrow%list_elem_of_In & Hv). exists true. split; [|done].
    apply in_map_iff. exists (cell_at row j). split; [done|].
    apply in_map_iff. by exists row.
Qed.

Lemma any_valid_mask_qualifies g j :
  any (valid_mask (df_data g) j) = true ↔ column_qualifies g j.
Proof. apply any_valid_mask_true. Qed.

Lemma not_qualifies_mask g j :
  ¬ column_qualifies g j ↔ any (valid_mask (df_data g) j) = false.
Proof. rewrite <- any_valid_mask_qualifies. by destruct (any _). Qed.

Lemma extract_no_study_col g name :
  study_col g = None →
  _extract_study_hours_from_sheet g name = mkDF extractor_columns [].
Proof.
  intros H. unfold _extract_study_hours_from_sheet. rewrite H. by case_match.
Qed.

(** ** Where the data region starts *)

Lemma scan_data_start_header rows idx h hdr :
  rows !! h = Some hdr → is_header_row hdr = true →
  (∀ i row, (i < h)%nat → rows !! i = Some row →
            is_header_row row = false ∧ has_study_cell row = false) →
  scan_data_start rows idx = Some (S (idx + h)).
Proof.
  revert idx h. induction rows as [|r rows IH]; intros idx h Hh Hhdr Habove; [done|].
  simpl. destruct h as [|h].
  - simpl in Hh. simplify_eq. unfold is_header_row in Hhdr. rewrite Hhdr.
    by rewrite Nat.add_0_r.
  - destruct (Habove O r) as [H1 H2]; [lia | done |].
    unfold is_header_row in H1. unfold has_study_cell in H2. rewrite H1, H2.
    rewrite (IH (S idx) h); [f_equal; lia | done | done |].
    intros i row Hi Hrow. apply (Habove (S i) row); [lia | done].
Qed.

Lemma drop_as_positions {A} (l : list A) (n : nat) (d : A) :
  drop n l = map (fun i => nth i l d) (seq n (length l - n)).
Proof.
  apply list_eq. intros i. rewrite lookup_drop.
  change (map ?f ?l) with (f <$> l). rewrite list_lookup_fmap.
  destruct (decide (i < length l - n)%nat) as [Hi|Hi].
  - rewrite lookup_seq_lt by done. simpl.
    destruct (nth_lookup_or_length l (n + i) d) as [->|]; [done | lia].
  - rewrite lookup_seq_ge by lia. simpl. apply lookup_ge_None. lia.
Qed.

Lemma filter_map_positions {A B} (f : B → A) (P : A → Prop)
    `{∀ x, Decision (P x)} (l : list B) :
  filter P (map f l) = map f (filter (fun i => P (f i)) l).
Proof.
  induction l as [|x l IH]; [done|]. simpl.
  destruct (decide (P (f x))).
  - rewrite !filter_cons_True by done. simpl. by rewrite IH.
  - rewrite !filter_cons_False by done. done.
Qed.

(** The output, row by row, in terms of the positions of the sheet. *)
Lemma extract_rows_by_position g name :
  df_rows (_extract_study_hours_from_sheet g name) =
  match study_col g with
  | None => []
  | Some sc =>
      map (fun i => emit_row name (numeric_cols g) sc (nth i (frame_rows g) []))
          (emitted_positions g)
  end.
Proof.
  rewrite extract_rows. unfold emitted_positions.
  destruct (study_col g) as [sc|]; [|done].
  unfold df_data. rewrite (drop_as_positions (frame_rows g) (data_start g) []).
  rewrite filter_map_positions, map_map.
  assert (length (frame_rows g) = length g) as ->; [|done].
  unfold frame_rows. apply length_map.
Qed.

Lemma emitted_positions_ge g :
  Forall (fun i => (data_start g ≤ i)%nat) (emitted_positions g).
Proof.
  unfold emitted_positions. destruct (study_col g); [|done].
  apply Forall_forall. intros i [_ Hi%elem_of_seq]%list_elem_of_filter. lia.
Qed.

(** ** Registry *)

Lemma sorted_perm l : sorted l ≡ₚ l.
Proof. apply merge_sort_Permutation. Qed.

Lemma elem_of_sorted l x : x ∈ sorted l ↔ x ∈ l.
Proof. by rewrite sorted_perm. Qed.

Lemma sorted_StronglySorted l : StronglySorted String.le (sorted l).
Proof. apply StronglySorted_merge_sort; apply _. Qed.

Lemma sorted_NoDup l : NoDup l → NoDup (sorted l).
Proof. by rewrite sorted_perm. Qed.

Lemma no_unhashable_in_strings l : existsb is_unhashable (map JStr l) = false.
Proof. induction l; [done | by simpl]. Qed.

Lemma json_strings_of_strings l : json_strings (map JStr l) = l.
Proof.
  induction l as [|x l IH]; [done|].
  change (x :: json_strings (map JStr l) = x :: l). by rewrite IH.
Qed.

Lemma list_to_set_sorted_elements (s : gset string) :
  list_to_set (sorted (elements s)) = s.
Proof.
  apply set_eq. intros x.
  by rewrite elem_of_list_to_set, elem_of_sorted, elem_of_elements.
Qed.

Lemma load_after_save (employees : gset string) (w : World) :
  load_known_employees (save_known_employees employees w) = employees.
Proof.
  unfold load_known_employees, save_known_employees.
  rewrite lookup_insert_eq. simpl.
  rewrite no_unhashable_in_strings, json_strings_of_strings. simpl.
  apply list_to_set_sorted_elements.
Qed.

(** ** Loader and aggregator *)

Lemma elem_of_get_current_files w e :
  e ∈ get_current_files w ↔
  ∃ f, f ∈ dom w ∧ is_employee_file f = true ∧ splitext_root f = e.
Proof.
  unfold get_current_files, listdir.
  rewrite elem_of_list_to_set. change (map ?f ?l) with (f <$> l).
  rewrite list_elem_of_fmap. split.
  - intros (f & -> & [Hf Hd%elem_of_elements]%list_elem_of_filter). by exists f.
  - intros (f & Hd & Hf & <-). exists f. split; [done|].
    apply list_elem_of_filter. split; [done | by apply elem_of_elements].
Qed.

Lemma elem_of_get_employee_files w e :
  e ∈ get_employee_files w ↔
  e ∈ load_known_employees w ∧
  ∃ f, f ∈ dom w ∧ is_employee_file f = true ∧ splitext_root f = e.
Proof.
  unfold get_employee_files.
  by rewrite elem_of_sorted, elem_of_elements, elem_of_intersection,
    elem_of_get_current_files.
Qed.

Lemma df_empty_no_rows df : df_rows df = [] → df_empty df = true.
Proof. unfold df_empty. intros ->. by destruct (df_columns df). Qed.

Lemma union_labels_acc acc l x : x ∈ acc → x ∈ union_labels acc l.
Proof.
  revert acc. induction l as [|y l IH]; intros acc H; [done|]. simpl.
  case_decide; apply IH; [done|]. apply elem_of_app. by left.
Qed.

Lemma union_labels_known acc l : (∀ x, x ∈ l → x ∈ acc) → union_labels acc l = acc.
Proof.
  induction l as [|y l IH]; intros H; [done|]. simpl.
  rewrite decide_True by (apply H; left). apply IH. intros x Hx. apply H. by right.
Qed.

Lemma union_labels_NoDup_app acc c l :
  NoDup (acc ++ c) → union_labels acc (c ++ l) = union_labels (acc ++ c) l.
Proof.
  revert acc. induction c as [|x c IH]; intros acc Hnd; simpl.
  - by rewrite app_nil_r.
  - apply NoDup_app in Hnd as Hnd'. destruct Hnd' as (_ & Hdis & _).
    rewrite decide_False by (intros Hx; apply (Hdis x Hx); left).
    rewrite IH; rewrite <- app_assoc; done.
Qed.

Lemma extractor_columns_NoDup : NoDup extractor_columns.
Proof. apply (bool_decide_unpack _). by vm_compute. Qed.

Lemma aggregated_columns_NoDup : NoDup ["Study ID"; "Hours"; "Sheet"; "Employee"].
Proof. apply (bool_decide_unpack _). by vm_compute. Qed.

(** Frames that all carry the columns [c] concatenate to a frame with the
    columns [c]. *)
Lemma pd_concat_same_columns c df frames :
  NoDup c → (∀ f, f ∈ df :: frames → df_columns f = c) →
  df_columns (pd_concat (df :: frames)) = c.
Proof.
  intros Hnd Hc. unfold pd_concat. simpl.
  rewrite (Hc df) by left.
  rewrite (union_labels_NoDup_app [] c) by done. simpl.
  apply union_labels_known. intros x Hx.
  apply list_elem_of_In, in_concat in Hx as (cs & Hcs & Hx).
  apply in_map_iff in Hcs as (f & <- & Hf).
  rewrite Hc in Hx by (right; by apply list_elem_of_In). by apply list_elem_of_In.
Qed.

Lemma sheet_frames_spec sheets df :
  df ∈ sheet_frames sheets →
  df_empty df = false ∧ df_columns df = extractor_columns.
Proof.
  unfold sheet_frames. intros [He Hdf]%list_elem_of_filter. split; [done|].
  change (map ?f ?l) with (f <$> l) in Hdf.
  apply list_elem_of_fmap in Hdf as ([name g] & -> & _). apply extract_columns.
Qed.

Lemma df_empty_false df :
  df_empty df = false → df_columns df ≠ [] ∧ df_rows df ≠ [].
Proof. unfold df_empty. by destruct (df_columns df), (df_rows df). Qed.

(** The loader returns either [pd.DataFrame()] or a frame with rows and the
    three columns of the extractor. *)
Lemma load_employee_data_cases w e :
  load_employee_data w e = empty_frame ∨
  (df_rows (load_employee_data w e) ≠ [] ∧
   df_columns (load_employee_data w e) = extractor_columns).
Proof.
  unfold load_employee_data, load_employee_data_raw.
  destruct (w !! (e ++ DATA_FILE_EXTENSION)) as [[doc|sheets|table|]|]; simpl; auto.
  destruct (sheet_frames sheets) as [|df frames] eqn:E; [by left | right].
  assert (∀ f, f ∈ df :: frames → df_empty f = false ∧ df_columns f = extractor_columns) as H.
  { intros f Hf. apply (sheet_frames_spec sheets). by rewrite E. }
  split.
  - unfold pd_concat. simpl. destruct (H df) as [He _]; [left|].
    apply df_empty_false in He as [_ He]. by destruct (df_rows df).
  - apply pd_concat_same_columns; [apply extractor_columns_NoDup|].
    intros f Hf. by apply H.
Qed.

Lemma load_employee_data_empty_iff w e :
  df_empty (load_employee_data w e) = true ↔ df_rows (load_employee_data w e) = [].
Proof.
  split; [|apply df_empty_no_rows].
  destruct (load_employee_data_cases w e) as [-> | [Hr Hc]]; [done|].
  unfold df_empty. rewrite Hc. simpl. by destruct (df_rows _).
Qed.

Lemma tagged_frames_rows w employees :
  concat (map df_rows (tagged_frames w employees)) =
  flat_map (fun e => map (with_employee e) (df_rows (load_employee_data w e))) employees.
Proof.
  unfold tagged_frames. induction employees as [|e es IH]; [done|]. simpl.
  destruct (df_empty (load_employee_data w e)) eqn:E.
  - apply load_employee_data_empty_iff in E. rewrite E. simpl. apply IH.
  - simpl. by rewrite <- IH.
Qed.

Lemma tagged_frames_spec w employees df :
  df ∈ tagged_frames w employees →
  df_rows df ≠ [] ∧ df_columns df = ["Study ID"; "Hours"; "Sheet"; "Employee"].
Proof.
  unfold tagged_frames. intros (e & He & Hdf)%list_elem_of_omap.
  destruct (df_empty (load_employee_data w e)) eqn:E; [done|]. simplify_eq.
  destruct (load_employee_data_cases w e) as [H | [Hr Hc]]; [by rewrite H in E|].
  unfold set_employee. simpl. rewrite Hc. split; [|done].
  by destruct (df_rows (load_employee_data w e)).
Qed.

Lemma load_all_data_rows w :
  df_rows (load_all_data w) =
  flat_map (fun e => map (with_employee e) (df_rows (load_employee_data w e)))
           (get_employee_files w).
Proof.
  unfold load_all_data. rewrite <- tagged_frames_rows.
  destruct (get_employee_files w) as [|e es]; [done|].
  by destruct (tagged_frames w (e :: es)).
Qed.

Lemma tagged_frames_all_empty w employees :
  (∀ e, e ∈ employees → df_empty (load_employee_data w e) = true) →
  tagged_frames w employees = [].
Proof.
  unfold tagged_frames. induction employees as [|e es IH]; intros H; [done|]. simpl.
  rewrite (H e) by left. apply IH. intros e' He'. apply H. by right.
Qed.

(** ** Report artifacts *)




Lemma generate_report_written w choice now r :
  snd (generate_report w choice now) = Some r →
  ∃ selected, select_employees (get_employee_files w) choice = Some selected ∧
              r = build_report w selected now ∧
              is_Some (workbook_sheets r) ∧
              fst (generate_report w choice now) = write_report r w.
Proof.
  unfold generate_report.
  destruct (get_employee_files w) as [|e es] eqn:E; [done|].
  destruct (select_employees (e :: es) choice) as [selected|] eqn:S; [|done].
  cbv zeta. destruct (workbook_sheets (build_report w selected now)) eqn:W; [|done].
  cbn [fst snd]. intros [= <-]. exists selected. rewrite W. eauto.
Qed.

(** The three ways [generate_report] ends: the dialogue is abandoned, an
    exception is caught, or the two files are written. *)
Lemma generate_report_cases w choice now :
  (generate_report w choice now = (w, None) ∧
   select_employees (get_employee_files w) choice = None) ∨
  (generate_report w choice now = (w, None) ∧ get_employee_files w = []) ∨
  (∃ selected,
     get_employee_files w ≠ [] ∧
     select_employees (get_employee_files w) choice = Some selected ∧
     workbook_sheets (build_report w selected now) = None ∧
     generate_report w choice now = (w, None)) ∨
  (∃ selected sheets,
     get_employee_files w ≠ [] ∧
     select_employees (get_employee_files w) choice = Some selected ∧
     workbook_sheets (build_report w selected now) = Some sheets ∧
     generate_report w choice now
     = (write_report (build_report w selected now) w,
        Some (build_report w selected now))).
Proof.
  unfold generate_report.
  destruct (get_employee_files w) as [|e es] eqn:E; [right; by left|].
  destruct (select_employees (e :: es) choice) as [selected|] eqn:S; [|by left].
  cbv zeta.
  destruct (workbook_sheets (build_report w selected now)) as [sheets|] eqn:W.
  - right. right. right. by exists selected, sheets.
  - right. right. left. by exists selected.
Qed.

(** End-to-end example 3. *)
Example report_names_alice_and_all :
  (excel_path <$> snd (generate_report world_alice_bob (ChooseSelected (Some [1%Z])) sample_now))
  = Some "aliceFiles_20250102_030405.xlsx" ∧
  (csv_path <$> snd (generate_report world_alice_bob (ChooseSelected (Some [1%Z])) sample_now))
  = Some "aliceData_20250102_030405.csv" ∧
  (excel_path <$> snd (generate_report world_alice_bob ChooseAll sample_now))
  = Some "EffortFiles_20250102_030405.xlsx" ∧
  (csv_path <$> snd (generate_report world_alice_bob ChooseAll sample_now))
  = Some "EffortData_20250102_030405.csv".
Proof. repeat split; vm_compute; reflexivity. Qed.

(** ** The table the charts read *)

Lemma string_compare_refl s : (s ?= s)%string = Eq.
Proof.
  induction s as [|a s IH]; [done|]. simpl.
  unfold Ascii.compare. by rewrite N.compare_refl.
Qed.

Lemma string_compare_app_prefix p a b : (p ++ a ?= p ++ b)%string = (a ?= b)%string.
Proof.
  induction p as [|c p IH]; [done|].
  change ((String c (p ++ a) ?= String c (p ++ b))%string = (a ?= b)%string).
  simpl. unfold Ascii.compare at 1. by rewrite N.compare_refl.
Qed.

Lemma string_compare_app_suffix a b s :
  String.length a = String.length b →
  (a ++ s ?= b ++ s)%string = (a ?= b)%string.
Proof.
  revert b. induction a as [|c a IH]; intros [|d b] Hl; try done.
  - apply string_compare_refl.
  - change ((String c (a ++ s) ?= String d (b ++ s))%string
            = (String c a ?= String d b)%string).
    simpl. destruct (Ascii.compare c d); [|done|done].
    apply IH. simpl in Hl. lia.
Qed.

Lemma string_le_artifact_names t1 t2 :
  String.length t1 = String.length t2 →
  String.le ("EffortData_" ++ t1 ++ ".csv") ("EffortData_" ++ t2 ++ ".csv")
  ↔ String.le t1 t2.
Proof.
  intros Hl. unfold String.le, String.leb.
  by rewrite string_compare_app_prefix, string_compare_app_suffix.
Qed.

Lemma str_startswith_app p s : str_startswith p (p ++ s) = true.
Proof.
  induction p as [|c p IH]; [done|].
  change (str_startswith (String c p) (String c (p ++ s)) = true).
  simpl. by rewrite Ascii.eqb_refl.
Qed.

Lemma rev_app_app s1 s2 acc :
  String.rev_app (s1 ++ s2) acc = String.rev_app s2 (String.rev_app s1 acc).
Proof.
  revert acc. induction s1 as [|c s1 IH]; intros acc; [done|].
  change (String.rev_app (String c (s1 ++ s2)) acc
          = String.rev_app s2 (String.rev_app (String c s1) acc)).
  simpl. apply IH.
Qed.

Lemma string_app_assoc (a b c : string) : (a ++ b) ++ c = a ++ (b ++ c).
Proof.
  induction a as [|x a IH]; [done|].
  change (String x ((a ++ b) ++ c) = String x (a ++ (b ++ c))). by rewrite IH.
Qed.

Lemma rev_app_acc s acc : String.rev_app s acc = String.rev_app s EmptyString ++ acc.
Proof.
  revert acc. induction s as [|c s IH]; intros acc; [done|]. simpl.
  rewrite (IH (String c acc)), (IH (String c EmptyString)).
  by rewrite string_app_assoc.
Qed.

Lemma str_endswith_app p s : str_endswith p (s ++ p) = true.
Proof.
  unfold str_endswith, String.rev.
  rewrite rev_app_app, (rev_app_acc p (String.rev_app s EmptyString)).
  apply str_startswith_app.
Qed.

Lemma generic_table_name_is_effort_csv ts :
  is_effort_csv ("EffortData_" ++ ts ++ ".csv") = true.
Proof.
  unfold is_effort_csv. rewrite str_startswith_app. simpl.
  rewrite <- string_app_assoc. apply str_endswith_app.
Qed.

Lemma elem_of_effort_csvs w f :
  f ∈ filter (fun f => is_effort_csv f = true) (listdir w) ↔
  f ∈ dom w ∧ is_effort_csv f = true.
Proof.
  unfold listdir. rewrite list_elem_of_filter, elem_of_elements. tauto.
Qed.

Lemma last_sorted_greatest l f :
  last (sorted l) = Some f → f ∈ l ∧ ∀ g, g ∈ l → String.le g f.
Proof.
  intros [l' Hl]%last_Some.
  assert (∀ g, g ∈ l ↔ g ∈ l' ∨ g = f) as Hin.
  { intros g. rewrite <- elem_of_sorted, Hl, elem_of_app, list_elem_of_singleton. done. }
  split; [apply Hin; by right|].
  intros g [Hg | ->]%Hin; [|done].
  pose proof (sorted_StronglySorted l) as Hs. rewrite Hl in Hs.
  eapply (StronglySorted_app_1_elem_of _ l' [f]); [done | done | by left].
Qed.

Lemma visualisation_input_Some w f :
  visualisation_input w = Some f ↔
  f ∈ dom w ∧ is_effort_csv f = true ∧
  ∀ g, g ∈ dom w → is_effort_csv g = true → String.le g f.
Proof.
  unfold visualisation_input, csv_files. rewrite head_reverse. split.
  - intros [Hf Hmax]%last_sorted_greatest.
    apply elem_of_effort_csvs in Hf as [Hd Hf]. repeat split; try done.
    intros g Hg Hc. apply Hmax, elem_of_effort_csvs. done.
  - intros (Hd & Hf & Hmax).
    destruct (last (sorted (filter (fun f => is_effort_csv f = true) (listdir w))))
      as [f'|] eqn:E.
    + apply last_sorted_greatest in E as [Hf' Hmax'].
      f_equal. apply (anti_symm String.le).
      * apply elem_of_effort_csvs in Hf' as [? ?]. by apply Hmax.
      * apply Hmax'. by apply elem_of_effort_csvs.
    + apply last_None in E.
      assert (f ∈ sorted (filter (fun f => is_effort_csv f = true) (listdir w))) as Hin.
      { apply elem_of_sorted, elem_of_effort_csvs. done. }
      rewrite E in Hin. by apply not_elem_of_nil in Hin.
Qed.

Lemma visualisation_input_None w :
  visualisation_input w = None ↔ ∀ f, f ∈ dom w → is_effort_csv f = false.
Proof.
  unfold visualisation_input, csv_files. rewrite head_reverse, last_None. split.
  - intros E f Hd. destruct (is_effort_csv f) eqn:Hf; [|done].
    assert (f ∈ sorted (filter (fun f => is_effort_csv f = true) (listdir w))) as Hin.
    { apply elem_of_sorted, elem_of_effort_csvs. done. }
    rewrite E in Hin. by apply not_elem_of_nil in Hin.
  - intros H.
    destruct (sorted (filter (fun f => is_effort_csv f = true) (listdir w)))
      as [|f l] eqn:E; [done|].
    assert (f ∈ f :: l) as Hin by left. rewrite <- E in Hin.
    apply elem_of_sorted, elem_of_effort_csvs in Hin as [Hd Hf].
    by rewrite (H f Hd) in Hf.
Qed.

(** ** Per-employee summary *)

Lemma sum_Z_zero {A} (l : list A) : sum_Z (map (fun _ => 0%Z) l) = 0%Z.
Proof. induction l as [|x l IH]; [done|]. simpl. by rewrite IH. Qed.

Lemma sum_Z_pick_absent (F : string → Z) (k : string) (h : Z) (l : list string) :
  k ∉ l →
  sum_Z (map (fun s => if decide (k = s) then (h + F s)%Z else F s) l) = sum_Z (map F l).
Proof.
  induction l as [|x l IH]; intros Hk; [done|]. simpl.
  apply not_elem_of_cons in Hk as [Hx Hl].
  rewrite decide_False by done. by rewrite IH.
Qed.

Lemma sum_Z_pick (F : string → Z) (k : string) (h : Z) (l : list string) :
  NoDup l → k ∈ l →
  sum_Z (map (fun s => if decide (k = s) then (h + F s)%Z else F s) l)
  = (h + sum_Z (map F l))%Z.
Proof.
  induction 1 as [|x l Hx Hnd IH]; intros Hk; [by apply not_elem_of_nil in Hk|].
  simpl. apply elem_of_cons in Hk as [<- | Hk].
  - rewrite decide_True by done. rewrite sum_Z_pick_absent by done. lia.
  - rewrite decide_False by (intros <-; done). rewrite IH by done. lia.
Qed.

Lemma hours_of_study_cons s r rows :
  sum_Z (map Hours (filter (fun r => StudyId r = s) (r :: rows))) =
  if decide (StudyId r = s)
  then (Hours r + sum_Z (map Hours (filter (fun r => StudyId r = s) rows)))%Z
  else sum_Z (map Hours (filter (fun r => StudyId r = s) rows)).
Proof.
  case_decide.
  - by rewrite filter_cons_True.
  - by rewrite filter_cons_False.
Qed.

(** Summing the groups of a partition by study gives the sum of all rows. *)
Lemma groups_partition rows l :
  NoDup l → (∀ r, r ∈ rows → StudyId r ∈ l) →
  sum_Z (map (fun s => sum_Z (map Hours (filter (fun r => StudyId r = s) rows))) l)
  = sum_Z (map Hours rows).
Proof.
  intros Hnd. induction rows as [|r rows IH]; intros Hin.
  - apply sum_Z_zero.
  - simpl. rewrite <- IH by (intros r' Hr'; apply Hin; by right).
    rewrite <- (sum_Z_pick _ (StudyId r) (Hours r) l Hnd) by (apply Hin; left).
    f_equal. apply map_ext. intros s. apply hours_of_study_cons.
Qed.

Lemma study_ids_NoDup rows : NoDup (study_ids rows).
Proof. apply sorted_NoDup, NoDup_remove_dups. Qed.

Lemma elem_of_study_ids rows s : s ∈ study_ids rows ↔ ∃ r, r ∈ rows ∧ StudyId r = s.
Proof.
  unfold study_ids. rewrite elem_of_sorted, elem_of_remove_dups.
  change (map ?f ?l) with (f <$> l). rewrite list_elem_of_fmap.
  split; [intros (r & -> & Hr) | intros (r & Hr & <-)]; by exists r.
Qed.

Lemma groupby_total rows :
  sum_Z (map snd (groupby_study_sum rows)) = sum_Z (map Hours rows).
Proof.
  unfold groupby_study_sum. rewrite map_map. simpl.
  apply groups_partition; [apply study_ids_NoDup|].
  intros r Hr. apply elem_of_study_ids. by exists r.
Qed.

Lemma employee_sheet_cases w emp :
  (sum_Z (map Hours (df_rows (load_employee_data w emp))) = 0%Z ∧
   ∃ msg, employee_sheet w emp = SheetMessage msg) ∨
  (sum_Z (map Hours (df_rows (load_employee_data w emp))) ≠ 0%Z ∧
   employee_sheet w emp =
     SheetTable summary_header
       (map (fun '(s, h) =>
               mkSummaryRow s h (sum_Z (map Hours (df_rows (load_employee_data w emp))))
                 (percent h (sum_Z (map Hours (df_rows (load_employee_data w emp))))))
            (groupby_study_sum (df_rows (load_employee_data w emp))))).
Proof.
  unfold employee_sheet.
  destruct (df_empty (load_employee_data w emp)) eqn:E.
  - left. apply load_employee_data_empty_iff in E. rewrite E. split; [done | eauto].
  - rewrite groupby_total.
    destruct (sum_Z (map Hours (df_rows (load_employee_data w emp))) =? 0)%Z eqn:T.
    + left. apply Z.eqb_eq in T. split; [done | eauto].
    + right. apply Z.eqb_neq in T. done.
Qed.

(** ** Pivot tables *)


















(** ** The overall summary *)





Section overall_summary.
Variable rows : list EffortRow.
Hypothesis no_total_label : "Total per Employee" ∉ study_ids rows.









End overall_summary.

Lemma load_employee_data_study_ids w e r :
  r ∈ df_rows (load_employee_data w e) → fullmatch_STUDY (StudyId r) = true.
Proof.
  unfold load_employee_data, load_employee_data_raw.
  destruct (w !! (e ++ DATA_FILE_EXTENSION)) as [[doc|sheets|table|]|]; simpl;
    try (by intros ?%not_elem_of_nil).
  destruct (sheet_frames sheets) as [|df frames] eqn:E; [by intros ?%not_elem_of_nil|].
  rewrite <- E. clear E. unfold pd_concat. simpl.
  intros (rs & (f & <- & Hf)%in_map_iff & Hr)%list_elem_of_In%in_concat.
  apply list_elem_of_In in Hf, Hr.
  unfold sheet_frames in Hf. apply list_elem_of_filter in Hf as [_ Hf].
  change (map ?f ?l) with (f <$> l) in Hf.
  apply list_elem_of_fmap in Hf as ([name g] & -> & _).
  by apply extract_rows_inv in Hr as (sc & row & _ & _ & Hv & ->).
Qed.


(** ** The workbook as openpyxl builds it *)

Lemma str_startswith_refl p : str_startswith p p = true.
Proof. induction p as [|a p IH]; [done|]. simpl. by rewrite Ascii.eqb_refl. Qed.

(** A title that no sheet bears, in any case, is kept. *)
Lemma avoid_duplicate_name_fresh names v :
  (∀ n, n ∈ names → str_lower n ≠ str_lower v) → avoid_duplicate_name names v = v.
Proof.
  intros H. unfold avoid_duplicate_name.
  destruct (existsb _ names) eqn:E; [|done].
  apply existsb_exists in E as (n & Hn%list_elem_of_In & Heq%String.eqb_eq).
  by destruct (H n Hn).
Qed.

(** The title given starts with the title asked for. *)
Lemma avoid_duplicate_name_prefix names v :
  str_startswith v (avoid_duplicate_name names v) = true.
Proof.
  unfold avoid_duplicate_name.
  destruct (existsb _ names); [|apply str_startswith_refl].
  destruct (title_counts v 0 (join_comma names)); [apply str_startswith_refl|].
  apply str_startswith_app.
Qed.

Lemma create_sheet_Some names title t :
  create_sheet names title = Some t ↔
  title_is_valid (default_title title) = true ∧
  t = avoid_duplicate_name names (default_title title).
Proof.
  unfold create_sheet. cbv zeta.
  destruct (title_is_valid (default_title title)); split.
  - by intros [= <-].
  - by intros [_ ->].
  - done.
  - by intros [? _].
Qed.

Lemma openpyxl_sheets_cons names title body rest sheets :
  openpyxl_sheets names ((title, body) :: rest) = Some sheets ↔
  title_is_valid (default_title title) = true ∧ body_ok body = true ∧
  ∃ tail,
    sheets = (avoid_duplicate_name names (default_title title), body) :: tail ∧
    openpyxl_sheets (names ++ [avoid_duplicate_name names (default_title title)])%list rest
    = Some tail.
Proof.
  simpl. unfold create_sheet. cbv zeta.
  destruct (title_is_valid (default_title title)); [|naive_solver].
  destruct (body_ok body); [|naive_solver].
  destruct (openpyxl_sheets _ rest) as [tail|]; simpl; naive_solver.
Qed.

(** The exceptions depend on the titles asked for and on the rows, not on
    the sheets made before. *)
Lemma openpyxl_sheets_None names asked :
  openpyxl_sheets names asked = None ↔
  Exists (fun a => title_is_valid (default_title (fst a)) = false ∨ body_ok (snd a) = false)
         asked.
Proof.
  revert names. induction asked as [|[title body] rest IH]; intros names.
  - simpl. split; [done | by intros ?%Exists_nil].
  - rewrite Exists_cons. simpl. unfold create_sheet. cbv zeta.
    destruct (title_is_valid (default_title title)); [|naive_solver].
    destruct (body_ok body); [|naive_solver].
    rewrite <- (IH (names ++ [avoid_duplicate_name names (default_title title)])%list).
    destruct (openpyxl_sheets _ rest); simpl; naive_solver.
Qed.

(** The sheets of the workbook are the sheets asked for, in order, each
    under a title that starts with the title asked for. *)
Lemma openpyxl_sheets_Forall2 names asked sheets :
  openpyxl_sheets names asked = Some sheets →
  Forall2 (fun s a => snd s = snd a ∧
                      str_startswith (default_title (fst a)) (fst s) = true)
          sheets asked.
Proof.
  revert names sheets. induction asked as [|[title body] rest IH]; intros names sheets.
  - simpl. intros [= <-]. constructor.
  - intros (_ & _ & tail & -> & Ht)%openpyxl_sheets_cons.
    constructor; [|by eapply IH].
    split; [done|]. apply avoid_duplicate_name_prefix.
Qed.

Lemma openpyxl_sheets_bodies names asked sheets :
  openpyxl_sheets names asked = Some sheets → map snd sheets = map snd asked.
Proof.
  intros H%openpyxl_sheets_Forall2.
  induction H as [|s a sheets asked [Hb _] _ IH]; [done|]. simpl. by rewrite Hb, IH.
Qed.

Lemma openpyxl_sheets_length names asked sheets :
  openpyxl_sheets names asked = Some sheets → length sheets = length asked.
Proof. intros H%openpyxl_sheets_Forall2. by eapply Forall2_length. Qed.

(** When the titles asked for differ from one another and from those of
    the sheets made before, case ignored, every sheet gets the title asked
    for. *)
Lemma openpyxl_sheets_distinct names asked sheets :
  openpyxl_sheets names asked = Some sheets →
  NoDup (map (fun a => str_lower (default_title (fst a))) asked) →
  (∀ a n, a ∈ asked → n ∈ names → str_lower n ≠ str_lower (default_title (fst a))) →
  map fst sheets = map (fun a => default_title (fst a)) asked.
Proof.
  revert names sheets. induction asked as [|[title body] rest IH]; intros names sheets.
  - simpl. by intros [= <-].
  - intros (_ & _ & tail & -> & Ht)%openpyxl_sheets_cons Hnd Hfresh.
    apply NoDup_cons in Hnd as [Hnotin Hnd]. simpl in Hnotin.
    assert (avoid_duplicate_name names (default_title title) = default_title title) as Hsame.
    { apply avoid_duplicate_name_fresh. intros n Hn. apply (Hfresh (title, body) n); [left | done]. }
    rewrite Hsame in *. simpl. f_equal.
    apply (IH _ _ Ht Hnd). intros a n Ha [Hn | ->%list_elem_of_singleton]%elem_of_app.
    + apply (Hfresh a n); [by right | done].
    + intros Heq. apply Hnotin. rewrite Heq.
      apply list_elem_of_In, in_map_iff. exists a. split; [done | by apply list_elem_of_In].
Qed.



(** ** Row sums within the int64 range *)

Lemma ncols_ge g row : row ∈ g → (length row ≤ ncols g)%nat.
Proof.
  induction g as [|r g IH]; [by intros ?%not_elem_of_nil|].
  intros [-> | H]%elem_of_cons; simpl; [lia|].
  specialize (IH H). lia.
Qed.

Lemma sum_cells_seq (l : list cell) (n : nat) :
  (length l ≤ n)%nat →
  sum_Z (map (fun j => cell_value (cell_at l j)) (seq 0 n)) = row_total l.
Proof.
  unfold row_total. revert n. induction l as [|c l IH]; intros n Hn.
  - simpl. erewrite map_ext; [apply sum_Z_zero|]. by intros [|j].
  - destruct n as [|n]; [simpl in Hn; lia|].
    rewrite <- cons_seq, <- seq_shift. cbn [map sum_Z foldr].
    rewrite map_map. change (cell_at (c :: l) 0) with c. f_equal.
    apply IH. simpl in Hn. lia.
Qed.

Lemma sum_Z_le {A} (F G : A → Z) (l : list A) :
  (∀ x, (F x ≤ G x)%Z) → (sum_Z (map F l) ≤ sum_Z (map G l))%Z.
Proof.
  intros H. induction l as [|x l IH]; simpl; [done|]. specialize (H x). lia.
Qed.

(** With no negative cell and rows that add up to less than 2^63, what the
    extractor adds up for a row of the data region lies in the int64
    range. *)
Lemma exact_sum_in_range g row :
  grid_nonneg g = true → grid_rows_below (2 ^ 63) g = true → row ∈ df_data g →
  (0 ≤ exact_sum (numeric_cols g) row < 2 ^ 63)%Z.
Proof.
  intros Hg Hb Hrow.
  split; [apply exact_sum_nonneg; intros j; by eapply grid_nonneg_cell|].
  rewrite exact_sum_numeric_cols.
  destruct (elem_of_df_data g row Hrow) as (orig & Ho & ->).
  eapply Z.le_lt_trans.
  { apply (sum_Z_le _ (fun j => cell_value (cell_at (pad_row (ncols g) orig) j))).
    intros j. case_match; [lia|].
    by eapply (grid_nonneg_cell g (pad_row (ncols g) orig) j). }
  erewrite map_ext_in.
  2:{ intros j Hj%in_seq. rewrite cell_at_pad_row. rewrite decide_True by lia. done. }
  rewrite sum_cells_seq by (by apply ncols_ge).
  unfold grid_rows_below in Hb. rewrite forallb_forall in Hb.
  apply Z.ltb_lt, Hb, list_elem_of_In, Ho.
Qed.

(* ===================================================================== *)
(** * The claims of the specification *)
(* ===================================================================== *)

(** C1: in the sheet of end-to-end example 1 the scan for the header sets
    the data region to start below the header row, yet the columns "Jan"
    and "Feb" keep the dtype they have in the whole sheet, which the header
    text makes object: no column is summed and both emitted rows carry
    Hours 0, where the claim has 7 and 0.  The two data rows alone yield 7
    and 0.  In general the Hours of an emitted row is the row sum over the
    columns of numeric dtype, which are the columns no cell of which,
    anywhere in the sheet, holds a text. *)
Theorem C1_header_text_defeats_numeric_selection :
  data_start example1 = 1%nat ∧
  spec_numeric_col (column (frame_rows example1) 1) = true ∧
  spec_numeric_col (column (frame_rows example1) 2) = true ∧
  numeric_cols example1 = [] ∧
  map (fun r => (StudyId r, Hours r))
      (df_rows (_extract_study_hours_from_sheet example1 "Sheet1"))
  = [("STUDY1", 0%Z); ("STUDY2", 0%Z)] ∧
  map (fun r => (StudyId r, Hours r))
      (df_rows (_extract_study_hours_from_sheet example1_bare "Sheet1"))
  = [("STUDY1", 7%Z); ("STUDY2", 0%Z)] ∧
  (∀ (g : grid) (name : string),
     Forall (fun r =>
               ∃ sc row, study_col g = Some sc ∧ row ∈ df_data g ∧
                 StudyId r = astype_str (cell_at row sc) ∧
                 Hours r = row_sum (numeric_cols g) row)
            (df_rows (_extract_study_hours_from_sheet g name))) ∧
  (∀ g : grid,
     map fst (numeric_cols g)
     = filter (fun j => is_numeric_dtype (column (frame_rows g) j) = true)
              (seq 0 (ncols g))) ∧
  (∀ (g : grid) (j : nat),
     is_numeric_dtype (column (frame_rows g) j) = true ↔
     ∀ row, row ∈ frame_rows g → ∀ s, cell_at row j ≠ CStr s).
Proof.
  do 6 (split; [by vm_compute|]).
  split; [|split; [apply numeric_cols_fst | apply is_numeric_dtype_spec]].
  intros g name. apply Forall_forall. intros r Hr.
  apply extract_rows_inv in Hr as (sc & row & Hsc & Hrow & _ & ->).
  by exists sc, row.
Qed.

(** C2 (counterexample): a negative cell in a numeric column is summed as
    it is, so an emitted row can carry negative Hours; and a sum over int64
    columns wraps around, so that two cells of 2^62, neither negative, give
    Hours -2^63. *)
Lemma C2_negative_hours_counterexample :
  df_rows (_extract_study_hours_from_sheet grid_negative "Sheet1")
  = [mkRow "STUDY1" (-5) "Sheet1" None] ∧
  (Hours (mkRow "STUDY1" (-5) "Sheet1" None) < 0)%Z ∧
  grid_nonneg grid_wraps = true ∧
  df_rows (_extract_study_hours_from_sheet grid_wraps "Sheet1")
  = [mkRow "STUDY1" (- 2 ^ 63) "Sheet1" None] ∧
  (Hours (mkRow "STUDY1" (- 2 ^ 63) "Sheet1" None) < 0)%Z.
Proof. repeat split; by vm_compute. Qed.

(** C2 (amended): for every grid, every emitted row has a StudyId that fully
    matches STUDY followed by digits, exactly as written and hence also
    without regard to case, and so has every row of the aggregated table; the
    Hours of an emitted row is greater than or equal to 0, and bounded, when
    no cell of the grid holds a negative number and the numbers of each row
    add up to less than 2^63 (negative cells are summed as they are, nothing
    clamps them, and greater sums of int64 columns wrap around).  The bound
    2^64 leaves room for the rounding of a float64 sum. *)
Theorem C2_study_id_matches_and_hours_nonneg :
  (∀ (g : grid) (name : string),
     Forall (fun r => fullmatch_STUDY (StudyId r) = true ∧
                      fullmatch_STUDY_ignorecase (StudyId r) = true)
            (df_rows (_extract_study_hours_from_sheet g name))) ∧
  (∀ (g : grid) (name : string),
     grid_nonneg g = true → grid_rows_below (2 ^ 63) g = true →
     Forall (fun r => (0 ≤ Hours r < 2 ^ 64)%Z)
            (df_rows (_extract_study_hours_from_sheet g name))) ∧
  (∀ w : World,
     Forall (fun r => fullmatch_STUDY (StudyId r) = true ∧
                      fullmatch_STUDY_ignorecase (StudyId r) = true)
            (df_rows (load_all_data w))).
Proof.
  split; [|split].
  - intros g name. apply Forall_forall. intros r Hr.
    apply extract_rows_inv in Hr as (sc & row & Hsc & Hrow & Hv & ->). simpl.
    split; [done | by apply fullmatch_STUDY_ignorecase_of_exact].
  - intros g name Hg Hb. apply Forall_forall. intros r Hr.
    apply extract_rows_inv in Hr as (sc & row & Hsc & Hrow & Hv & ->). simpl.
    pose proof (exact_sum_in_range g row Hg Hb Hrow) as Hs.
    rewrite row_sum_exact by lia. lia.
  - intros w. rewrite load_all_data_rows. apply Forall_forall. intros r Hr.
    apply list_elem_of_In, in_flat_map in Hr as (e & _ & Hr).
    apply in_map_iff in Hr as (r' & <- & Hr'%list_elem_of_In).
    apply load_employee_data_study_ids in Hr'. simpl.
    split; [done | by apply fullmatch_STUDY_ignorecase_of_exact].
Qed.

Lemma C2_study_id_matches_and_hours_nonneg_witness :
  grid_nonneg example1_bare = true ∧
  grid_rows_below (2 ^ 63) example1_bare = true ∧
  Forall (fun r => (0 ≤ Hours r < 2 ^ 64)%Z)
         (df_rows (_extract_study_hours_from_sheet example1_bare "Sheet1")).
Proof.
  split; [reflexivity|]. split; [reflexivity|].
  apply (proj1 (proj2 C2_study_id_matches_and_hours_nonneg) example1_bare "Sheet1");
    reflexivity.
Defined.

(** C3 (counterexample): a lowercase, whitespace-padded identifier qualifies
    its column in the reading of the specification, but not for the
    extractor, which selects no column and emits nothing. *)
Lemma C3_padded_lowercase_counterexample :
  spec_cell_qualifies (CStr " study7 ") = true ∧
  spec_study_col grid_padded = Some 0%nat ∧
  study_col grid_padded = None ∧
  df_rows (_extract_study_hours_from_sheet grid_padded "Sheet1") = [].
Proof. by repeat split. Qed.

(** C3 (amended): for every grid, the study-id column is the first column,
    scanning left to right within the data region, that contains at least one
    cell whose stringified value, exactly as written (no trimming, uppercase
    only), is STUDY followed by digits; the extractor returns the empty
    sequence whenever no column qualifies.  The cell " study7 " does not
    qualify its column. *)
Theorem C3_study_col_is_first_exact_match :
  (∀ (g : grid) (j : nat),
     study_col g = Some j ↔
     (j < ncols g)%nat ∧ column_qualifies g j ∧
     ∀ k, (k < j)%nat → ¬ column_qualifies g k) ∧
  (∀ (g : grid),
     (∀ j, (j < ncols g)%nat → ¬ column_qualifies g j) ↔
     study_col g = None) ∧
  (∀ (g : grid) (name : string),
     study_col g = None →
     _extract_study_hours_from_sheet g name = mkDF extractor_columns []) ∧
  fullmatch_STUDY (astype_str (CStr " study7 ")) = false.
Proof.
  split; [|split; [|split; [apply extract_no_study_col | done]]].
  - intros g j. unfold study_col, find_study_col. rewrite find_seq_first.
    rewrite any_valid_mask_qualifies. split.
    + intros (Hj & Hq & Hk). repeat split; [lia | done |].
      intros k Hk'. apply not_qualifies_mask, Hk. lia.
    + intros (Hj & Hq & Hk). repeat split; [lia | lia | done |].
      intros k Hk'. apply not_qualifies_mask, Hk. lia.
  - intros g. unfold study_col, find_study_col. rewrite find_seq_None. split.
    + intros H k Hk. apply not_qualifies_mask, H. lia.
    + intros H j Hj. apply not_qualifies_mask, H. lia.
Qed.

Lemma C3_study_col_is_first_exact_match_witness :
  study_col grid_padded = None ∧
  _extract_study_hours_from_sheet grid_padded "Sheet1" = mkDF extractor_columns [].
Proof.
  split; [reflexivity|].
  apply (proj1 (proj2 (proj2 C3_study_col_is_first_exact_match)) grid_padded "Sheet1").
  reflexivity.
Defined.

(** C4 (counterexample): a row above the header that holds a study
    identifier is itself taken as the start of the data, and is emitted. *)
Lemma C4_identifier_above_header_counterexample :
  frame_rows grid_id_above_header !! 1%nat = Some [CStr "Study ID"; CStr "Hours"] ∧
  is_header_row [CStr "Study ID"; CStr "Hours"] = true ∧
  is_header_row [CStr "STUDY1"; CNum 5] = false ∧
  data_start grid_id_above_header = 0%nat ∧
  emitted_positions grid_id_above_header = [0; 2]%nat ∧
  map StudyId (df_rows (_extract_study_hours_from_sheet grid_id_above_header "Sheet1"))
  = ["STUDY1"; "STUDY2"].
Proof. by repeat split. Qed.

(** C4 (amended): for every grid whose first row holding the token
    "study id" (case-insensitive) has no row above it with a cell matching
    study followed by digits (case-insensitive), the data region starts at
    that header row's index + 1 and no row at or above the header appears in
    the output; the rows emitted are those at the emitted positions. *)
Theorem C4_data_starts_after_first_header
    (g : grid) (h : nat) (hdr : list cell) (name : string) :
  frame_rows g !! h = Some hdr →
  is_header_row hdr = true →
  (∀ i row, (i < h)%nat → frame_rows g !! i = Some row →
            is_header_row row = false ∧ has_study_cell row = false) →
  data_start g = S h ∧
  df_data g = drop (S h) (frame_rows g) ∧
  Forall (fun i => (h < i)%nat) (emitted_positions g) ∧
  df_rows (_extract_study_hours_from_sheet g name) =
    match study_col g with
    | None => []
    | Some sc =>
        map (fun i => emit_row name (numeric_cols g) sc (nth i (frame_rows g) []))
            (emitted_positions g)
    end.
Proof.
  intros Hh Hhdr Habove.
  assert (data_start g = S h) as Hds.
  { unfold data_start. by rewrite (scan_data_start_header _ 0 h hdr). }
  repeat split.
  - done.
  - unfold df_data. by rewrite Hds.
  - eapply Forall_impl; [apply emitted_positions_ge|]. simpl. intros i. lia.
  - apply extract_rows_by_position.
Qed.

Lemma C4_data_starts_after_first_header_witness :
  data_start grid_title_above_header = 2%nat ∧
  df_data grid_title_above_header = drop 2 (frame_rows grid_title_above_header) ∧
  Forall (fun i => (1 < i)%nat) (emitted_positions grid_title_above_header) ∧
  df_rows (_extract_study_hours_from_sheet grid_title_above_header "Sheet1") =
    match study_col grid_title_above_header with
    | None => []
    | Some sc =>
        map (fun i => emit_row "Sheet1" (numeric_cols grid_title_above_header) sc
                        (nth i (frame_rows grid_title_above_header) []))
            (emitted_positions grid_title_above_header)
    end.
Proof.
  apply (C4_data_starts_after_first_header grid_title_above_header 1
           [CStr "Study ID"; CStr "Hours"] "Sheet1").
  - reflexivity.
  - reflexivity.
  - intros i row Hi Hrow. destruct i as [|i]; [|lia].
    vm_compute in Hrow. injection Hrow as <-. split; reflexivity.
Defined.

(** C5 (counterexample): with an empty registry the aggregator returns the
    frame [pd.DataFrame()], which carries no column at all. *)
Lemma C5_empty_table_columns_counterexample :
  load_known_employees (∅ : World) = ∅ ∧
  load_all_data (∅ : World) = empty_frame ∧
  df_columns (load_all_data (∅ : World)) = [] ∧
  df_columns (load_all_data (∅ : World)) ≠ ["Study ID"; "Hours"; "Sheet"; "Employee"].
Proof. by repeat split. Qed.

(** C5 (amended): the aggregator concatenates the rows of the employees, each
    stamped with its employee, in strictly ascending identifier order over
    the intersection of the persisted registry and the identifiers derivable
    from the files present; when the registry is empty or every employee load
    is empty it returns an empty table with no rows and no columns; a
    table with rows carries the columns Study ID, Hours, Sheet, Employee. *)
Theorem C5_aggregator_order_and_empty_table (w : World) :
  (StronglySorted String.le (get_employee_files w) ∧
   NoDup (get_employee_files w) ∧
   ∀ e, e ∈ get_employee_files w ↔
        e ∈ load_known_employees w ∧
        ∃ f, f ∈ dom w ∧ is_employee_file f = true ∧ splitext_root f = e) ∧
  df_rows (load_all_data w) =
    flat_map (fun e => map (with_employee e) (df_rows (load_employee_data w e)))
             (get_employee_files w) ∧
  (load_known_employees w = ∅ → load_all_data w = empty_frame) ∧
  ((∀ e, e ∈ get_employee_files w → df_empty (load_employee_data w e) = true) →
   load_all_data w = empty_frame) ∧
  (df_columns empty_frame = [] ∧ df_rows empty_frame = []) ∧
  (df_rows (load_all_data w) ≠ [] →
   df_columns (load_all_data w) = ["Study ID"; "Hours"; "Sheet"; "Employee"]).
Proof.
  split; [split; [|split] | split; [|split; [|split; [|split]]]].
  - apply sorted_StronglySorted.
  - apply sorted_NoDup, NoDup_elements.
  - apply elem_of_get_employee_files.
  - apply load_all_data_rows.
  - intros H. unfold load_all_data, get_employee_files. rewrite H.
    by rewrite intersection_empty_l_L, elements_empty.
  - intros H. unfold load_all_data.
    destruct (get_employee_files w) as [|e es]; [done|].
    by rewrite (tagged_frames_all_empty w (e :: es) H).
  - done.
  - unfold load_all_data.
    destruct (get_employee_files w) as [|e es]; [done|].
    destruct (tagged_frames w (e :: es)) as [|df dfs] eqn:E; [done|]. intros _.
    apply pd_concat_same_columns; [apply aggregated_columns_NoDup|].
    intros f Hf. rewrite <- E in Hf. by apply tagged_frames_spec in Hf as [_ ?].
Qed.

Lemma C5_aggregator_order_and_empty_table_witness :
  load_all_data (∅ : World) = empty_frame ∧
  df_columns (load_all_data world_alice_bob) = ["Study ID"; "Hours"; "Sheet"; "Employee"].
Proof.
  split.
  - apply (proj1 (proj2 (proj2 (C5_aggregator_order_and_empty_table ∅)))).
    reflexivity.
  - apply (proj2 (proj2 (proj2 (proj2 (proj2
             (C5_aggregator_order_and_empty_table world_alice_bob)))))).
    vm_compute. discriminate.
Defined.




(** C7: for every finite set of identifiers, saving the registry and loading
    it back returns the same set; the file then holds a JSON object whose
    key "employees" lists the identifiers in ascending order, each once; and
    the order in which the identifiers were supplied does not matter. *)
Theorem C7_registry_round_trip (employees : gset string) (w : World) :
  load_known_employees (save_known_employees employees w) = employees ∧
  (∃ l, save_known_employees employees w !! STATE_FILE
        = Some (FJson (JObj [("employees", JArr (map JStr l))])) ∧
        StronglySorted String.le l ∧ NoDup l ∧ ∀ x, x ∈ l ↔ x ∈ employees) ∧
  (∀ l1 l2 : list string,
     l1 ≡ₚ l2 →
     save_known_employees (list_to_set l1) w = save_known_employees (list_to_set l2) w ∧
     load_known_employees (save_known_employees (list_to_set l1) w) = list_to_set l2).
Proof.
  split; [apply load_after_save | split].
  - exists (sorted (elements employees)). split; [|split; [|split]].
    + unfold save_known_employees. by rewrite lookup_insert_eq.
    + apply sorted_StronglySorted.
    + apply sorted_NoDup, NoDup_elements.
    + intros x. by rewrite elem_of_sorted, elem_of_elements.
  - intros l1 l2 Hp.
    assert ((list_to_set l1 : gset string) = list_to_set l2) as ->.
    { apply set_eq. intros x. by rewrite !elem_of_list_to_set, Hp. }
    split; [done | apply load_after_save].
Qed.

Lemma C7_registry_round_trip_witness :
  save_known_employees (list_to_set ["bob"; "alice"]) ∅
  = save_known_employees (list_to_set ["alice"; "bob"]) ∅ ∧
  load_known_employees (save_known_employees (list_to_set ["bob"; "alice"]) ∅)
  = list_to_set ["alice"; "bob"].
Proof.
  apply (proj2 (proj2 (C7_registry_round_trip ∅ ∅)) ["bob"; "alice"] ["alice"; "bob"]).
  apply perm_swap.
Defined.



(** C9 (counterexample): with a flat table written under a single
    employee's identifier that is more recent than the one written under the
    generic prefix, the visualisation loads the older, generic one; with
    only the single-employee table present it finds no table at all. *)
Lemma C9_single_employee_table_ignored_counterexample :
  visualisation_input world_two_tables = Some "EffortData_20250101_000000.csv" ∧
  flat_table_timestamp "EffortData_20250101_000000.csv" = Some "20250101_000000" ∧
  world_two_tables !! "aliceData_20250102_000000.csv" = Some (FCsv empty_frame) ∧
  flat_table_timestamp "aliceData_20250102_000000.csv" = Some "20250102_000000" ∧
  String.ltb "20250101_000000" "20250102_000000" = true ∧
  visualisation_input (<["aliceData_20250102_000000.csv" := FCsv empty_frame]> ∅) = None.
Proof. by repeat split. Qed.

(** C9 (amended): among the files whose name starts with "EffortData_" and
    ends with ".csv" (the flat tables written under the generic prefix;
    those written under a single employee's identifier are not looked at),
    the visualisation path loads the one whose name is lexicographically
    greatest, which for two names EffortData_<timestamp>.csv with timestamps
    of one length is the one with the lexicographically greatest timestamp;
    when no such file is present it has no table to load. *)
Theorem C9_visualisation_loads_latest_generic_table :
  (∀ (w : World) (f : string),
     visualisation_input w = Some f ↔
     f ∈ dom w ∧ is_effort_csv f = true ∧
     ∀ g, g ∈ dom w → is_effort_csv g = true → String.le g f) ∧
  (∀ w : World,
     visualisation_input w = None ↔ ∀ f, f ∈ dom w → is_effort_csv f = false) ∧
  (∀ ts : string, is_effort_csv ("EffortData_" ++ ts ++ ".csv") = true) ∧
  (∀ t1 t2 : string,
     String.length t1 = String.length t2 →
     String.le ("EffortData_" ++ t1 ++ ".csv") ("EffortData_" ++ t2 ++ ".csv")
     ↔ String.le t1 t2) ∧
  is_effort_csv "aliceData_20250102_000000.csv" = false.
Proof.
  split; [apply visualisation_input_Some|].
  split; [apply visualisation_input_None|].
  split; [apply generic_table_name_is_effort_csv|].
  split; [apply string_le_artifact_names | done].
Qed.

Lemma C9_visualisation_loads_latest_generic_table_witness :
  String.le "EffortData_20250101_000000.csv" "EffortData_20250102_000000.csv"
  ↔ String.le "20250101_000000" "20250102_000000".
Proof.
  apply (proj1 (proj2 (proj2 (proj2 C9_visualisation_loads_latest_generic_table)))
           "20250101_000000" "20250102_000000").
  reflexivity.
Defined.



(* ===================================================================== *)
(** * Further properties of the program *)
(* ===================================================================== *)

(** ** The registry dialogues *)


Lemma state_file_is_no_employee_file : is_employee_file STATE_FILE = false.
Proof. reflexivity. Qed.

Lemma workbook_path_is_not_state_file e : e ++ DATA_FILE_EXTENSION ≠ STATE_FILE.
Proof.
  intros H. pose proof (str_endswith_app DATA_FILE_EXTENSION e) as He.
  rewrite H in He. discriminate He.
Qed.

Lemma get_current_files_save s w :
  get_current_files (save_known_employees s w) = get_current_files w.
Proof.
  apply set_eq. intros e. rewrite !elem_of_get_current_files.
  unfold save_known_employees. setoid_rewrite dom_insert_L.
  split; intros (f & Hd & Hf & He); exists f; (split; [|done]).
  - apply elem_of_union in Hd as [->%elem_of_singleton | Hd]; [|done].
    by rewrite state_file_is_no_employee_file in Hf.
  - apply elem_of_union. by right.
Qed.

Lemma load_employee_data_raw_save s w e :
  load_employee_data_raw (save_known_employees s w) e = load_employee_data_raw w e.
Proof.
  unfold load_employee_data_raw, save_known_employees.
  rewrite lookup_insert_ne; [done|].
  intros H. by apply (workbook_path_is_not_state_file e).
Qed.

Lemma get_employee_files_save s w :
  get_employee_files (save_known_employees s w)
  = sorted (elements (s ∩ get_current_files w)).
Proof. unfold get_employee_files. by rewrite load_after_save, get_current_files_save. Qed.

Lemma StronglySorted_filter_le (P : string → Prop) `{∀ x, Decision (P x)} l :
  StronglySorted String.le l → StronglySorted String.le (filter P l).
Proof.
  induction 1 as [|x l Hs IH Hx]; [constructor|].
  destruct (decide (P x)).
  - rewrite filter_cons_True by done. constructor; [done|].
    apply Forall_forall. intros y [_ Hy]%list_elem_of_filter.
    rewrite Forall_forall in Hx. by apply Hx.
  - by rewrite filter_cons_False.
Qed.

Lemma sorted_unique l k :
  StronglySorted String.le l → StronglySorted String.le k →
  NoDup l → NoDup k → (∀ x, x ∈ l ↔ x ∈ k) → l = k.
Proof.
  intros Hl Hk Hnl Hnk Hin.
  apply (StronglySorted_unique String.le); [done | done |].
  by apply NoDup_Permutation.
Qed.

Lemma sorted_of_sorted l :
  StronglySorted String.le l → NoDup l → sorted l = l.
Proof.
  intros Hs Hn. apply sorted_unique; try done.
  - apply sorted_StronglySorted.
  - by apply sorted_NoDup.
  - intros x. apply elem_of_sorted.
Qed.

Lemma get_employee_files_NoDup w : NoDup (get_employee_files w).
Proof. apply sorted_NoDup, NoDup_elements. Qed.

Lemma get_employee_files_sorted w : StronglySorted String.le (get_employee_files w).
Proof. apply sorted_StronglySorted. Qed.

Lemma elem_of_tracked w e :
  e ∈ get_employee_files w ↔ e ∈ load_known_employees w ∧ e ∈ get_current_files w.
Proof.
  unfold get_employee_files.
  by rewrite elem_of_sorted, elem_of_elements, elem_of_intersection.
Qed.

Lemma union_minus_missing (K C : gset string) : (K ∪ C) ∖ (K ∖ C) = C.
Proof.
  apply set_eq. intros x. rewrite elem_of_difference, elem_of_union, elem_of_difference.
  destruct (decide (x ∈ K)); destruct (decide (x ∈ C)); tauto.
Qed.

Lemma minus_missing_subseteq (K C : gset string) : K ∖ (K ∖ C) ⊆ C.
Proof.
  intros x. rewrite !elem_of_difference.
  destruct (decide (x ∈ C)); tauto.
Qed.

Lemma check_for_changes_registry w a r :
  load_known_employees (check_for_changes w a r)
  = (if a then load_known_employees w ∪ get_current_files w else load_known_employees w)
    ∖ (if r then load_known_employees w ∖ get_current_files w else ∅).
Proof.
  unfold check_for_changes.
  set (K := load_known_employees w). set (C := get_current_files w).
  destruct (decide (C ∖ K ≠ ∅)) as [Hn|Hn]; destruct a;
    destruct (decide (K ∖ C ≠ ∅)) as [Hm|Hm]; destruct r;
    rewrite ?load_after_save; fold K;
    try apply dec_stable in Hn; try apply dec_stable in Hm;
    clearbody K C; apply set_eq; intros x;
    try (assert (x ∉ C ∖ K) as Hn' by (rewrite Hn; apply not_elem_of_empty));
    try (assert (x ∉ K ∖ C) as Hm' by (rewrite Hm; apply not_elem_of_empty));
    rewrite ?elem_of_difference, ?elem_of_union, ?elem_of_difference in *;
    pose proof (not_elem_of_empty (C:=gset string) x);
    destruct (decide (x ∈ K)); destruct (decide (x ∈ C)); tauto.
Qed.

(** X1: whatever the operator answers, [check_for_changes] leaves the
    registry at (known, plus the current files if the addition is
    accepted) minus (the known identifiers without a file, if the removal
    is accepted); it changes no other directory entry and not the set of
    current files.  Accepting both makes the registry equal to the set of
    current files; accepting the removal alone leaves a subset of it. *)
Theorem X1_check_for_changes_registry (w : World) (add_new remove_missing : bool) :
  load_known_employees (check_for_changes w add_new remove_missing)
  = (if add_new then load_known_employees w ∪ get_current_files w
     else load_known_employees w)
    ∖ (if remove_missing then load_known_employees w ∖ get_current_files w else ∅) ∧
  get_current_files (check_for_changes w add_new remove_missing) = get_current_files w ∧
  (∀ f, f ≠ STATE_FILE → check_for_changes w add_new remove_missing !! f = w !! f) ∧
  load_known_employees (check_for_changes w true true) = get_current_files w ∧
  load_known_employees (check_for_changes w false true) ⊆ get_current_files w.
Proof.
  split; [apply check_for_changes_registry|]. split; [|split; [|split]].
  - unfold check_for_changes.
    repeat (case_decide || case_match || simplify_eq); by rewrite ?get_current_files_save.
  - intros f Hf. unfold check_for_changes, save_known_employees.
    repeat (case_decide || case_match || simplify_eq);
      by rewrite ?lookup_insert_ne.
  - rewrite check_for_changes_registry. apply union_minus_missing.
  - rewrite check_for_changes_registry. apply minus_missing_subseteq.
Qed.

(** X2: on a first run (no state file) that the operator accepts, every
    employee file present is tracked afterwards: the registry is the set of
    current files and the tracked list is that set in ascending order; no
    state file is created when there is no employee file; an existing
    state file is never touched. *)
Theorem X2_initialize_first_run_tracks_all (w : World) :
  w !! STATE_FILE = None →
  load_known_employees (initialize_first_run w true) = get_current_files w ∧
  get_employee_files (initialize_first_run w true)
  = sorted (elements (get_current_files w)) ∧
  (get_current_files w = ∅ → ∀ accept, initialize_first_run w accept !! STATE_FILE = None) ∧
  (∀ (w' : World) accept, is_Some (w' !! STATE_FILE) → initialize_first_run w' accept = w').
Proof.
  intros Hs.
  assert (load_known_employees w = ∅) as Hk.
  { unfold load_known_employees. by rewrite Hs. }
  split; [|split; [|split]].
  - unfold initialize_first_run. rewrite Hs.
    case_decide as Hc; [by rewrite Hk, Hc | apply load_after_save].
  - unfold initialize_first_run. rewrite Hs.
    case_decide as Hc.
    + unfold get_employee_files. by rewrite Hk, Hc, intersection_empty_l_L.
    + rewrite get_employee_files_save. do 2 f_equal. apply intersection_idemp_L.
  - intros Hc accept. unfold initialize_first_run. rewrite Hs.
    by rewrite decide_True.
  - intros w' accept [f Hf]. unfold initialize_first_run. by rewrite Hf.
Qed.

Lemma X2_initialize_first_run_tracks_all_witness :
  get_employee_files
    (initialize_first_run (<["bob.xlsx" := FOther]> (<["alice.xlsx" := FOther]> ∅)) true)
  = sorted (elements (get_current_files
                        (<["bob.xlsx" := FOther]> (<["alice.xlsx" := FOther]> ∅)))).
Proof.
  apply (X2_initialize_first_run_tracks_all
           (<["bob.xlsx" := FOther]> (<["alice.xlsx" := FOther]> ∅))).
  reflexivity.
Defined.

Lemma nth_in_range_lookup (l : list string) (n : Z) :
  (1 ≤ n ≤ Z.of_nat (length l))%Z →
  l !! Z.to_nat (n - 1) = Some (nth (Z.to_nat (n - 1)) l EmptyString).
Proof.
  intros Hn. destruct (nth_lookup_or_length l (Z.to_nat (n - 1)) EmptyString); [done | lia].
Qed.

Lemma get_employee_files_remove w emp :
  get_employee_files (save_known_employees (load_known_employees w ∖ {[emp]}) w)
  = filter (fun e => e ≠ emp) (get_employee_files w).
Proof.
  apply sorted_unique.
  - apply get_employee_files_sorted.
  - apply StronglySorted_filter_le, get_employee_files_sorted.
  - apply get_employee_files_NoDup.
  - apply NoDup_filter, get_employee_files_NoDup.
  - intros x. rewrite list_elem_of_filter, !elem_of_tracked.
    rewrite load_after_save, get_current_files_save.
    rewrite elem_of_difference, elem_of_singleton. tauto.
Qed.

(** X3: removing the employee listed under a valid number, once confirmed,
    takes exactly that employee out of the tracked list and keeps the others
    in their order; the employee's workbook and every other file stay in the
    directory.  The number 0, a number outside the list, an unreadable
    number or a refusal change nothing. *)
Theorem X3_remove_employee (w : World) (n : Z) :
  (1 ≤ n ≤ Z.of_nat (length (get_employee_files w)))%Z →
  get_employee_files (remove_employee w (Some n) true)
  = filter (fun e => e ≠ nth (Z.to_nat (n - 1)) (get_employee_files w) EmptyString)
           (get_employee_files w) ∧
  nth (Z.to_nat (n - 1)) (get_employee_files w) EmptyString ∈ get_employee_files w ∧
  (∀ f, f ≠ STATE_FILE → remove_employee w (Some n) true !! f = w !! f) ∧
  remove_employee w (Some n) false = w ∧
  remove_employee w None true = w ∧
  (∀ k, (k ≤ 0 ∨ Z.of_nat (length (get_employee_files w)) < k)%Z →
        remove_employee w (Some k) true = w).
Proof.
  intros Hn.
  assert (sorted (get_employee_files w) = get_employee_files w) as Hsorted.
  { apply sorted_of_sorted; [apply get_employee_files_sorted | apply get_employee_files_NoDup]. }
  assert (get_employee_files w ≠ []) as Hne.
  { intros E. rewrite E in Hn. simpl in Hn. lia. }
  unfold remove_employee. rewrite Hsorted.
  destruct (get_employee_files w) as [|e0 es] eqn:E; [done|]. rewrite <- E in *.
  assert ((n =? 0)%Z = false) as -> by lia.
  assert (((1 <=? n)%Z && (n <=? Z.of_nat (length (get_employee_files w)))%Z)%bool = true)
    as -> by lia.
  split; [apply get_employee_files_remove|].
  split; [by eapply list_elem_of_lookup_2, nth_in_range_lookup|].
  split; [intros f Hf; unfold save_known_employees; by rewrite lookup_insert_ne|].
  split; [done|]. split; [done|].
  intros k Hk. destruct (k =? 0)%Z eqn:K0; [done|].
  assert (((1 <=? k)%Z && (k <=? Z.of_nat (length (get_employee_files w)))%Z)%bool = false)
    as -> by lia.
  done.
Qed.

Lemma X3_remove_employee_witness :
  get_employee_files (remove_employee world_alice_bob (Some 1%Z) true)
  = filter (fun e => e ≠ nth (Z.to_nat (1 - 1)) (get_employee_files world_alice_bob) EmptyString)
           (get_employee_files world_alice_bob).
Proof.
  apply (X3_remove_employee world_alice_bob 1).
  vm_compute. split; discriminate.
Defined.

(** X4: saving the registry changes the state file and nothing else: the
    set of current files, every other directory entry and what the loader
    returns for every employee are as before, and the tracked list
    afterwards is the saved set restricted to the current files, in
    ascending order. *)
Theorem X4_save_touches_only_state_file (s : gset string) (w : World) :
  get_current_files (save_known_employees s w) = get_current_files w ∧
  (∀ f, f ≠ STATE_FILE → save_known_employees s w !! f = w !! f) ∧
  (∀ e, load_employee_data_raw (save_known_employees s w) e = load_employee_data_raw w e) ∧
  (∀ e, e ∈ get_employee_files (save_known_employees s w) ↔ e ∈ s ∧ e ∈ get_current_files w).
Proof.
  split; [apply get_current_files_save|].
  split; [intros f Hf; unfold save_known_employees; by rewrite lookup_insert_ne|].
  split; [intros e; apply load_employee_data_raw_save|].
  intros e. by rewrite elem_of_tracked, load_after_save, get_current_files_save.
Qed.

(** ** The loader and the aggregator *)

Lemma emitted_row_sheet g name r :
  r ∈ df_rows (_extract_study_hours_from_sheet g name) →
  Sheet r = name ∧ Employee r = None.
Proof. by intros (sc & row & _ & _ & _ & ->)%extract_rows_inv. Qed.

Lemma elem_of_sheet_frames_rows sheets r :
  r ∈ concat (map df_rows (sheet_frames sheets)) →
  ∃ name g, (name, g) ∈ sheets ∧ is_metadata_sheet name = false ∧
            r ∈ df_rows (_extract_study_hours_from_sheet g name).
Proof.
  intros (rs & (f & <- & Hf)%in_map_iff & Hr)%list_elem_of_In%in_concat.
  apply list_elem_of_In in Hf, Hr.
  unfold sheet_frames in Hf. apply list_elem_of_filter in Hf as [_ Hf].
  change (map ?f ?l) with (f <$> l) in Hf.
  apply list_elem_of_fmap in Hf as ([name g] & -> & Hs).
  apply list_elem_of_filter in Hs as [Hm Hs]. by exists name, g.
Qed.

Lemma sheet_frames_length sheets : length (sheet_frames sheets) ≤ length sheets.
Proof.
  unfold sheet_frames.
  etrans; [apply length_filter|]. rewrite length_map. apply length_filter.
Qed.

Lemma load_workbook_rows w e sheets :
  w !! (e ++ DATA_FILE_EXTENSION) = Some (FWorkbook sheets) →
  df_rows (load_employee_data w e) = concat (map df_rows (sheet_frames sheets)) ∧
  snd (load_employee_data_raw w e) = length (sheet_frames sheets).
Proof.
  intros Hw. unfold load_employee_data, load_employee_data_raw. rewrite Hw. simpl.
  by destruct (sheet_frames sheets).
Qed.

Lemma load_without_workbook w e :
  (∀ sheets, w !! (e ++ DATA_FILE_EXTENSION) ≠ Some (FWorkbook sheets)) →
  load_employee_data_raw w e = (empty_frame, O).
Proof.
  intros H. unfold load_employee_data_raw.
  destruct (w !! (e ++ DATA_FILE_EXTENSION)) as [[| sheets | |]|]; try done.
  by destruct (H sheets).
Qed.

(** X5: for an employee whose file is a readable workbook, the loader
    returns rows that each come from the extraction of one sheet of that
    workbook whose name is not a metadata name (cover, summary, notes, info,
    in any case), carry that sheet's name and no employee yet; the sheet
    count is at most the number of sheets and is 0 exactly when there is no
    row.  A missing or unreadable file gives the empty frame and count 0. *)
Theorem X5_loader_rows_come_from_data_sheets (w : World) (e : string) :
  (∀ sheets,
     w !! (e ++ DATA_FILE_EXTENSION) = Some (FWorkbook sheets) →
     Forall (fun r =>
               Employee r = None ∧ is_metadata_sheet (Sheet r) = false ∧
               ∃ g, (Sheet r, g) ∈ sheets ∧
                    r ∈ df_rows (_extract_study_hours_from_sheet g (Sheet r)))
            (df_rows (fst (load_employee_data_raw w e))) ∧
     snd (load_employee_data_raw w e) ≤ length sheets ∧
     (snd (load_employee_data_raw w e) = O ↔
      df_rows (fst (load_employee_data_raw w e)) = [])) ∧
  ((∀ sheets, w !! (e ++ DATA_FILE_EXTENSION) ≠ Some (FWorkbook sheets)) →
   load_employee_data_raw w e = (empty_frame, O)).
Proof.
  split; [|apply load_without_workbook].
  intros sheets Hw. destruct (load_workbook_rows w e sheets Hw) as [Hrows Hn].
  unfold load_employee_data in Hrows. rewrite Hrows, Hn.
  split; [|split].
  - apply Forall_forall. intros r (name & g & Hs & Hm & Hr)%elem_of_sheet_frames_rows.
    destruct (emitted_row_sheet g name r Hr) as [-> ?]. split; [done|]. split; [done|].
    by exists g.
  - apply sheet_frames_length.
  - destruct (sheet_frames sheets) as [|df frames] eqn:E; [done|]. simpl.
    split; [done|]. intros Hc.
    assert (df ∈ sheet_frames sheets) as Hdf by (rewrite E; left).
    apply sheet_frames_spec in Hdf as [Hne _]. apply df_empty_false in Hne as [_ Hne].
    by apply app_eq_nil in Hc as [? _].
Qed.

Lemma X5_loader_rows_come_from_data_sheets_witness :
  snd (load_employee_data_raw world_alice_bob "bob") ≤ 1 ∧
  load_employee_data_raw world_alice_bob "carol" = (empty_frame, O).
Proof.
  split.
  - apply (proj1 (X5_loader_rows_come_from_data_sheets world_alice_bob "bob")
             [("W1", [ [CStr "STUDY1"; CNum 20]; [CStr "STUDY2"; CNum 5] ])]).
    reflexivity.
  - apply (proj2 (X5_loader_rows_come_from_data_sheets world_alice_bob "carol")).
    intros sheets. vm_compute. discriminate.
Defined.

Lemma stamped_employees_sorted (rows_of : string → list EffortRow) (employees : list string) :
  StronglySorted String.le employees →
  StronglySorted String.le
    (omap Employee (flat_map (fun e => map (with_employee e) (rows_of e)) employees)).
Proof.
  assert (∀ e x, x ∈ omap Employee (map (with_employee e) (rows_of e)) → x = e) as Hblock.
  { intros e x (r & Hr & Hx)%list_elem_of_omap.
    apply list_elem_of_In, in_map_iff in Hr as (r' & <- & _). simpl in Hx. congruence. }
  induction 1 as [|e es Hs IH He]; [constructor|]. simpl.
  change (omap ?f (?a ++ ?b)) with (omap f (a ++ b)). rewrite omap_app.
  apply StronglySorted_app_2; [| |done].
  - intros x1 x2 ->%Hblock (r & Hr & Hx)%list_elem_of_omap.
    apply list_elem_of_In, in_flat_map in Hr as (e' & He' & Hr).
    apply in_map_iff in Hr as (r' & <- & _). simpl in Hx. simplify_eq.
    rewrite Forall_forall in He. by apply He, list_elem_of_In.
  - generalize (Hblock e).
    induction (omap Employee (map (with_employee e) (rows_of e))) as [|x l IHl];
      intros Hb; constructor.
    + apply IHl. intros y Hy. apply Hb. by right.
    + apply Forall_forall. intros y Hy.
      rewrite (Hb x) by left. rewrite (Hb y) by (by right). done.
Qed.

(** X6: every row of the aggregated table is stamped with an employee that
    is in the registry and whose file is a workbook of the directory, and it
    comes from a non-metadata sheet of that workbook; the Employee column of
    the table is in ascending order. *)
Theorem X6_aggregated_rows_provenance (w : World) :
  Forall (fun r =>
            ∃ e sheets g,
              Employee r = Some e ∧ e ∈ load_known_employees w ∧
              w !! (e ++ DATA_FILE_EXTENSION) = Some (FWorkbook sheets) ∧
              (Sheet r, g) ∈ sheets ∧ is_metadata_sheet (Sheet r) = false)
         (df_rows (load_all_data w)) ∧
  StronglySorted String.le (omap Employee (df_rows (load_all_data w))).
Proof.
  rewrite load_all_data_rows. split.
  - apply Forall_forall. intros r Hr.
    apply list_elem_of_In, in_flat_map in Hr as (e & He%list_elem_of_In & Hr).
    apply in_map_iff in Hr as (r' & <- & Hr'%list_elem_of_In).
    apply elem_of_tracked in He as [Hk _].
    destruct (w !! (e ++ DATA_FILE_EXTENSION)) as [[| sheets | |]|] eqn:Hw;
      try (unfold load_employee_data, load_employee_data_raw in Hr'; rewrite Hw in Hr';
           by apply not_elem_of_nil in Hr').
    destruct (load_workbook_rows w e sheets Hw) as [Hrows _]. rewrite Hrows in Hr'.
    apply elem_of_sheet_frames_rows in Hr' as (name & g & Hs & Hm & Hr').
    destruct (emitted_row_sheet g name r' Hr') as [<- _].
    by exists e, sheets, g.
  - apply stamped_employees_sorted, get_employee_files_sorted.
Qed.

(** ** The extractor *)

Lemma study_col_qualifies g sc : study_col g = Some sc → column_qualifies g sc.
Proof.
  unfold study_col, find_study_col.
  intros (_ & H & _)%find_seq_first. by apply any_valid_mask_qualifies.
Qed.

Lemma qualifies_study_col g j :
  (j < ncols g)%nat → column_qualifies g j → ∃ sc, study_col g = Some sc.
Proof.
  intros Hj Hq. destruct (study_col g) as [sc|] eqn:E; [by exists sc|].
  unfold study_col, find_study_col in E.
  rewrite find_seq_None in E. specialize (E j ltac:(lia)).
  apply not_qualifies_mask in E. done.
Qed.

Lemma filter_valid_nonempty rows sc :
  (∃ row, row ∈ rows ∧ fullmatch_STUDY (astype_str (cell_at row sc)) = true) →
  filter (fun r => row_is_valid sc r = true) rows ≠ [].
Proof.
  intros (row & Hrow & Hv) E.
  assert (row ∈ filter (fun r => row_is_valid sc r = true) rows) as Hin.
  { by apply list_elem_of_filter. }
  rewrite E in Hin. by apply not_elem_of_nil in Hin.
Qed.

(** X7: a sheet contributes rows exactly when some column of its data
    region holds a cell that is, as written, STUDY followed by digits: once
    the study-id column is found the result is never empty, so the check
    for an all-false mask after the column search never fires. *)
Theorem X7_extraction_nonempty_iff_column_qualifies (g : grid) (name : string) :
  (df_rows (_extract_study_hours_from_sheet g name) ≠ [] ↔
   ∃ j, (j < ncols g)%nat ∧ column_qualifies g j) ∧
  (df_empty (_extract_study_hours_from_sheet g name) = true ↔ study_col g = None) ∧
  (∀ sc, study_col g = Some sc → any (valid_mask (df_data g) sc) = true).
Proof.
  assert (∀ sc, study_col g = Some sc →
                df_rows (_extract_study_hours_from_sheet g name) ≠ []) as Hsome.
  { intros sc Hsc. rewrite extract_rows, Hsc. intros E%map_eq_nil.
    by apply (filter_valid_nonempty (df_data g) sc (study_col_qualifies g sc Hsc)). }
  split; [|split].
  - split.
    + intros Hne. rewrite extract_rows in Hne.
      destruct (study_col g) as [sc|] eqn:E; [|done].
      exists sc. split; [|by apply study_col_qualifies].
      unfold study_col, find_study_col in E. apply find_seq_first in E. lia.
    + intros (j & Hj & Hq). destruct (qualifies_study_col g j Hj Hq) as [sc Hsc].
      by apply (Hsome sc).
  - split.
    + intros He. destruct (study_col g) as [sc|] eqn:E; [|done].
      specialize (Hsome sc eq_refl). unfold df_empty in He.
      rewrite extract_columns in He. simpl in He.
      by destruct (df_rows (_extract_study_hours_from_sheet g name)).
    + intros E. by rewrite (extract_no_study_col g name E).
  - intros sc Hsc. by apply any_valid_mask_qualifies, study_col_qualifies.
Qed.

Lemma frame_row_length g row : row ∈ frame_rows g → length row = ncols g.
Proof.
  unfold frame_rows. intros (orig & <- & _)%list_elem_of_In%in_map_iff.
  unfold pad_row. by rewrite length_map, length_seq.
Qed.

Lemma text_row_no_numeric_cols g h hdr :
  frame_rows g !! h = Some hdr →
  Forall (fun c => cell_is_number_or_missing c = false) hdr →
  numeric_cols g = [].
Proof.
  intros Hh Htext. unfold numeric_cols.
  assert (hdr ∈ frame_rows g) as Hin by (by eapply list_elem_of_lookup_2).
  assert (∀ j, j ∈ seq 0 (ncols g) →
               is_numeric_dtype (column (frame_rows g) j) ≠ true) as Hno.
  { intros k Hk%elem_of_seq Hnum.
    rewrite is_numeric_dtype_spec in Hnum. specialize (Hnum hdr Hin).
    pose proof (frame_row_length g hdr Hin) as Hlen.
    assert (cell_at hdr k ∈ hdr) as Hc.
    { unfold cell_at. apply list_elem_of_In, nth_In. lia. }
    rewrite Forall_forall in Htext. specialize (Htext _ Hc).
    destruct (cell_at hdr k) as [| s |]; try done. by apply (Hnum s). }
  induction (seq 0 (ncols g)) as [|k ks IHk]; [done|].
  rewrite filter_cons_False by (apply Hno; left).
  apply IHk. intros k' Hk'. apply Hno. by right.
Qed.

(** X8: when some row of the sheet holds a text in every cell (a complete
    header row, wherever it stands), no column has a numeric dtype and every
    emitted row carries Hours 0, whatever numbers the data rows hold. *)
Theorem X8_header_row_zeroes_hours
    (g : grid) (name : string) (h : nat) (hdr : list cell) :
  frame_rows g !! h = Some hdr →
  Forall (fun c => cell_is_number_or_missing c = false) hdr →
  numeric_cols g = [] ∧
  Forall (fun r => Hours r = 0%Z) (df_rows (_extract_study_hours_from_sheet g name)).
Proof.
  intros Hh Htext.
  pose proof (text_row_no_numeric_cols g h hdr Hh Htext) as Hnum.
  split; [done|]. apply Forall_forall. intros r Hr.
  apply extract_rows_inv in Hr as (sc & row & _ & _ & _ & ->).
  simpl. by rewrite Hnum.
Qed.

Lemma X8_header_row_zeroes_hours_witness :
  numeric_cols example1 = [] ∧
  Forall (fun r => Hours r = 0%Z)
         (df_rows (_extract_study_hours_from_sheet example1 "Sheet1")).
Proof.
  apply (X8_header_row_zeroes_hours example1 "Sheet1" 0
           [CStr "Study ID"; CStr "Jan"; CStr "Feb"]).
  - reflexivity.
  - repeat constructor.
Defined.

(** X9: an employee every sheet of whose workbook, as [pd.read_excel]
    returns it, has a row that holds a text in every cell gets a placeholder
    sheet in the report and never a summary table: all the hours loaded for
    that employee are 0.  (The cells are those of the frame: a header text
    that the reader turns into a number is no text here.) *)
Theorem X9_headed_sheets_give_placeholder
    (w : World) (e : string) (sheets : list (string * grid)) :
  w !! (e ++ DATA_FILE_EXTENSION) = Some (FWorkbook sheets) →
  (∀ name g, (name, g) ∈ sheets →
             ∃ h hdr, frame_rows g !! h = Some hdr ∧
                      Forall (fun c => cell_is_number_or_missing c = false) hdr) →
  Forall (fun r => Hours r = 0%Z) (df_rows (load_employee_data w e)) ∧
  ∃ msg, employee_sheet w e = SheetMessage msg.
Proof.
  intros Hw Hhdr.
  assert (Forall (fun r => Hours r = 0%Z) (df_rows (load_employee_data w e))) as Hzero.
  { destruct (load_workbook_rows w e sheets Hw) as [-> _].
    apply Forall_forall. intros r (name & g & Hs & _ & Hr)%elem_of_sheet_frames_rows.
    destruct (Hhdr name g Hs) as (h & hdr & Hh & Htext).
    apply extract_rows_inv in Hr as (sc & row & _ & _ & _ & ->).
    simpl. by rewrite (text_row_no_numeric_cols g h hdr Hh Htext). }
  split; [done|].
  destruct (employee_sheet_cases w e) as [[_ Hm] | [Hsum _]]; [done|].
  destruct Hsum. induction Hzero as [|r rows Hr _ IH]; [done|].
  simpl. rewrite Hr, IH. done.
Qed.

Lemma X9_headed_sheets_give_placeholder_witness :
  Forall (fun r => Hours r = 0%Z)
         (df_rows (load_employee_data (<["dan.xlsx" := FWorkbook [("W1", example1)] ]> ∅) "dan")) ∧
  ∃ msg, employee_sheet (<["dan.xlsx" := FWorkbook [("W1", example1)] ]> ∅) "dan"
         = SheetMessage msg.
Proof.
  apply (X9_headed_sheets_give_placeholder
           (<["dan.xlsx" := FWorkbook [("W1", example1)] ]> ∅) "dan" [("W1", example1)]).
  - reflexivity.
  - intros name g Hin. apply list_elem_of_singleton in Hin. injection Hin as -> ->.
    exists 0, [CStr "Study ID"; CStr "Jan"; CStr "Feb"].
    split; [reflexivity | repeat constructor].
Defined.

(** ** Selecting employees *)

Lemma pick_employees_cons employees i nums :
  pick_employees employees (i :: nums) =
  ((if ((1 <=? i)%Z && (i <=? Z.of_nat (length employees))%Z)%bool
    then [nth (Z.to_nat (i - 1)) (sorted employees) EmptyString] else [])
   ++ pick_employees employees nums)%list.
Proof. reflexivity. Qed.

Lemma nth_sorted_elem_of employees i :
  (1 ≤ i ≤ Z.of_nat (length employees))%Z →
  nth (Z.to_nat (i - 1)) (sorted employees) EmptyString ∈ employees.
Proof.
  intros Hi. apply elem_of_sorted.
  eapply list_elem_of_lookup_2, nth_in_range_lookup.
  by rewrite (Permutation_length (sorted_perm employees)).
Qed.

Lemma pick_employees_map employees nums :
  pick_employees employees nums
  = map (fun i => nth (Z.to_nat (i - 1)) (sorted employees) EmptyString)
        (filter (fun i => (1 ≤ i ≤ Z.of_nat (length employees))%Z) nums).
Proof.
  induction nums as [|i nums IH]; [done|]. rewrite pick_employees_cons, IH.
  destruct (decide (1 ≤ i ≤ Z.of_nat (length employees))%Z) as [Hi|Hi].
  - rewrite filter_cons_True by done.
    assert (((1 <=? i)%Z && (i <=? Z.of_nat (length employees))%Z)%bool = true) as -> by lia.
    done.
  - rewrite filter_cons_False by done.
    assert (((1 <=? i)%Z && (i <=? Z.of_nat (length employees))%Z)%bool = false) as -> by lia.
    done.
Qed.

Lemma pick_employees_tracked employees nums :
  Forall (fun e => e ∈ employees) (pick_employees employees nums).
Proof.
  rewrite pick_employees_map. apply Forall_forall. intros e He.
  apply list_elem_of_In, in_map_iff in He as (i & <- & Hi%list_elem_of_In).
  apply list_elem_of_filter in Hi as [Hi _]. by apply nth_sorted_elem_of.
Qed.

Lemma select_employees_tracked employees choice selected :
  select_employees employees choice = Some selected →
  Forall (fun e => e ∈ employees) selected.
Proof.
  destruct choice as [|[nums|]|]; simpl; try done.
  - intros [= <-]. apply Forall_forall. done.
  - pose proof (pick_employees_tracked employees nums) as H.
    destruct (pick_employees employees nums); [done|]. by intros [= <-].
Qed.

(** X10: the employees picked by number are all tracked employees; a number
    below 1 or above the length of the list is dropped without notice, so
    the selection has as many entries as there are numbers in range (a
    number typed twice selects its employee twice); with no number in range
    nothing is selected and no report is built. *)
Theorem X10_pick_employees_in_range (employees : list string) (nums : list Z) :
  Forall (fun e => e ∈ employees) (pick_employees employees nums) ∧
  pick_employees employees nums
  = map (fun i => nth (Z.to_nat (i - 1)) (sorted employees) EmptyString)
        (filter (fun i => (1 ≤ i ≤ Z.of_nat (length employees))%Z) nums) ∧
  length (pick_employees employees nums)
  = length (filter (fun i => (1 ≤ i ≤ Z.of_nat (length employees))%Z) nums) ∧
  (select_employees employees (ChooseSelected (Some nums)) = None ↔
   Forall (fun i => ¬ (1 ≤ i ≤ Z.of_nat (length employees))%Z) nums).
Proof.
  split; [apply pick_employees_tracked|]. split; [apply pick_employees_map|]. split.
  - by rewrite pick_employees_map, length_map.
  - unfold select_employees. rewrite pick_employees_map. split.
    + intros H. apply Forall_forall. intros i Hi Hr.
      assert (i ∈ filter (fun i => (1 ≤ i ≤ Z.of_nat (length employees))%Z) nums) as Hin
        by (by apply list_elem_of_filter).
      destruct (filter _ nums); [by apply not_elem_of_nil in Hin | done].
    + intros H.
      assert (filter (fun i => (1 ≤ i ≤ Z.of_nat (length employees))%Z) nums = []) as ->; [|done].
      induction H as [|i nums Hi _ IH]; [done|].
      rewrite filter_cons_False by done. exact IH.
Qed.

(** ** The report *)

Lemma tagged_frames_nil_iff w selected :
  tagged_frames w selected = [] ↔
  ∀ e, e ∈ selected → df_rows (load_employee_data w e) = [].
Proof.
  split.
  - intros E e He. apply load_employee_data_empty_iff.
    destruct (df_empty (load_employee_data w e)) eqn:D; [done|].
    assert (set_employee e (load_employee_data w e) ∈ tagged_frames w selected) as Hin.
    { apply list_elem_of_omap. exists e. split; [done|]. cbv zeta. by rewrite D. }
    rewrite E in Hin. by apply not_elem_of_nil in Hin.
  - intros H. apply tagged_frames_all_empty. intros e He.
    by apply load_employee_data_empty_iff, H.
Qed.

Lemma str_take_length n s : (String.length (str_take n s) ≤ n)%nat.
Proof.
  revert s. induction n as [|n IH]; intros [|c s]; simpl; try lia.
  specialize (IH s). lia.
Qed.

Lemma str_take_prefix n s : str_startswith (str_take n s) s = true.
Proof.
  revert s. induction n as [|n IH]; intros [|c s]; simpl; try done.
  by rewrite Ascii.eqb_refl.
Qed.

(** X11: the sheets asked of the workbook are one per selected employee, in
    the order of the selection, under the first 31 characters of the
    identifier, then "Overall Summary" exactly when more than one employee
    is selected and one of them has data.  No workbook is made exactly when
    a title asked for holds a character no title may hold or the rows of a
    sheet raise.  Otherwise the workbook has the sheets asked for, in that
    order, each under a title that starts with the title asked for ("Sheet"
    for an empty one), and under that very title when the titles differ
    from one another, case ignored.  A title met before gets a number:
    bob selected twice gives the sheets bob and bob1, and two identifiers
    with the same first 31 characters give titles of 31 and 32 characters.
    The flat table exists exactly when a selected employee has data, and it
    holds the rows of the selected employees, stamped, in the order of the
    selection. *)
Theorem X11_report_structure (w : World) (selected : list string) (now : datetime) :
  (∃ overall,
     map fst (wb_sheets (build_report w selected now))
     = (map (str_take 31) selected ++ overall)%list ∧
     (overall = ["Overall Summary"] ∨ overall = []) ∧
     (overall = ["Overall Summary"] ↔
      (1 < length selected)%nat ∧
      ∃ e, e ∈ selected ∧ df_rows (load_employee_data w e) ≠ [])) ∧
  (workbook_sheets (build_report w selected now) = None ↔
   Exists (fun a => title_is_valid (default_title (fst a)) = false ∨
                    body_ok (snd a) = false)
          (wb_sheets (build_report w selected now))) ∧
  (∀ sheets,
     workbook_sheets (build_report w selected now) = Some sheets →
     Forall2 (fun s a => snd s = snd a ∧
                         str_startswith (default_title (fst a)) (fst s) = true)
             sheets (wb_sheets (build_report w selected now)) ∧
     (NoDup (map (fun a => str_lower (default_title (fst a)))
                 (wb_sheets (build_report w selected now))) →
      map fst sheets
      = map (fun a => default_title (fst a)) (wb_sheets (build_report w selected now)))) ∧
  option_map (map fst)
    (workbook_sheets (build_report world_alice_bob ["bob"; "bob"] sample_now))
  = Some ["bob"; "bob1"; "Overall Summary"] ∧
  option_map (map (fun s => String.length (fst s)))
    (workbook_sheets
       (build_report world_alice_bob
          ["abcdefghijklmnopqrstuvwxyz01234_x"; "abcdefghijklmnopqrstuvwxyz01234_y"]
          sample_now))
  = Some [31; 32]%nat ∧
  (csv_table (build_report w selected now) = None ↔
   ∀ e, e ∈ selected → df_rows (load_employee_data w e) = []) ∧
  (∀ t, csv_table (build_report w selected now) = Some t →
        df_columns t = ["Employee"; "Study ID"; "Hours"; "Sheet"] ∧
        df_rows t
        = flat_map (fun e => map (with_employee e) (df_rows (load_employee_data w e)))
                   selected).
Proof.
  split.
  { unfold build_report. simpl. rewrite map_app, map_map. simpl.
    destruct (tagged_frames w selected) as [|df dfs] eqn:E.
    - exists []. split; [done|]. split; [by right|]. split; [done|].
      intros (_ & e & He & Hne).
      by destruct Hne, (proj1 (tagged_frames_nil_iff w selected) E e He).
    - assert (∃ e, e ∈ selected ∧ df_rows (load_employee_data w e) ≠ []) as Hdata.
      { assert (df ∈ tagged_frames w selected) as Hdf by (rewrite E; left).
        apply list_elem_of_omap in Hdf as (e & He & Hdf). exists e. split; [done|].
        intros Hr. apply load_employee_data_empty_iff in Hr.
        cbv zeta in Hdf. by rewrite Hr in Hdf. }
      destruct (1 <? length selected)%nat eqn:L.
      + apply Nat.ltb_lt in L. exists ["Overall Summary"]. by repeat split; try left.
      + apply Nat.ltb_ge in L. exists []. split; [done|]. split; [by right|].
        split; [done|]. intros [? _]. lia. }
  split; [apply openpyxl_sheets_None|].
  split.
  { intros sheets Hs. split; [by eapply openpyxl_sheets_Forall2|].
    intros Hnd. eapply openpyxl_sheets_distinct; [exact Hs | exact Hnd |].
    intros a n _ Hn. by apply not_elem_of_nil in Hn. }
  split; [by vm_compute|]. split; [by vm_compute|].
  split.
  - unfold build_report. simpl. rewrite <- tagged_frames_nil_iff.
    by destruct (tagged_frames w selected).
  - intros t. unfold build_report. simpl. rewrite <- tagged_frames_rows.
    destruct (tagged_frames w selected); [done|]. by intros [= <-].
Qed.



Lemma employee_sheet_table w e header rows :
  employee_sheet w e = SheetTable header rows →
  header = summary_header ∧
  sum_Z (map Hours (df_rows (load_employee_data w e))) ≠ 0%Z ∧
  rows = map (fun s =>
                mkSummaryRow s
                  (sum_Z (map Hours (filter (fun r => StudyId r = s)
                                            (df_rows (load_employee_data w e)))))
                  (sum_Z (map Hours (df_rows (load_employee_data w e))))
                  (percent
                     (sum_Z (map Hours (filter (fun r => StudyId r = s)
                                               (df_rows (load_employee_data w e)))))
                     (sum_Z (map Hours (df_rows (load_employee_data w e))))))
             (study_ids (df_rows (load_employee_data w e))).
Proof.
  intros H. destruct (employee_sheet_cases w e) as [[_ [msg Hm]] | [Ht Hs]]; [congruence|].
  rewrite Hs in H. injection H as <- <-. split; [done|]. split; [done|].
  unfold groupby_study_sum. by rewrite map_map.
Qed.








(** ** File names *)

Lemma str_lower_app a b : str_lower (a ++ b) = str_lower a ++ str_lower b.
Proof.
  induction a as [|c a IH]; [done|].
  change (String (ascii_lower c) (str_lower (a ++ b))
          = String (ascii_lower c) (str_lower a ++ str_lower b)).
  by rewrite IH.
Qed.

Lemma str_startswith_app_l p a b :
  str_startswith p a = true → str_startswith p (a ++ b) = true.
Proof.
  revert a. induction p as [|c p IH]; intros [|d a] H; try done.
  change (str_startswith (String c p) (String d (a ++ b)) = true).
  simpl in *. destruct (Ascii.eqb c d); [by apply IH | done].
Qed.

Lemma split_last_dot_app f r e : split_last_dot f = Some (r, e) → f = r ++ e.
Proof.
  revert r e. induction f as [|c f IH]; intros r e H; [done|]. simpl in H.
  destruct (split_last_dot f) as [[r' e']|].
  - injection H as <- <-. change (String c f = String c (r' ++ e')). f_equal. by apply IH.
  - destruct (Ascii.eqb c "."); [|done]. by injection H as <- <-.
Qed.

Lemma splitext_root_prefix f : ∃ x, f = splitext_root f ++ x.
Proof.
  unfold splitext_root. destruct (split_last_dot f) as [[r e]|] eqn:E.
  - destruct (all_dots r).
    + exists EmptyString. clear. induction f as [|c f IH]; [done|].
      change (String c f = String c (f ++ "")). by rewrite <- IH.
    + exists e. by apply split_last_dot_app.
  - exists EmptyString. clear. induction f as [|c f IH]; [done|].
    change (String c f = String c (f ++ "")). by rewrite <- IH.
Qed.

(** No identifier derived from an employee file starts with "effort",
    whatever the case of its letters. *)
Lemma current_file_not_effort w e :
  e ∈ get_current_files w → str_startswith "effort" (str_lower e) = false.
Proof.
  intros (f & _ & Hf & <-)%elem_of_get_current_files.
  unfold is_employee_file in Hf. apply andb_true_iff in Hf as [_ Hf].
  apply negb_true_iff in Hf.
  destruct (str_startswith "effort" (str_lower (splitext_root f))) eqn:E; [|done].
  destruct (splitext_root_prefix f) as [x Hx]. rewrite Hx, str_lower_app in Hf.
  by rewrite (str_startswith_app_l _ _ _ E) in Hf.
Qed.

Ltac split_chars e :=
  destruct e as [|? [|? [|? [|? [|? [|? e]]]]]].

Ltac decide_chars :=
  repeat match goal with
         | |- context [Ascii.eqb ?a ?b] =>
             let E := fresh "E" in
             destruct (Ascii.eqb a b) eqn:E; try done;
             try (vm_compute in E; discriminate E)
         end.

Lemma no_effort_before_files le rest :
  str_startswith "effort" le = false →
  str_startswith "effort" (le ++ "files_" ++ rest) = false.
Proof.
  intros H. split_chars le; cbv [String.append str_startswith] in *; decide_chars.
Qed.

Lemma no_effort_before_data le rest :
  str_startswith "effort" le = false →
  str_startswith "effort" (le ++ "data_" ++ rest) = false.
Proof.
  intros H. split_chars le; cbv [String.append str_startswith] in *; decide_chars.
Qed.

Lemma str_startswith_lower p x :
  str_startswith p x = true → str_startswith (str_lower p) (str_lower x) = true.
Proof.
  revert x. induction p as [|c p IH]; intros [|d x] H; try done. simpl in *.
  destruct (Ascii.eqb c d) eqn:E; [|done].
  apply Ascii.eqb_eq in E as ->. rewrite Ascii.eqb_refl. by apply IH.
Qed.

Lemma str_startswith_prefix p q x :
  str_startswith (p ++ q) x = true → str_startswith p x = true.
Proof.
  revert x. induction p as [|c p IH]; intros [|d x] H; try done.
  change (str_startswith (String c (p ++ q)) (String d x) = true) in H.
  simpl in *. destruct (Ascii.eqb c d); [by apply IH | done].
Qed.

Lemma no_effort_before_Files e rest :
  str_startswith "effort" (str_lower e) = false →
  str_startswith "effort" (str_lower (e ++ "Files_" ++ rest)) = false.
Proof.
  intros H. rewrite !str_lower_app. by apply (no_effort_before_files _ (str_lower rest)).
Qed.

Lemma no_EffortData_prefix e rest :
  str_startswith "effort" (str_lower e) = false →
  str_startswith "EffortData_" (e ++ "Data_" ++ rest) = false.
Proof.
  intros H. destruct (str_startswith "EffortData_" (e ++ "Data_" ++ rest)) eqn:E; [|done].
  apply (str_startswith_prefix "Effort" "Data_") in E.
  apply str_startswith_lower in E. rewrite !str_lower_app in E.
  change (str_lower "Effort") with "effort" in E.
  change (str_lower "Data_") with "data_" in E.
  by rewrite (no_effort_before_data _ (str_lower rest) H) in E.
Qed.

Lemma excel_path_shape w selected now :
  excel_path (build_report w selected now)
  = (report_prefix selected ++ "Files_" ++ strftime_stamp now) ++ ".xlsx".
Proof. unfold build_report, report_prefix. simpl. by rewrite !string_app_assoc. Qed.

Lemma csv_path_shape w selected now :
  csv_path (build_report w selected now)
  = (report_prefix selected ++ "Data_" ++ strftime_stamp now) ++ ".csv".
Proof. unfold build_report, report_prefix. simpl. by rewrite !string_app_assoc. Qed.

Lemma xlsx_name_is_no_csv x : str_endswith ".csv" (x ++ ".xlsx") = false.
Proof. unfold str_endswith, String.rev. by rewrite rev_app_app. Qed.

Lemma csv_name_is_no_xlsx x : str_endswith ".xlsx" (x ++ ".csv") = false.
Proof. unfold str_endswith, String.rev. by rewrite rev_app_app. Qed.

Lemma excel_path_not_effort_csv w selected now :
  is_effort_csv (excel_path (build_report w selected now)) = false.
Proof.
  unfold is_effort_csv. rewrite excel_path_shape, xlsx_name_is_no_csv.
  apply andb_false_r.
Qed.

Lemma csv_path_not_employee_file w selected now :
  is_employee_file (csv_path (build_report w selected now)) = false.
Proof.
  unfold is_employee_file. rewrite csv_path_shape, str_lower_app.
  change (str_lower ".csv") with ".csv".
  change DATA_FILE_EXTENSION with ".xlsx". by rewrite csv_name_is_no_xlsx.
Qed.

Lemma report_paths_differ w selected now :
  excel_path (build_report w selected now) ≠ csv_path (build_report w selected now) ∧
  excel_path (build_report w selected now) ≠ STATE_FILE ∧
  csv_path (build_report w selected now) ≠ STATE_FILE.
Proof.
  pose proof (str_endswith_app ".xlsx"
                (report_prefix selected ++ "Files_" ++ strftime_stamp now)) as Hx.
  rewrite <- (excel_path_shape w selected now) in Hx.
  pose proof (str_endswith_app ".csv"
                (report_prefix selected ++ "Data_" ++ strftime_stamp now)) as Hc.
  rewrite <- (csv_path_shape w selected now) in Hc.
  split; [|split]; intros H.
  - rewrite H, (csv_path_shape w selected now), csv_name_is_no_xlsx in Hx. done.
  - rewrite H in Hx. done.
  - rewrite H in Hc. done.
Qed.

Lemma write_report_lookup r w f :
  f ≠ excel_path r → f ≠ csv_path r → write_report r w !! f = w !! f.
Proof.
  intros He Hc. unfold write_report.
  destruct (csv_table r); by rewrite ?lookup_insert_ne.
Qed.

Lemma write_report_dom r w f :
  f ∈ dom (write_report r w) ↔
  f ∈ dom w ∨ f = excel_path r ∨ (f = csv_path r ∧ is_Some (csv_table r)).
Proof.
  unfold write_report. destruct (csv_table r) as [t|].
  - rewrite !dom_insert_L, !elem_of_union, !elem_of_singleton.
    split; [intros [?|[?|?]] | intros [?|[?|[? _]]]]; eauto.
  - rewrite !dom_insert_L, !elem_of_union, !elem_of_singleton.
    split; [intros [?|?] | intros [?|[?|[_ [? ?]]]]]; eauto; done.
Qed.

Lemma invalid_title_is_kept t : title_is_valid t = false → default_title t = t.
Proof. by destruct t. Qed.

(** X14: generating a report never alters the registry nor any file other
    than the two it names.  When the dialogue is abandoned (no tracked
    employee, invalid choice, unreadable or out-of-range numbers) or an
    exception is caught, as it is when the first 31 characters of a selected
    identifier hold a character that no sheet title may hold, the directory
    is left as it was.  Otherwise the workbook is written, with the sheets
    as openpyxl made them, and the flat table together with data. *)
Theorem X14_report_leaves_the_rest_untouched
    (w : World) (choice : report_choice) (now : datetime) :
  load_known_employees (fst (generate_report w choice now)) = load_known_employees w ∧
  (snd (generate_report w choice now) = None → fst (generate_report w choice now) = w) ∧
  (∀ r, snd (generate_report w choice now) = Some r →
        ∃ sheets,
          workbook_sheets r = Some sheets ∧
          (∀ f, f ≠ excel_path r → f ≠ csv_path r →
                fst (generate_report w choice now) !! f = w !! f) ∧
          fst (generate_report w choice now) !! excel_path r
          = Some (FWorkbook (workbook_frames sheets)) ∧
          (∀ t, csv_table r = Some t →
                fst (generate_report w choice now) !! csv_path r = Some (FCsv t)) ∧
          (csv_table r = None →
           fst (generate_report w choice now) !! csv_path r = w !! csv_path r)) ∧
  (∀ selected e,
     select_employees (get_employee_files w) choice = Some selected →
     e ∈ selected → title_is_valid (str_take 31 e) = false →
     generate_report w choice now = (w, None)) ∧
  (∀ selected,
     get_employee_files w ≠ [] →
     select_employees (get_employee_files w) choice = Some selected →
     (snd (generate_report w choice now) = None ↔
      Exists (fun a => title_is_valid (default_title (fst a)) = false ∨
                       body_ok (snd a) = false)
             (wb_sheets (build_report w selected now)))).
Proof.
  destruct (generate_report_cases w choice now)
    as [[-> Hs] | [[-> He] | [(sel & He & Hs & Hw & ->) | (sel & sheets & He & Hs & Hw & ->)]]];
    cbn [fst snd].
  - split; [done|]. split; [done|]. split; [done|]. split; [done|].
    intros selected _ Hsel. congruence.
  - split; [done|]. split; [done|]. split; [done|]. split; [done|].
    intros selected Hne. done.
  - split; [done|]. split; [done|]. split; [done|]. split; [done|].
    intros selected _ Hsel. assert (selected = sel) as -> by congruence.
    split; [|done]. intros _. by apply (openpyxl_sheets_None []).
  - destruct (report_paths_differ w sel now) as (Hec & Hes & Hcs).
    split; [|split; [done|split; [|split]]].
    + unfold load_known_employees. by rewrite write_report_lookup.
    + intros r [= <-]. exists sheets. split; [done|].
      set (r := build_report w sel now) in *.
      split; [intros f; apply write_report_lookup|].
      unfold write_report. rewrite Hw. cbn [default from_option]. split; [|split].
      * destruct (csv_table r); rewrite ?lookup_insert_ne by done; by rewrite lookup_insert_eq.
      * intros t ->. by rewrite lookup_insert_eq.
      * intros ->. by rewrite lookup_insert_ne.
    + intros selected e Hsel Hin Hbad. assert (selected = sel) as -> by congruence.
      assert (workbook_sheets (build_report w sel now) = None) as Hnone; [|congruence].
      apply (openpyxl_sheets_None []), Exists_exists.
      exists (str_take 31 e, employee_sheet w e). split.
      * unfold build_report. simpl. apply elem_of_app. left.
        apply list_elem_of_In, in_map_iff. exists e. split; [done | by apply list_elem_of_In].
      * left. simpl. by rewrite invalid_title_is_kept.
    + intros selected _ Hsel. assert (selected = sel) as -> by congruence.
      split; [done|]. intros Hex%(openpyxl_sheets_None []).
      unfold workbook_sheets in Hw. congruence.
Qed.

Lemma X14_report_leaves_the_rest_untouched_witness :
  generate_report world_bracket ChooseAll sample_now = (world_bracket, None).
Proof.
  apply (proj1 (proj2 (proj2 (proj2 (X14_report_leaves_the_rest_untouched
                                       world_bracket ChooseAll sample_now))))
               ["a[1]"; "b"] "a[1]").
  - reflexivity.
  - by left.
  - reflexivity.
Defined.

Lemma get_current_files_insert (w : World) (f : string) (x : file) :
  get_current_files (<[f := x]> w)
  = if is_employee_file f then {[splitext_root f]} ∪ get_current_files w
    else get_current_files w.
Proof.
  apply set_eq. intros e.
  destruct (is_employee_file f) eqn:Hf;
    rewrite ?elem_of_union, ?elem_of_singleton, !elem_of_get_current_files;
    setoid_rewrite dom_insert_L; split.
  - intros (g & [->%elem_of_singleton | Hd]%elem_of_union & Hg & <-); [by left|].
    right. by exists g.
  - intros [-> | (g & Hd & Hg & <-)].
    + exists f. split; [|done]. apply elem_of_union. left. by apply elem_of_singleton.
    + exists g. split; [|done]. apply elem_of_union. by right.
  - intros (g & [->%elem_of_singleton | Hd]%elem_of_union & Hg & <-); [congruence|].
    by exists g.
  - intros (g & Hd & Hg & <-). exists g. split; [|done]. apply elem_of_union. by right.
Qed.

Lemma split_last_dot_xlsx x : split_last_dot (x ++ ".xlsx") = Some (x, ".xlsx").
Proof.
  induction x as [|c x IH]; [done|].
  change (split_last_dot (String c (x ++ ".xlsx")) = Some (String c x, ".xlsx")).
  simpl. by rewrite IH.
Qed.

Lemma not_all_dots_Files e rest : all_dots (e ++ "Files_" ++ rest) = false.
Proof.
  induction e as [|c e IH]; [done|].
  change (all_dots (String c (e ++ "Files_" ++ rest)) = false).
  simpl. rewrite IH. apply andb_false_r.
Qed.

Lemma own_workbook_is_employee_file e rest :
  str_startswith "effort" (str_lower e) = false →
  is_employee_file ((e ++ "Files_" ++ rest) ++ ".xlsx") = true ∧
  splitext_root ((e ++ "Files_" ++ rest) ++ ".xlsx") = e ++ "Files_" ++ rest.
Proof.
  intros He. split.
  - unfold is_employee_file. apply andb_true_iff. split.
    + rewrite str_lower_app. change (str_lower ".xlsx") with ".xlsx".
      apply str_endswith_app.
    + apply negb_true_iff. rewrite !string_app_assoc. by apply no_effort_before_Files.
  - unfold splitext_root. by rewrite split_last_dot_xlsx, not_all_dots_Files.
Qed.

Lemma generic_workbook_is_no_employee_file rest :
  is_employee_file ("Effort" ++ rest) = false.
Proof. unfold is_employee_file. apply andb_false_iff. by right. Qed.

Lemma report_prefix_single e : report_prefix [e] = e.
Proof. reflexivity. Qed.

Lemma report_prefix_generic selected : length selected ≠ 1%nat → report_prefix selected = "Effort".
Proof. intros H. unfold report_prefix. by apply Nat.eqb_neq in H as ->. Qed.

Lemma get_current_files_write_report w selected now :
  get_current_files (write_report (build_report w selected now) w)
  = get_current_files
      (<[excel_path (build_report w selected now)
         := FWorkbook (workbook_frames
                         (default [] (workbook_sheets (build_report w selected now))))]> w).
Proof.
  unfold write_report. destruct (csv_table _); [|done].
  by rewrite get_current_files_insert, csv_path_not_employee_file.
Qed.

(** X15: a report for several employees never changes the set of employee
    files the program sees, but the workbook of a report for one tracked
    employee e is itself taken for an employee file afterwards: the
    identifier e ++ "Files_" ++ timestamp joins the current files. *)
Theorem X15_single_report_becomes_current_file
    (w : World) (choice : report_choice) (now : datetime) (r : Report) :
  snd (generate_report w choice now) = Some r →
  (∀ selected,
     select_employees (get_employee_files w) choice = Some selected →
     length selected ≠ 1%nat →
     get_current_files (fst (generate_report w choice now)) = get_current_files w) ∧
  (∀ e,
     select_employees (get_employee_files w) choice = Some [e] →
     get_current_files (fst (generate_report w choice now))
     = {[ e ++ "Files_" ++ strftime_stamp now ]} ∪ get_current_files w).
Proof.
  intros Hr.
  destruct (generate_report_written _ _ _ _ Hr) as (sel & Hsel & -> & _ & ->). split.
  - intros selected Hs Hl. assert (selected = sel) as -> by congruence.
    rewrite get_current_files_write_report, get_current_files_insert.
    rewrite excel_path_shape, (report_prefix_generic sel Hl).
    by rewrite !string_app_assoc, generic_workbook_is_no_employee_file.
  - intros e Hs.
    assert (str_startswith "effort" (str_lower e) = false) as He.
    { apply select_employees_tracked in Hs. rewrite Forall_forall in Hs.
      specialize (Hs e ltac:(left)). apply elem_of_tracked in Hs as [_ Hs].
      by eapply current_file_not_effort. }
    assert (sel = [e]) as -> by congruence.
    rewrite get_current_files_write_report, get_current_files_insert.
    rewrite excel_path_shape, report_prefix_single.
    destruct (own_workbook_is_employee_file e (strftime_stamp now) He) as [-> ->]. done.
Qed.

Lemma X15_single_report_becomes_current_file_witness :
  get_current_files
    (fst (generate_report world_alice_bob (ChooseSelected (Some [1%Z])) sample_now))
  = {[ "alice" ++ "Files_" ++ strftime_stamp sample_now ]}
    ∪ get_current_files world_alice_bob.
Proof.
  apply (proj2 (X15_single_report_becomes_current_file world_alice_bob
                  (ChooseSelected (Some [1%Z])) sample_now
                  (build_report world_alice_bob ["alice"] sample_now)
                  ltac:(vm_compute; reflexivity)) "alice").
  vm_compute. reflexivity.
Defined.

(** ** Looking up the table after a report *)

Lemma visualisation_input_write_report w selected now :
  (∀ f, f ∈ dom w → is_effort_csv f = false) →
  visualisation_input (write_report (build_report w selected now) w)
  = if is_effort_csv (csv_path (build_report w selected now))
    then (fun _ => csv_path (build_report w selected now))
           <$> csv_table (build_report w selected now)
    else None.
Proof.
  intros Hnone.
  destruct (is_effort_csv (csv_path (build_report w selected now))) eqn:Hc;
    [destruct (csv_table (build_report w selected now)) as [t|] eqn:Ht; simpl|].
  - apply visualisation_input_Some. split; [|split; [done|]].
    + apply write_report_dom. right. right. rewrite Ht. eauto.
    + intros g [Hg | [-> | [-> _]]]%write_report_dom Hgc.
      * by rewrite (Hnone g Hg) in Hgc.
      * by rewrite excel_path_not_effort_csv in Hgc.
      * done.
  - apply visualisation_input_None.
    intros f [Hf | [-> | [-> [t' Ht']]]]%write_report_dom.
    + by apply Hnone.
    + apply excel_path_not_effort_csv.
    + by rewrite Ht in Ht'.
  - apply visualisation_input_None.
    intros f [Hf | [-> | [-> _]]]%write_report_dom.
    + by apply Hnone.
    + apply excel_path_not_effort_csv.
    + done.
Qed.

Lemma generic_csv_path_is_effort_csv w selected now :
  length selected ≠ 1%nat →
  is_effort_csv (csv_path (build_report w selected now)) = true.
Proof.
  intros Hl. rewrite csv_path_shape, (report_prefix_generic selected Hl).
  rewrite string_app_assoc. apply (generic_table_name_is_effort_csv (strftime_stamp now)).
Qed.

Lemma single_csv_path_is_no_effort_csv w e now :
  str_startswith "effort" (str_lower e) = false →
  is_effort_csv (csv_path (build_report w [e] now)) = false.
Proof.
  intros He. unfold is_effort_csv. rewrite csv_path_shape, report_prefix_single.
  rewrite !string_app_assoc. by rewrite no_EffortData_prefix.
Qed.

(** X16: with no generic flat table in the directory, [ensure_report_exists]
    answers True as soon as the operator asks for a report, whatever comes of
    that report, and False (nothing changed) otherwise.  The table lookup
    that follows finds the new table only when the report was for a
    selection of other than one employee and some employee had data; after an
    abandoned dialogue, a report without data or a report for a single
    employee there is no table to take (the subscript of the empty list
    raises). *)
Theorem X16_ensure_report_exists_may_leave_no_table
    (w : World) (choice : report_choice) (now : datetime) :
  (∀ f, f ∈ dom w → is_effort_csv f = false) →
  snd (ensure_report_exists w true choice now) = true ∧
  ensure_report_exists w false choice now = (w, false) ∧
  (snd (generate_report w choice now) = None →
   visualisation_input (fst (ensure_report_exists w true choice now)) = None) ∧
  (∀ r, snd (generate_report w choice now) = Some r → csv_table r = None →
        visualisation_input (fst (ensure_report_exists w true choice now)) = None) ∧
  (∀ e, select_employees (get_employee_files w) choice = Some [e] →
        visualisation_input (fst (ensure_report_exists w true choice now)) = None) ∧
  (∀ r selected,
     snd (generate_report w choice now) = Some r →
     select_employees (get_employee_files w) choice = Some selected →
     length selected ≠ 1%nat → is_Some (csv_table r) →
     visualisation_input (fst (ensure_report_exists w true choice now))
     = Some (csv_path r)).
Proof.
  intros Hnone.
  assert (filter (fun f => is_effort_csv f = true) (listdir w) = []) as Hfilter.
  { destruct (filter _ (listdir w)) as [|f l] eqn:E; [done|].
    assert (f ∈ f :: l) as Hin by left. rewrite <- E in Hin.
    apply elem_of_effort_csvs in Hin as [Hd Hf]. by rewrite (Hnone f Hd) in Hf. }
  unfold ensure_report_exists. rewrite Hfilter. simpl.
  split; [done|]. split; [done|].
  assert (visualisation_input w = None) as Hw by (by apply visualisation_input_None).
  unfold generate_report.
  destruct (get_employee_files w) as [|e0 es] eqn:Hemp; simpl;
    [repeat split; try done; by intros ? ? [=] |].
  destruct (select_employees (e0 :: es) choice) as [selected|] eqn:Hs; simpl;
    [|repeat split; try done; by intros ? ? [=]].
  destruct (workbook_sheets (build_report w selected now)) eqn:Hwb; cbn [fst snd];
    [|repeat split; try done; by intros ? ? [=]].
  rewrite (visualisation_input_write_report w selected now Hnone).
  split; [done|]. split; [|split].
  - intros r [= <-] ->. by case_match.
  - intros e [= ->].
    assert (e ∈ get_employee_files w) as He.
    { apply select_employees_tracked in Hs. rewrite Forall_forall in Hs.
      rewrite Hemp. apply Hs. left. }
    apply elem_of_tracked in He as [_ He]. apply current_file_not_effort in He.
    by rewrite single_csv_path_is_no_effort_csv.
  - intros r sel [= <-] [= <-] Hl [t Ht].
    by rewrite generic_csv_path_is_effort_csv, Ht.
Qed.

Lemma X16_ensure_report_exists_may_leave_no_table_witness :
  snd (ensure_report_exists world_alice_bob true (ChooseSelected (Some [1%Z])) sample_now)
  = true ∧
  visualisation_input
    (fst (ensure_report_exists world_alice_bob true (ChooseSelected (Some [1%Z])) sample_now))
  = None.
Proof.
  assert (∀ f, f ∈ dom world_alice_bob → is_effort_csv f = false) as Hnone.
  { apply (proj1 (visualisation_input_None world_alice_bob)). vm_compute. reflexivity. }
  split.
  - apply (X16_ensure_report_exists_may_leave_no_table world_alice_bob
             (ChooseSelected (Some [1%Z])) sample_now Hnone).
  - apply (proj1 (proj2 (proj2 (proj2 (proj2
             (X16_ensure_report_exists_may_leave_no_table world_alice_bob
                (ChooseSelected (Some [1%Z])) sample_now Hnone))))) "alice").
    vm_compute. reflexivity.
Defined.

(** X17: after a report for a selection of other than one employee in which
    some employee has data, the table lookup finds a table, and one whose
    name is not below that of the table just written; it is the table just
    written whenever no generic table already present has a greater name. *)
Theorem X17_lookup_after_generic_report
    (w : World) (selected : list string) (now : datetime) (t : DataFrame) :
  length selected ≠ 1%nat →
  csv_table (build_report w selected now) = Some t →
  (∃ f, visualisation_input (write_report (build_report w selected now) w) = Some f ∧
        String.le (csv_path (build_report w selected now)) f) ∧
  ((∀ g, g ∈ dom w → is_effort_csv g = true →
         String.le g (csv_path (build_report w selected now))) →
   visualisation_input (write_report (build_report w selected now) w)
   = Some (csv_path (build_report w selected now))).
Proof.
  intros Hl Ht.
  pose proof (generic_csv_path_is_effort_csv w selected now Hl) as Hc.
  assert (csv_path (build_report w selected now)
          ∈ dom (write_report (build_report w selected now) w)) as Hd.
  { apply write_report_dom. right. right. rewrite Ht. eauto. }
  split.
  - destruct (visualisation_input (write_report (build_report w selected now) w))
      as [f|] eqn:E.
    + exists f. split; [done|].
      apply visualisation_input_Some in E as (_ & _ & Hmax). by apply Hmax.
    + rewrite visualisation_input_None in E. by rewrite (E _ Hd) in Hc.
  - intros Hmax. apply visualisation_input_Some. split; [done|]. split; [done|].
    intros g [Hg | [-> | [-> _]]]%write_report_dom Hgc.
    + by apply Hmax.
    + by rewrite excel_path_not_effort_csv in Hgc.
    + done.
Qed.

Lemma X17_lookup_after_generic_report_witness :
  ∃ f, visualisation_input
         (write_report (build_report world_alice_bob ["alice"; "bob"] sample_now)
                       world_alice_bob) = Some f ∧
       String.le (csv_path (build_report world_alice_bob ["alice"; "bob"] sample_now)) f.
Proof.
  apply (X17_lookup_after_generic_report world_alice_bob ["alice"; "bob"] sample_now
           (mkDF ["Employee"; "Study ID"; "Hours"; "Sheet"]
                 (flat_map (fun e => map (with_employee e)
                              (df_rows (load_employee_data world_alice_bob e)))
                           ["alice"; "bob"]))).
  - vm_compute. discriminate.
  - vm_compute. reflexivity.
Defined.

(** ** The weekday of a sheet label *)

Lemma get_weekday_parts_first (l1 : list string) (p : string) (l2 : list string) :
  Forall (fun q => is_date_candidate q = false) l1 →
  is_date_candidate p = true →
  get_weekday_parts (l1 ++ p :: l2) = strptime_weekday p.
Proof.
  intros H Hp. induction H as [|q l1 Hq _ IH]; simpl.
  - by rewrite Hp.
  - by rewrite Hq.
Qed.

Lemma get_weekday_parts_none (parts : list string) :
  Forall (fun q => is_date_candidate q = false) parts → get_weekday_parts parts = None.
Proof. intros H. induction H as [|q l Hq _ IH]; simpl; [done | by rewrite Hq]. Qed.

Lemma strptime_weekday_range p d : strptime_weekday p = Some d → (0 ≤ d ≤ 6)%Z.
Proof.
  unfold strptime_weekday. destruct (parse_ymd p) as [[[y m] dd]|]; [|done].
  destruct (valid_date y m dd); [|done]. intros [= <-].
  unfold weekday. pose proof (Z.mod_pos_bound (toordinal y m dd + 6) 7). lia.
Qed.

Lemma get_weekday_parts_range parts d :
  get_weekday_parts parts = Some d → (0 ≤ d ≤ 6)%Z.
Proof.
  induction parts as [|p parts IH]; simpl; [done|].
  destruct (is_date_candidate p); [apply strptime_weekday_range | apply IH].
Qed.

Lemma split_go_space cur c s :
  py_isspace c = true →
  split_go cur (String c s) = (flush_token cur ++ split_go EmptyString s)%list.
Proof. intros Hc. simpl. rewrite Hc. by destruct cur. Qed.

Lemma split_go_app_space cur a c b :
  py_isspace c = true →
  split_go cur (a ++ String c b) = (split_go cur a ++ split_go EmptyString b)%list.
Proof.
  intros Hc. revert cur. induction a as [|d a IH]; intros cur.
  - change (split_go cur (String c b)
            = (split_go cur EmptyString ++ split_go EmptyString b)%list).
    rewrite split_go_space by done. by destruct cur.
  - change (split_go cur (String d (a ++ String c b))
            = (split_go cur (String d a) ++ split_go EmptyString b)%list).
    simpl. destruct (py_isspace d).
    + destruct cur; simpl; by rewrite IH.
    + apply IH.
Qed.

Lemma rev_app_rev_app p a b :
  String.rev_app (String.rev_app p a) b = String.rev_app a (p ++ b).
Proof.
  revert a b. induction p as [|c p IH]; intros a b; [done|]. simpl.
  rewrite IH. done.
Qed.

Lemma split_go_token cur p :
  no_space p = true → cur ≠ EmptyString ∨ p ≠ EmptyString →
  split_go cur p = [String.rev (String.rev_app p cur)].
Proof.
  revert cur. induction p as [|c p IH]; intros cur Hp Hne; simpl.
  - destruct Hne as [Hne | Hne]; [by destruct cur | done].
  - simpl in Hp. apply andb_true_iff in Hp as [Hc Hp]. apply negb_true_iff in Hc.
    rewrite Hc. apply IH; [done | by left].
Qed.

Lemma str_split_token p :
  no_space p = true → p ≠ EmptyString → str_split p = [p].
Proof.
  intros Hp Hne. unfold str_split. rewrite split_go_token by auto.
  unfold String.rev. rewrite rev_app_rev_app. simpl. f_equal.
  clear. induction p as [|c p IH]; [done|].
  change (String c (p ++ "") = String c p). by rewrite IH.
Qed.

Lemma candidate_nonempty p : is_date_candidate p = true → p ≠ EmptyString.
Proof. by intros H ->. Qed.

(** Known dates: 1 January 1970 was a Thursday, 29 February 2024 a Thursday,
    1 January 2000 a Saturday, 1 March 2025 a Saturday. *)
Example weekday_known_dates :
  weekday 1970 1 1 = 3%Z ∧ weekday 2024 2 29 = 3%Z ∧
  weekday 2000 1 1 = 5%Z ∧ weekday 2025 3 1 = 5%Z ∧ toordinal 1970 1 1 = 719163%Z.
Proof. by vm_compute. Qed.

(** X18: the weekday of a sheet label is decided by the first token of ten
    characters that holds a hyphen: when that token is no valid date the
    label has no weekday, whatever follows it, and tokens before it that are
    not of that shape are skipped; a label without such a token has no
    weekday; a weekday, when there is one, lies between 0 and 6. *)
Theorem X18_get_weekday_first_candidate :
  (∀ sheet d, get_weekday sheet = Some d → (0 ≤ d ≤ 6)%Z) ∧
  (∀ p c rest,
     is_date_candidate p = true → no_space p = true → py_isspace c = true →
     get_weekday (p ++ String c rest) = strptime_weekday p) ∧
  (∀ l1 p l2,
     Forall (fun q => is_date_candidate q = false) l1 →
     is_date_candidate p = true →
     get_weekday_parts (l1 ++ p :: l2) = strptime_weekday p) ∧
  (∀ parts,
     Forall (fun q => is_date_candidate q = false) parts →
     get_weekday_parts parts = None) ∧
  get_weekday "2025-02-30 2025-03-01" = None ∧
  get_weekday "Week 2025-03-01" = Some 5%Z.
Proof.
  split; [|split; [|split; [|split; [|by vm_compute]]]].
  - intros sheet d. apply get_weekday_parts_range.
  - intros p c rest Hp Hs Hc. unfold get_weekday, str_split.
    rewrite split_go_app_space by done.
    fold (str_split p). rewrite str_split_token by (done || by apply candidate_nonempty).
    simpl. by rewrite Hp.
  - apply get_weekday_parts_first.
  - apply get_weekday_parts_none.
Qed.

Lemma X18_get_weekday_first_candidate_witness :
  get_weekday ("2025-02-30" ++ String " " "2025-03-01") = strptime_weekday "2025-02-30".
Proof.
  apply (proj1 (proj2 X18_get_weekday_first_candidate) "2025-02-30" " "%char "2025-03-01");
    reflexivity.
Defined.

(** ** Reading a report back *)

Lemma py_isspace_lower c : py_isspace (ascii_lower c) = py_isspace c.
Proof. destruct c as [[] [] [] [] [] [] [] []]; reflexivity. Qed.

Lemma no_space_lower s : no_space (str_lower s) = no_space s.
Proof. induction s as [|c s IH]; [done|]. simpl. by rewrite py_isspace_lower, IH. Qed.

Lemma no_space_app a b : no_space (a ++ b) = no_space a && no_space b.
Proof.
  induction a as [|c a IH]; [done|].
  change (no_space (String c (a ++ b)) = no_space (String c a) && no_space b).
  simpl. by rewrite IH, andb_assoc.
Qed.

Lemma str_startswith_inv p s : str_startswith p s = true → ∃ r, s = p ++ r.
Proof.
  revert s. induction p as [|a p IH]; intros s H; [by exists s|].
  destruct s as [|b s]; [done|]. simpl in H.
  destruct (Ascii.eqb a b) eqn:E; [|done].
  apply Ascii.eqb_eq in E as ->. destruct (IH s H) as [r ->]. by exists r.
Qed.

(** A text without whitespace cannot hold the header token. *)
Lemma no_space_no_header s : no_space s = true → str_contains "study id" s = false.
Proof.
  induction s as [|c s IH]; intros H; [done|].
  pose proof H as Hcs. simpl in H. apply andb_true_iff in H as [_ Hs].
  cbn [str_contains]. rewrite (IH Hs), orb_false_r.
  destruct (str_startswith "study id" (String c s)) eqn:E; [|done].
  apply str_startswith_inv in E as [r Hr]. rewrite Hr in Hcs.
  vm_compute in Hcs. done.
Qed.

Lemma no_space_uint d : no_space (NilEmpty.string_of_uint d) = true.
Proof. induction d; simpl; auto. Qed.

Lemma no_space_uint_zero d : no_space (NilZero.string_of_uint d) = true.
Proof.
  unfold NilZero.string_of_uint.
  destruct d; try done; apply (no_space_uint (_ d)).
Qed.

Lemma no_space_digits_of z : no_space (digits_of z) = true.
Proof.
  unfold digits_of, NilZero.string_of_int.
  destruct (Z.to_int z) as [d|d]; [apply no_space_uint_zero|].
  simpl. apply no_space_uint_zero.
Qed.

Lemma no_space_pct_text q : no_space (pct_text q) = true.
Proof.
  unfold pct_text. cbv zeta. rewrite !no_space_app, !no_space_digits_of.
  by repeat case_match; rewrite ?no_space_app, ?no_space_digits_of.
Qed.

Lemma is_digit_lower c : is_digit c = true → ascii_lower c = c.
Proof. destruct c as [[] [] [] [] [] [] [] []]; vm_compute; congruence. Qed.

Lemma is_digit_no_space c : is_digit c = true → py_isspace c = false.
Proof. destruct c as [[] [] [] [] [] [] [] []]; vm_compute; congruence. Qed.

Lemma span_digits_all s n :
  span_digits s = (n, EmptyString) → str_lower s = s ∧ no_space s = true.
Proof.
  revert n; induction s as [|c s IH]; intros n H; [done|].
  simpl in H. destruct (is_digit c) eqn:D; [|simplify_eq].
  destruct (span_digits s) as [m r] eqn:E. simplify_eq.
  destruct (IH m eq_refl) as [Hl Hn]. simpl.
  by rewrite (is_digit_lower c D), (is_digit_no_space c D), Hl, Hn.
Qed.

(** A study identifier, put in lower case, is what the scan for the start of
    the data looks for, and holds no whitespace. *)
Lemma study_id_lower s :
  fullmatch_STUDY s = true →
  search_study_anchored (str_lower s) = true ∧ no_space (str_lower s) = true.
Proof.
  unfold fullmatch_STUDY. intros H.
  destruct (strip_prefix "STUDY" s) as [rest|] eqn:E; [|done].
  apply strip_prefix_Some in E as ->.
  destruct (span_digits rest) as [[|n] [|]] eqn:Hsp; try done.
  destruct (span_digits_all rest _ Hsp) as [Hl Hn].
  rewrite str_lower_app, Hl. change (str_lower "STUDY") with "study". split.
  - unfold search_study_anchored.
    change (strip_prefix "study" ("study" ++ rest)) with (Some rest).
    cbv beta iota. by rewrite Hsp.
  - by rewrite no_space_app, Hn.
Qed.

Lemma summary_frame_ncols rows :
  ncols (map CStr summary_header :: map summary_line rows) = 4%nat.
Proof.
  assert (ncols (map summary_line rows) ≤ 4)%nat as H.
  { unfold ncols. induction rows as [|sr rows IH]; [simpl; lia|].
    cbn [map foldr summary_line length]. lia. }
  unfold ncols in *. cbn [map foldr summary_header length]. lia.
Qed.

Lemma summary_frame_rows rows :
  frame_rows (map CStr summary_header :: map summary_line rows)
  = map CStr summary_header :: map summary_line rows.
Proof.
  unfold frame_rows. rewrite summary_frame_ncols. simpl. f_equal.
  rewrite map_map. by apply map_ext.
Qed.

Lemma summary_line_no_header sr :
  fullmatch_STUDY (Account sr) = true →
  existsb (str_contains "study id") (row_str (summary_line sr)) = false ∧
  existsb search_study_anchored (row_str (summary_line sr)) = true.
Proof.
  intros [Hs Hn]%study_id_lower. unfold summary_line, row_str.
  cbn [map existsb astype_str]. split.
  - rewrite !no_space_no_header; [done | | | |]; try done;
      rewrite no_space_lower;
      (apply no_space_pct_text || apply no_space_digits_of).
  - by rewrite Hs.
Qed.

Lemma summary_lines_all_valid rows :
  Forall (fun sr => fullmatch_STUDY (Account sr) = true) rows →
  filter (fun r => row_is_valid 0 r = true) (map summary_line rows)
  = map summary_line rows.
Proof.
  induction 1 as [|sr rows Hsr _ IH]; [done|].
  cbn [map]. rewrite filter_cons_True by exact Hsr. by rewrite IH.
Qed.

(** What the extractor makes of a summary sheet of a report: the data
    starts below the header, every line passes the mask, and since each
    column holds a header text none is summed. *)
Lemma extract_summary_frame rows name :
  rows ≠ [] → Forall (fun sr => fullmatch_STUDY (Account sr) = true) rows →
  df_rows (_extract_study_hours_from_sheet
             (map CStr summary_header :: map summary_line rows) name)
  = map (fun sr => mkRow (Account sr) 0 name None) rows.
Proof.
  intros Hne Hall.
  set (g := map CStr summary_header :: map summary_line rows).
  pose proof (summary_frame_rows rows) as Hfr. fold g in Hfr.
  pose proof (summary_frame_ncols rows) as Hnc. fold g in Hnc.
  destruct rows as [|sr rows']; [done|].
  apply Forall_cons in Hall as Hall'. destruct Hall' as [Hsr Hrest].
  destruct (summary_line_no_header sr Hsr) as [Hh Hs].
  assert (data_start g = 1%nat) as Hds.
  { unfold data_start. rewrite Hfr. unfold g. cbn [scan_data_start map].
    change (existsb (str_contains "study id") (row_str (map CStr summary_header)))
      with false.
    change (existsb search_study_anchored (row_str (map CStr summary_header)))
      with false.
    cbv beta iota. by rewrite Hh, Hs. }
  assert (df_data g = map summary_line (sr :: rows')) as Hdd.
  { unfold df_data. by rewrite Hds, Hfr. }
  assert (study_col g = Some 0%nat) as Hsc.
  { unfold study_col, find_study_col. rewrite Hnc, Hdd.
    cbn [seq find]. unfold any, valid_mask, column.
    cbn [map existsb summary_line cell_at nth astype_str]. by rewrite Hsr. }
  assert (numeric_cols g = []) as Hnum.
  { apply (text_row_no_numeric_cols g 0 (map CStr summary_header)).
    - by rewrite Hfr.
    - by repeat constructor. }
  rewrite extract_rows, Hsc, Hnum, Hdd.
  rewrite (summary_lines_all_valid _ Hall).
  rewrite map_map. by apply map_ext.
Qed.

Lemma wb_sheets_single w e now :
  wb_sheets (build_report w [e] now) = [(str_take 31 e, employee_sheet w e)].
Proof.
  unfold build_report. cbn [wb_sheets length map Nat.ltb Nat.leb app].
  by destruct (tagged_frames w [e]).
Qed.

(** A workbook of one sheet that is no metadata sheet and yields rows. *)
Lemma load_single_sheet (w : World) id title g :
  w !! (id ++ DATA_FILE_EXTENSION) = Some (FWorkbook [(title, g)]) →
  is_metadata_sheet title = false →
  df_rows (_extract_study_hours_from_sheet g title) ≠ [] →
  df_rows (load_employee_data w id) = df_rows (_extract_study_hours_from_sheet g title).
Proof.
  intros Hw Hm Hne. unfold load_employee_data, load_employee_data_raw.
  rewrite Hw. unfold sheet_frames.
  rewrite (filter_cons_True _ (title, g)) by exact Hm. cbn [map].
  assert (df_empty (_extract_study_hours_from_sheet g title) = false) as He.
  { unfold df_empty. rewrite extract_columns.
    by destruct (df_rows (_extract_study_hours_from_sheet g title)). }
  rewrite filter_cons_True by exact He.
  cbn [fst filter]. unfold pd_concat. cbn [df_rows map concat]. apply app_nil_r.
Qed.

Lemma summary_rows_are_study_lines w e header rows :
  employee_sheet w e = SheetTable header rows →
  header = summary_header ∧ rows ≠ [] ∧
  Forall (fun sr => fullmatch_STUDY (Account sr) = true) rows.
Proof.
  intros (-> & Htot & ->)%employee_sheet_table. split; [done|]. split.
  - destruct (df_rows (load_employee_data w e)) as [|r0 R] eqn:E; [done|].
    assert (StudyId r0 ∈ study_ids (r0 :: R)) as Hin.
    { apply elem_of_study_ids. exists r0. split; [left | done]. }
    destruct (study_ids (r0 :: R)); [by apply not_elem_of_nil in Hin | done].
  - apply Forall_forall. intros sr (s & <- & Hs)%list_elem_of_In%in_map_iff. simpl.
    apply list_elem_of_In, elem_of_study_ids in Hs as (r & Hr & <-).
    by eapply load_employee_data_study_ids.
Qed.

(** X19: the workbook of a report for one employee, which is taken for an
    employee file afterwards, is read as data: loading it gives one row per
    line of the summary sheet, with the study of the line, the title of the
    sheet as Sheet, and Hours 0, since every column of the sheet holds a
    header text. *)
Theorem X19_own_report_is_read_as_data
    (w : World) (choice : report_choice) (now : datetime) (r : Report) (e : string)
    (header : list string) (rows : list SummaryRow) :
  snd (generate_report w choice now) = Some r →
  select_employees (get_employee_files w) choice = Some [e] →
  employee_sheet w e = SheetTable header rows →
  is_metadata_sheet (default_title (str_take 31 e)) = false →
  e ++ "Files_" ++ strftime_stamp now
  ∈ get_current_files (fst (generate_report w choice now)) ∧
  df_rows (load_employee_data (fst (generate_report w choice now))
                              (e ++ "Files_" ++ strftime_stamp now))
  = map (fun sr => mkRow (Account sr) 0 (default_title (str_take 31 e)) None) rows.
Proof.
  intros Hr Hsel Hsheet Hmeta.
  destruct (generate_report_written _ _ _ _ Hr) as (sel & Hsel' & -> & [sheets Hw] & ->).
  assert (sel = [e]) as -> by congruence.
  destruct (summary_rows_are_study_lines w e header rows Hsheet) as (-> & Hne & Hall).
  split.
  { assert (str_startswith "effort" (str_lower e) = false) as He.
    { apply select_employees_tracked in Hsel. rewrite Forall_forall in Hsel.
      specialize (Hsel e ltac:(left)). apply elem_of_tracked in Hsel as [_ Hsel].
      by eapply current_file_not_effort. }
    rewrite get_current_files_write_report, get_current_files_insert.
    rewrite excel_path_shape, report_prefix_single.
    destruct (own_workbook_is_employee_file e (strftime_stamp now) He) as [-> ->].
    apply elem_of_union. left. by apply elem_of_singleton. }
  pose proof Hw as Hw'. unfold workbook_sheets in Hw'.
  rewrite wb_sheets_single, Hsheet in Hw'.
  apply openpyxl_sheets_cons in Hw' as (_ & _ & tail & -> & [= <-]).
  change (avoid_duplicate_name [] (default_title (str_take 31 e)))
    with (default_title (str_take 31 e)) in *.
  rewrite <- (extract_summary_frame rows (default_title (str_take 31 e)) Hne Hall).
  apply load_single_sheet; [|done|].
  - destruct (report_paths_differ w [e] now) as (Hec & _ & _).
    pose proof (excel_path_shape w [e] now) as Hpath.
    rewrite report_prefix_single in Hpath.
    unfold DATA_FILE_EXTENSION. rewrite <- Hpath.
    unfold write_report. rewrite Hw. cbn [default from_option].
    destruct (csv_table (build_report w [e] now));
      rewrite ?lookup_insert_ne by done; by rewrite lookup_insert_eq.
  - rewrite (extract_summary_frame rows _ Hne Hall). by destruct rows.
Qed.

Lemma X19_own_report_is_read_as_data_witness :
  df_rows (load_employee_data
             (fst (generate_report world_alice_bob (ChooseSelected (Some [2%Z])) sample_now))
             ("bob" ++ "Files_" ++ strftime_stamp sample_now))
  = [mkRow "STUDY1" 0 "bob" None; mkRow "STUDY2" 0 "bob" None].
Proof.
  apply (proj2 (X19_own_report_is_read_as_data world_alice_bob
                  (ChooseSelected (Some [2%Z])) sample_now
                  (build_report world_alice_bob ["bob"] sample_now) "bob"
                  summary_header
                  [mkSummaryRow "STUDY1" 20 25 (percent 20 25);
                   mkSummaryRow "STUDY2" 5 25 (percent 5 25)]
                  ltac:(vm_compute; reflexivity) ltac:(vm_compute; reflexivity)
                  ltac:(vm_compute; reflexivity) ltac:(vm_compute; reflexivity))).
Defined.
